(** * bmc-shim: a Redfish power-control shim, embedded and verified

    The development follows the Go sources:
    - [internal/backend/backend.go], [noop.go], [command.go],
      [homeassistant.go]: the backend interface, its optional capability
      interfaces and the three backend variants;
    - the server ([package server]): configuration, the authentication
      middleware, the router's handlers, the reset state machine and the
      readiness aggregation.

    Go values are modelled as follows.  A Go [string] is a Rocq [string]
    (a sequence of bytes); a Go [map[string]T] is a [gmap string T], a read
    of a missing key giving the zero value; an [error] is its message
    ([err.Error()]), [nil] being [None]; an interface value is a record of
    method hooks, an optional interface being an [option] of a hook, so that
    the type assertion [be.(backend.HealthChecker)] is a [match] on it.
    Calls that leave the process (running a shell command, an HTTP request
    of the remote-switch backend) go through a [Host] type class, and thread
    an abstract world state. *)

From Stdlib Require Import Ascii String ZArith List Bool Lia.
From stdpp Require Import base option list gmap strings fin_maps pretty.

Open Scope string_scope.
Open Scope Z_scope.

(** ** The functions of Go's [strings] package that the program uses *)

Module GoStrings.

(** [strings.HasPrefix]: [len(s) >= len(prefix) && s[:len(prefix)] == prefix]. *)
Definition HasPrefix (s prefix : string) : bool :=
  (String.length prefix <=? String.length s)%nat
  && String.eqb (substring 0 (String.length prefix) s) prefix.

(** [strings.HasSuffix]:
    [len(s) >= len(suffix) && s[len(s)-len(suffix):] == suffix]. *)
Definition HasSuffix (s suffix : string) : bool :=
  (String.length suffix <=? String.length s)%nat
  && String.eqb
       (substring (String.length s - String.length suffix)
                  (String.length suffix) s)
       suffix.

(** [strings.TrimPrefix]: [s] without the leading [prefix], or [s] itself. *)
Definition TrimPrefix (s prefix : string) : string :=
  if HasPrefix s prefix
  then substring (String.length prefix)
                 (String.length s - String.length prefix) s
  else s.

(** [strings.TrimSuffix]: [s] without the trailing [suffix], or [s] itself. *)
Definition TrimSuffix (s suffix : string) : string :=
  if HasSuffix s suffix
  then substring 0 (String.length s - String.length suffix) s
  else s.

(** Membership of a byte in a cutset. *)
Fixpoint inCutset (c : ascii) (cutset : string) : bool :=
  match cutset with
  | EmptyString => false
  | String d rest => Ascii.eqb c d || inCutset c rest
  end.

(** [strings.TrimRight]: drops every trailing byte that is in [cutset]
    (as the program uses it, with the one-byte cutset ["/"]). *)
Fixpoint TrimRight (s cutset : string) : string :=
  match s with
  | EmptyString => EmptyString
  | String c rest =>
      match TrimRight rest cutset with
      | EmptyString => if inCutset c cutset then EmptyString
                       else String c EmptyString
      | t => String c t
      end
  end.

(** The byte-wise lowering that [strings.ToLower] performs on ASCII
    input: ['A'..'Z'] are moved to ['a'..'z'], every other byte is kept.
    (On input that is not ASCII the Go function lowers rune by rune; no
    rune outside ASCII lowers to ['o'] or ['n'], so that comparing the
    result with ["on"] agrees with this model on every input.) *)
Definition lowerByte (c : ascii) : ascii :=
  let n := nat_of_ascii c in
  if ((65 <=? n) && (n <=? 90))%nat then ascii_of_nat (n + 32) else c.

Fixpoint ToLower (s : string) : string :=
  match s with
  | EmptyString => EmptyString
  | String c rest => String (lowerByte c) (ToLower rest)
  end.

(** The bytes that [strings.TrimSpace] takes as ASCII white space:
    tab, line feed, vertical tab, form feed, carriage return, space. *)
Definition asciiSpace (c : ascii) : bool :=
  let n := nat_of_ascii c in
  (n =? 32)%nat || ((9 <=? n) && (n <=? 13))%nat.

(** The UTF-8 encodings, of two and of three bytes, of the other runes of
    [unicode.IsSpace]: U+0085, U+00A0; U+1680, U+2000 to U+200A, U+2028,
    U+2029, U+202F, U+205F, U+3000. *)
Definition space2 (a b : ascii) : bool :=
  (nat_of_ascii a =? 194)%nat
  && ((nat_of_ascii b =? 133) || (nat_of_ascii b =? 160))%nat.

Definition space3 (a b c : ascii) : bool :=
  let x := nat_of_ascii a in
  let y := nat_of_ascii b in
  let z := nat_of_ascii c in
  ((x =? 225) && (y =? 154) && (z =? 128))%nat
  || ((x =? 226) && (y =? 128)
      && (((128 <=? z) && (z <=? 138)) || (z =? 168) || (z =? 169)
          || (z =? 175)))%nat
  || ((x =? 226) && (y =? 129) && (z =? 159))%nat
  || ((x =? 227) && (y =? 128) && (z =? 128))%nat.

(** Dropping the white space runes at the start of a string. *)
Fixpoint trimLeftSpace (s : string) : string :=
  match s with
  | EmptyString => EmptyString
  | String a r =>
      if asciiSpace a then trimLeftSpace r
      else
        match r with
        | String b r2 =>
            if space2 a b then trimLeftSpace r2
            else
              match r2 with
              | String c r3 => if space3 a b c then trimLeftSpace r3 else s
              | EmptyString => s
              end
        | EmptyString => s
        end
  end.

(** The same on a string whose bytes are in reverse order. *)
Fixpoint trimLeftSpaceRev (s : string) : string :=
  match s with
  | EmptyString => EmptyString
  | String a r =>
      if asciiSpace a then trimLeftSpaceRev r
      else
        match r with
        | String b r2 =>
            if space2 b a then trimLeftSpaceRev r2
            else
              match r2 with
              | String c r3 => if space3 c b a then trimLeftSpaceRev r3 else s
              | EmptyString => s
              end
        | EmptyString => s
        end
  end.

(** The bytes of a string in reverse order. *)
Fixpoint revAppend (s acc : string) : string :=
  match s with
  | EmptyString => acc
  | String c r => revAppend r (String c acc)
  end.

Definition reverse (s : string) : string := revAppend s EmptyString.

(** [strings.TrimSpace]: the string without the white space runes at its
    start and at its end. *)
Definition TrimSpace (s : string) : string :=
  reverse (trimLeftSpaceRev (reverse (trimLeftSpace s))).

(** [strings.Split(s, sep)] for a separator of one byte, as the program
    calls it: the pieces of [s] between the separators; one piece, [s]
    itself, when there is no separator. *)
Fixpoint Split (s : string) (sep : ascii) : list string :=
  match s with
  | EmptyString => [EmptyString]
  | String c r =>
      match Split r sep with
      | cur :: more =>
          if Ascii.eqb c sep then EmptyString :: cur :: more
          else String c cur :: more
      | [] => []
      end
  end.

(** The parts of [s] before and after the first [sep], if there is one. *)
Fixpoint cut (s : string) (sep : ascii) : option (string * string) :=
  match s with
  | EmptyString => None
  | String c r =>
      if Ascii.eqb c sep then Some (EmptyString, r)
      else match cut r sep with
           | Some (before, after) => Some (String c before, after)
           | None => None
           end
  end.

(** [strings.SplitN(s, sep, 2)] for a separator of one byte. *)
Definition SplitN2 (s : string) (sep : ascii) : list string :=
  match cut s sep with
  | Some (before, after) => [before; after]
  | None => [s]
  end.

End GoStrings.

(** ** JSON values, as handed to [encoding/json] *)

(** A [map[string]any] literal is a [JObject]; the encoder fixes the order
    of the keys, so the order of the pairs carries no meaning. *)
#[local] Unset Elimination Schemes.
Inductive JSON : Type :=
| JString (s : string)
| JNumber (n : Z)
| JArray (l : list JSON)
| JObject (fields : list (string * JSON)).
#[local] Set Elimination Schemes.

(** The value of a field of a JSON object. *)
Fixpoint assoc (k : string) (fields : list (string * JSON)) : option JSON :=
  match fields with
  | [] => None
  | (k', v) :: rest => if String.eqb k k' then Some v else assoc k rest
  end.

Definition jfield (k : string) (v : JSON) : option JSON :=
  match v with
  | JObject fields => assoc k fields
  | _ => None
  end.

Definition jstring (v : JSON) : option string :=
  match v with JString s => Some s | _ => None end.

Definition jstrings (v : JSON) : option (list string) :=
  match v with
  | JArray l => Some (omap jstring l)
  | _ => None
  end.

(** ** Errors *)

(** An [error] value is modelled by its message. *)
Definition error : Type := string.

(** ** [net/http]: requests, response writers *)

Module http.

Definition MethodGet : string := "GET".
Definition MethodPost : string := "POST".

Definition StatusOK : Z := 200.
Definition StatusBadRequest : Z := 400.
Definition StatusUnauthorized : Z := 401.
Definition StatusNotFound : Z := 404.
Definition StatusMethodNotAllowed : Z := 405.
Definition StatusServiceUnavailable : Z := 503.

(** What the handlers read of a [*http.Request]: the method, [r.URL.Path],
    the result of [r.BasicAuth()] ([None] when it reports [ok = false]),
    and the result of decoding the body into [struct{ ResetType string }]
    ([None] when [Decode] returns an error; a body without the field
    decodes to the empty string). *)
Record Request : Type := {
  Method : string;
  Path : string;
  BasicAuth : option (string * string);
  ResetBody : option string
}.

(** One write to the response body: raw bytes, or a value sent through a
    JSON encoder. *)
Inductive Chunk : Type :=
| Raw (s : string)
| Encoded (v : JSON).

(** The state of a [http.ResponseWriter]: the status written (0 before
    [WriteHeader]), the header map, the body written so far. *)
Record ResponseWriter : Type := {
  StatusCode : Z;
  Header : gmap string string;
  Body : list Chunk
}.

Definition newWriter : ResponseWriter :=
  {| StatusCode := 0; Header := ∅; Body := [] |}.

(** [w.Header().Set(k, v)] *)
Definition HeaderSet (k v : string) (w : ResponseWriter) : ResponseWriter :=
  {| StatusCode := StatusCode w;
     Header := <[k := v]> (Header w);
     Body := Body w |}.

(** [w.WriteHeader(code)] *)
Definition WriteHeader (code : Z) (w : ResponseWriter) : ResponseWriter :=
  {| StatusCode := code; Header := Header w; Body := Body w |}.

(** [w.Write(data)] *)
Definition Write (c : Chunk) (w : ResponseWriter) : ResponseWriter :=
  {| StatusCode := StatusCode w;
     Header := Header w;
     Body := Body w ++ [c] |}.

(** [http.Error(w, msg, code)]: a plain-text reply, the message followed
    by a newline. *)
Definition Error (w : ResponseWriter) (msg : string) (code : Z)
  : ResponseWriter :=
  Write (Raw (msg +:+ String "010"%char EmptyString))
    (WriteHeader code
       (HeaderSet "X-Content-Type-Options" "nosniff"
          (HeaderSet "Content-Type" "text/plain; charset=utf-8" w))).

(** [http.NotFound(w, r)] *)
Definition NotFound (w : ResponseWriter) : ResponseWriter :=
  Error w "404 page not found" StatusNotFound.

End http.

Import http.

(** ** The outside world of the backends *)

(** An HTTP request sent by the remote-switch backend. *)
Record ClientRequest : Type := {
  creqMethod : string;
  creqURL : string;
  creqHeader : list (string * string);
  creqPayload : option JSON
}.

(** The body of a state reply, as decoded into
    [struct{ State string; Attributes map[string]interface{} }]. *)
Record StateBody : Type := {
  State : string;
  Attributes : list (string * JSON)
}.

(** A reply received by the client: its status code and the outcome of
    decoding its body (an [error] when [Decode] fails). *)
Record ClientResponse : Type := {
  respStatusCode : Z;
  respDecoded : error + StateBody
}.

(** What a backend can ask of its host: run a command ([exec.Cmd.Run]) and
    send an HTTP request ([http.Client.Do], which covers the failure to
    build the request too).  Both return their result and the next state
    of the world. *)
Class Host (W : Type) : Type := {
  execRun : string -> list string -> W -> option error * W;
  clientDo : ClientRequest -> W -> (error + ClientResponse) * W
}.

(** ** [package backend] *)

Module backend.

(** The [Backend] interface with its three optional interfaces
    ([PowerStateProvider], [NameProvider], [HealthChecker]).  A hook of
    an optional interface is [None] when the dynamic type of the value
    does not implement it. *)
Record Backend (W : Type) : Type := {
  PowerOn : W -> option error * W;
  PowerOff : W -> option error * W;
  CurrentState : option (W -> (bool * option error) * W);
  DisplayName : option (W -> (string * option error) * W);
  Ping : option (W -> option error * W)
}.
Arguments PowerOn {W} _ _.
Arguments PowerOff {W} _ _.
Arguments CurrentState {W} _.
Arguments DisplayName {W} _.
Arguments Ping {W} _.

Section Variants.
Context {W : Type} `{Host W}.

(** *** noop.go *)

(** [NewNoop]: both operations only log, and return [nil]. *)
Definition NewNoop : Backend W :=
  {| PowerOn := fun w => (None, w);
     PowerOff := fun w => (None, w);
     CurrentState := None;
     DisplayName := None;
     Ping := None |}.

(** *** command.go *)

Definition command_PowerOn (onCmd : string) (w : W) : option error * W :=
  execRun "sh" ["-lc"; onCmd] w.

Definition command_PowerOff (offCmd : string) (w : W) : option error * W :=
  execRun "sh" ["-lc"; offCmd] w.

Definition command_Ping (w : W) : option error * W := (None, w).

Definition command (onCmd offCmd : string) : Backend W :=
  {| PowerOn := command_PowerOn onCmd;
     PowerOff := command_PowerOff offCmd;
     CurrentState := None;
     DisplayName := None;
     Ping := Some command_Ping |}.

Definition NewCommand (onCmd offCmd : string) : error + Backend W :=
  if String.eqb onCmd "" || String.eqb offCmd ""
  then inl "command backend requires both --on-cmd and --off-cmd"
  else inr (command onCmd offCmd).

(** *** homeassistant.go *)

Record HomeAssistant : Type := {
  baseURL : string;
  token : string;
  entityID : string
}.

(** [callService]: a 2xx reply is a success, anything else an error. *)
Definition callService (h : HomeAssistant) (domain service : string)
           (w : W) : option error * W :=
  let req :=
    {| creqMethod := MethodPost;
       creqURL := baseURL h +:+ "/api/services/" +:+ domain +:+ "/" +:+ service;
       creqHeader := [("Authorization", "Bearer " +:+ token h);
                      ("Content-Type", "application/json")];
       creqPayload := Some (JObject [("entity_id", JString (entityID h))]) |} in
  match clientDo req w with
  | (inl err, w') => (Some err, w')
  | (inr resp, w') =>
      if (respStatusCode resp <? 200) || (300 <=? respStatusCode resp)
      then (Some ("homeassistant service " +:+ domain +:+ "." +:+ service
                  +:+ ": http " +:+ pretty (respStatusCode resp)), w')
      else (None, w')
  end.

(** [fetchState] returns [(state, friendlyName, error)]. *)
Definition fetchState (h : HomeAssistant) (w : W)
  : (string * string * option error) * W :=
  let req :=
    {| creqMethod := MethodGet;
       creqURL := baseURL h +:+ "/api/states/" +:+ entityID h;
       creqHeader := [("Authorization", "Bearer " +:+ token h);
                      ("Accept", "application/json")];
       creqPayload := None |} in
  match clientDo req w with
  | (inl err, w') => (("", "", Some err), w')
  | (inr resp, w') =>
      if negb (respStatusCode resp =? 200)
      then (("", "", Some ("homeassistant state: http "
                           +:+ pretty (respStatusCode resp))), w')
      else
        match respDecoded resp with
        | inl err => (("", "", Some err), w')
        | inr body =>
            let name :=
              match assoc "friendly_name" (Attributes body) with
              | Some (JString s) => s
              | _ => ""
              end in
            ((State body, name, None), w')
        end
  end.

Definition HomeAssistant_PowerOn (h : HomeAssistant) : W -> option error * W :=
  callService h "switch" "turn_on".

Definition HomeAssistant_PowerOff (h : HomeAssistant) : W -> option error * W :=
  callService h "switch" "turn_off".

Definition HomeAssistant_CurrentState (h : HomeAssistant) (w : W)
  : (bool * option error) * W :=
  match fetchState h w with
  | ((state, _, Some err), w') => ((false, Some err), w')
  | ((state, _, None), w') =>
      ((String.eqb (GoStrings.ToLower state) "on", None), w')
  end.

Definition HomeAssistant_DisplayName (h : HomeAssistant) (w : W)
  : (string * option error) * W :=
  match fetchState h w with
  | ((_, name, err), w') => ((name, err), w')
  end.

(** A [*HomeAssistant] seen as a [Backend] value. *)
Definition homeassistant (h : HomeAssistant) : Backend W :=
  {| PowerOn := HomeAssistant_PowerOn h;
     PowerOff := HomeAssistant_PowerOff h;
     CurrentState := Some (HomeAssistant_CurrentState h);
     DisplayName := Some (HomeAssistant_DisplayName h);
     Ping := None |}.

Definition NewHomeAssistant (baseURL token entityID : string)
  : error + HomeAssistant :=
  if String.eqb baseURL "" || String.eqb token "" || String.eqb entityID ""
  then inl "homeassistant backend requires baseURL, token, and entityID"
  else inr {| baseURL := GoStrings.TrimRight baseURL "/";
              token := token;
              entityID := entityID |}.

End Variants.

End backend.

Import backend.

(** ** [package server] *)

Module server.

(** [time.Second], a [time.Duration] in nanoseconds. *)
Definition Second : Z := 1000000000.

Record Config (W : Type) : Type := {
  Listen : string;
  Username : string;
  Password : string;
  Systems : gmap string (Backend W)
}.
Arguments Listen {W} _.
Arguments Username {W} _.
Arguments Password {W} _.
Arguments Systems {W} _.

Record Boot : Type := {
  BootSourceOverrideTarget : string;
  BootSourceOverrideEnabled : string;
  BootSourceOverrideMode : string
}.

(** The zero value of [Boot], read from the map at a missing key. *)
Definition zeroBoot : Boot :=
  {| BootSourceOverrideTarget := "";
     BootSourceOverrideEnabled := "";
     BootSourceOverrideMode := "" |}.

(** What a request does outside the server's own maps, in order: the
    calls of backend methods, with the id of the system whose backend is
    called, and the sleep of the restart sequence. *)
Inductive Event : Type :=
| EvPowerOn (id : string)
| EvPowerOff (id : string)
| EvCurrentState (id : string)
| EvDisplayName (id : string)
| EvPing (id : string)
| EvSleep (d : Z).

(** The mutable part of a running [Server] (the maps [last] and [boot],
    which the lock [mu] guards), the state of the outside world, and the
    events so far.  The configuration [cfg] never changes after [New] and
    is passed along as a plain argument. *)
Record Store (W : Type) : Type := {
  last : gmap string bool;
  boot : gmap string Boot;
  world : W;
  trace : list Event
}.
Arguments last {W} _.
Arguments boot {W} _.
Arguments world {W} _.
Arguments trace {W} _.

(** Code that reads and writes the state. *)
Definition M (W A : Type) : Type := Store W -> A * Store W.

Definition ret {W A : Type} (a : A) : M W A := fun st => (a, st).

Definition bind {W A B : Type} (m : M W A) (k : A -> M W B) : M W B :=
  fun st => let (a, st') := m st in k a st'.

Notation "'let*' x ':=' m 'in' k" := (bind m (fun x => k))
  (at level 10, x name, m at level 100, k at level 200).

Section Handlers.
Context {W : Type}.

(** [s.last[id]] under the read lock. *)
Definition getLast (id : string) : M W bool :=
  fun st => (default false (last st !! id), st).

(** [s.last[id] = v] under the write lock. *)
Definition setLast (id : string) (v : bool) : M W unit :=
  fun st => (tt, {| last := <[id := v]> (last st);
                    boot := boot st;
                    world := world st;
                    trace := trace st |}).

(** [s.boot[id]] under the read lock. *)
Definition getBoot (id : string) : M W Boot :=
  fun st => (default zeroBoot (boot st !! id), st).

(** A call that leaves the server: the event is recorded and the world
    moves on. *)
Definition call {A : Type} (ev : Event) (f : W -> A * W) : M W A :=
  fun st => let (a, w') := f (world st) in
            (a, {| last := last st;
                   boot := boot st;
                   world := w';
                   trace := trace st ++ [ev] |}).

(** [time.Sleep(d)] *)
Definition sleep (d : Z) : M W unit :=
  fun st => (tt, {| last := last st;
                    boot := boot st;
                    world := world st;
                    trace := trace st ++ [EvSleep d] |}).

Definition Handler : Type := ResponseWriter -> Request -> M W ResponseWriter.

(** [New]: both maps start empty. *)
Definition New (cfg : Config W) (w0 : W) : Store W :=
  {| last := ∅; boot := ∅; world := w0; trace := [] |}.

(** [loggingMiddleware]: logs the request and the time taken, and hands
    the request (its body buffered and put back) to [next]. *)
Definition loggingMiddleware (next : Handler) : Handler :=
  fun w r => next w r.

(** [authMiddleware] *)
Definition authMiddleware (cfg : Config W) (next : Handler) : Handler :=
  fun w r =>
    if String.eqb (Path r) "/redfish/v1/" || String.eqb (Path r) "/redfish/v1"
       || String.eqb (Path r) "/livez" || String.eqb (Path r) "/readyz"
    then next w r
    else if String.eqb (Username cfg) "" && String.eqb (Password cfg) ""
    then next w r
    else
      match BasicAuth r with
      | Some (usr, pwd) =>
          if negb (String.eqb usr (Username cfg))
             || negb (String.eqb pwd (Password cfg))
          then ret (http.Error
                      (HeaderSet "WWW-Authenticate" "Basic realm=redfish" w)
                      "unauthorized" StatusUnauthorized)
          else next w r
      | None =>
          ret (http.Error
                 (HeaderSet "WWW-Authenticate" "Basic realm=redfish" w)
                 "unauthorized" StatusUnauthorized)
      end.

(** [writeJSON] *)
Definition writeJSON (w : ResponseWriter) (code : Z) (v : JSON)
  : ResponseWriter :=
  Write (Encoded v)
    (WriteHeader code (HeaderSet "Content-Type" "application/json" w)).

(** [handleRoot] *)
Definition handleRoot : Handler :=
  fun w r =>
    if negb (String.eqb (Method r) MethodGet)
    then ret (http.Error w "method not allowed" StatusMethodNotAllowed)
    else ret (writeJSON w StatusOK
                (JObject
                   [("@odata.type", JString "#ServiceRoot.v1_0_0.ServiceRoot");
                    ("@odata.id", JString "/redfish/v1/");
                    ("Id", JString "RootService");
                    ("Name", JString "BMC Shim ServiceRoot");
                    ("Systems",
                      JObject [("@odata.id", JString "/redfish/v1/Systems")])])).

(** [handleLivez] *)
Definition handleLivez : Handler :=
  fun w r => ret (Write (Raw "ok") (WriteHeader StatusOK w)).

(** The loop of [handleReadyz] over the registry, in the order [order]
    in which [range] happens to yield the entries: [true] as soon as a
    backend has no [Ping] or its [Ping] returns [nil]. *)
Fixpoint readyzLoop (order : list (string * Backend W)) : M W bool :=
  match order with
  | [] => ret false
  | (id, be) :: rest =>
      match Ping be with
      | Some ping =>
          let* err := call (EvPing id) ping in
          match err with
          | None => ret true
          | Some _ => readyzLoop rest
          end
      | None => ret true
      end
  end.

(** [handleReadyz] *)
Definition handleReadyz (cfg : Config W)
           (order : list (string * Backend W)) : Handler :=
  fun w r =>
    if (size (Systems cfg) =? 0)%nat
    then ret (Write (Raw "ok") (WriteHeader StatusOK w))
    else
      let* success := readyzLoop order in
      if success
      then ret (Write (Raw "ok") (WriteHeader StatusOK w))
      else ret (http.Error w "all backends failed" StatusServiceUnavailable).

(** [handleSystems], [order] being the order of the [range] loop. *)
Definition handleSystems (cfg : Config W)
           (order : list (string * Backend W)) : Handler :=
  fun w r =>
    if negb (String.eqb (Method r) MethodGet)
    then ret (http.Error w "method not allowed" StatusMethodNotAllowed)
    else
      let members :=
        map (fun e : string * Backend W =>
               JObject [("@odata.id",
                          JString ("/redfish/v1/Systems/" +:+ fst e))])
            order in
      ret (writeJSON w StatusOK
             (JObject
                [("@odata.id", JString "/redfish/v1/Systems");
                 ("Members", JArray members);
                 ("Members@odata.count", JNumber (Z.of_nat (length members)));
                 ("Name", JString "Systems Collection")])).

(** [applyReset] *)
Definition applyReset (id : string) (be : Backend W) (resetType : string)
  : M W (option error) :=
  if String.eqb resetType "On" then
    let* err := call (EvPowerOn id) (PowerOn be) in
    match err with
    | Some e => ret (Some e)
    | None => let* _ := setLast id true in ret None
    end
  else if String.eqb resetType "ForceOff"
          || String.eqb resetType "GracefulShutdown"
          || String.eqb resetType "Off" then
    let* err := call (EvPowerOff id) (PowerOff be) in
    match err with
    | Some e => ret (Some e)
    | None => let* _ := setLast id false in ret None
    end
  else if String.eqb resetType "ForceRestart"
          || String.eqb resetType "GracefulRestart" then
    let* err := call (EvPowerOff id) (PowerOff be) in
    match err with
    | Some e => ret (Some e)
    | None =>
        let* _ := sleep (2 * Second) in
        let* err := call (EvPowerOn id) (PowerOn be) in
        match err with
        | Some e => ret (Some e)
        | None => let* _ := setLast id true in ret None
        end
    end
  else ret (Some "unsupported ResetType").

(** The power state that [handleSystem] reports for [id]: the backend's
    own answer when it has one and gives it without error, the cached
    value otherwise. *)
Definition currentOn (id : string) (be : Backend W) : M W bool :=
  match CurrentState be with
  | Some ps =>
      let* res := call (EvCurrentState id) ps in
      match res with
      | (v, None) => ret v
      | (_, Some _) => getLast id
      end
  | None => getLast id
  end.

(** The name that [handleSystem] reports for [id]. *)
Definition friendlyName (id : string) (be : Backend W) : M W string :=
  match DisplayName be with
  | Some np =>
      let* res := call (EvDisplayName id) np in
      match res with
      | (n, None) => if negb (String.eqb n "") then ret n
                     else ret ("System " +:+ id)
      | (_, Some _) => ret ("System " +:+ id)
      end
  | None => ret ("System " +:+ id)
  end.

(** The system document written by [handleSystem]. *)
Definition systemDocument (id name powerState : string) (b : Boot) : JSON :=
  JObject
    [("@odata.id", JString ("/redfish/v1/Systems/" +:+ id));
     ("Id", JString id);
     ("Name", JString name);
     ("PowerState", JString powerState);
     ("Boot",
       JObject
         [("BootSourceOverrideTarget", JString (BootSourceOverrideTarget b));
          ("BootSourceOverrideEnabled", JString (BootSourceOverrideEnabled b));
          ("BootSourceOverrideTarget@Redfish.AllowableValues",
            JArray [JString "None"; JString "Pxe"; JString "Hdd"])]);
     ("Links",
       JObject
         [("ManagedBy",
            JArray [JObject [("@odata.id", JString "/redfish/v1/Managers/1")]])]);
     ("Actions",
       JObject
         [("#ComputerSystem.Reset",
            JObject
              [("target",
                 JString ("/redfish/v1/Systems/" +:+ id
                          +:+ "/Actions/ComputerSystem.Reset"));
               ("ResetType@Redfish.AllowableValues",
                 JArray [JString "On"; JString "ForceOff";
                         JString "GracefulShutdown";
                         JString "ForceRestart"])])])].

(** [handleSystem] *)
Definition handleSystem (cfg : Config W) : Handler :=
  fun w r =>
    let path := GoStrings.TrimPrefix (Path r) "/redfish/v1/Systems/" in
    if String.eqb path "" then ret (http.NotFound w)
    else if GoStrings.HasSuffix path "/Actions/ComputerSystem.Reset" then
      if negb (String.eqb (Method r) MethodPost)
      then ret (http.Error w "method not allowed" StatusMethodNotAllowed)
      else
        let id := GoStrings.TrimSuffix path "/Actions/ComputerSystem.Reset" in
        let id := GoStrings.TrimSuffix id "/" in
        match Systems cfg !! id with
        | None => ret (http.NotFound w)
        | Some be =>
            match ResetBody r with
            | None => ret (http.Error w "bad request" StatusBadRequest)
            | Some resetType =>
                let* err := applyReset id be resetType in
                match err with
                | Some e => ret (http.Error w e StatusBadRequest)
                | None =>
                    ret (writeJSON w StatusOK
                           (JObject [("status", JString "ok")]))
                end
            end
        end
    else if negb (String.eqb (Method r) MethodGet)
    then ret (http.Error w "method not allowed" StatusMethodNotAllowed)
    else
      let id := GoStrings.TrimSuffix path "/" in
      match Systems cfg !! id with
      | None => ret (http.NotFound w)
      | Some be =>
          let* on := currentOn id be in
          let powerState := if on then "On" else "Off" in
          let* name := friendlyName id be in
          let* b := getBoot id in
          let b := if String.eqb (BootSourceOverrideTarget b) ""
                   then {| BootSourceOverrideTarget := "None";
                           BootSourceOverrideEnabled := "Disabled";
                           BootSourceOverrideMode := "" |}
                   else b in
          ret (writeJSON w StatusOK (systemDocument id name powerState b))
      end.

(** The patterns registered on the [ServeMux] by [New], by the handler
    each one names. *)
Inductive Route : Type :=
| RouteRoot       (* "/redfish/v1/" *)
| RouteSystems    (* "/redfish/v1/Systems" *)
| RouteSystem     (* "/redfish/v1/Systems/" *)
| RouteLivez      (* "/livez" *)
| RouteReadyz.    (* "/readyz" *)

(** What a [ServeMux] does with a request: it calls the handler of the
    pattern it selects, or it answers itself (a redirect to the
    canonical path, or its own not-found reply) and calls no handler. *)
Definition Selection : Type := Route + (ResponseWriter -> ResponseWriter).

(** The [mux] built by [New], for a [ServeMux] that selects by [sel]. *)
Definition mux (sel : Request -> Selection) (cfg : Config W)
           (order : list (string * Backend W)) : Handler :=
  fun w r =>
    match sel r with
    | inl RouteRoot => handleRoot w r
    | inl RouteSystems => handleSystems cfg order w r
    | inl RouteSystem => handleSystem cfg w r
    | inl RouteLivez => handleLivez w r
    | inl RouteReadyz => handleReadyz cfg order w r
    | inr reply => ret (reply w)
    end.

(** The selection of [ServeMux] for the registered patterns on a path in
    canonical form: an exact pattern wins, then the longest pattern ending
    in a slash that is a prefix of the path; the root of the tree without
    its final slash is redirected to the pattern (of that reply the status
    and the [Location] header are given).  What [ServeMux] does with a
    path that is not in canonical form is left to the parameter of [mux]. *)
Definition selectPattern (r : Request) : Selection :=
  let p := Path r in
  if String.eqb p "/livez" then inl RouteLivez
  else if String.eqb p "/readyz" then inl RouteReadyz
  else if String.eqb p "/redfish/v1/Systems" then inl RouteSystems
  else if GoStrings.HasPrefix p "/redfish/v1/Systems/" then inl RouteSystem
  else if GoStrings.HasPrefix p "/redfish/v1/" then inl RouteRoot
  else if String.eqb p "/redfish/v1"
  then inr (fun w => WriteHeader 301 (HeaderSet "Location" "/redfish/v1/" w))
  else inr http.NotFound.

(** The [Handler] of the [http.Server] built by [New]. *)
Definition ServeHTTP (sel : Request -> Selection) (cfg : Config W)
           (order : list (string * Backend W)) : Handler :=
  loggingMiddleware (authMiddleware cfg (mux sel cfg order)).

End Handlers.

End server.

Import server.

(** ** [package main]: from the flags to the configuration *)

Module main.

(** The values of the flags after [flag.Parse]. *)
Record Flags : Type := {
  listen : string;
  user : string;
  pass : string;
  systemID : string;
  beKind : string;
  onCmd : string;
  offCmd : string;
  haURL : string;
  haToken : string;
  haEntity : string;
  haSystems : string
}.

(** The calls of [log.Fatalf] of [main], which end the process, with
    their arguments. *)
Inductive Fatal : Type :=
| BackendInit (err : error)                  (* "backend init: %v" *)
| BackendInitFor (id : string) (err : error) (* "backend init (%s): %v" *)
| InvalidEntry (e : string)                  (* "invalid systems entry: %q ..." *)
| NoValidSystems                         (* "no valid systems parsed ..." *)
| UnknownBackend (kind : string).            (* "unknown backend: %s" *)

Section Main.
Context {W : Type} `{Host W}.

(** The loop of [main] over the entries of [--systems]. *)
Fixpoint parseEntries (url tok : string) (entries : list string)
         (systems : gmap string (Backend W)) : Fatal + gmap string (Backend W) :=
  match entries with
  | [] => inr systems
  | e :: rest =>
      let e := GoStrings.TrimSpace e in
      if String.eqb e "" then parseEntries url tok rest systems
      else
        match GoStrings.SplitN2 e "="%char with
        | [p0; p1] =>
            let id := GoStrings.TrimSpace p0 in
            let entity := GoStrings.TrimSpace p1 in
            match NewHomeAssistant url tok entity with
            | inl berr => inl (BackendInitFor id berr)
            | inr b =>
                parseEntries url tok rest (<[id := homeassistant b]> systems)
            end
        | _ => inl (InvalidEntry e)
        end
  end.

(** The registry that [main] builds, or the fatal error that stops it. *)
Definition systems (f : Flags) : Fatal + gmap string (Backend W) :=
  if String.eqb (beKind f) "noop" then
    inr (<[systemID f := NewNoop]> ∅)
  else if String.eqb (beKind f) "command" then
    match NewCommand (onCmd f) (offCmd f) with
    | inl err => inl (BackendInit err)
    | inr be => inr (<[systemID f := be]> ∅)
    end
  else if String.eqb (beKind f) "homeassistant" then
    if negb (String.eqb (haSystems f) "") then
      match parseEntries (haURL f) (haToken f)
              (GoStrings.Split (haSystems f) ","%char) ∅ with
      | inl fatal => inl fatal
      | inr m => if (size m =? 0)%nat then inl NoValidSystems else inr m
      end
    else
      match NewHomeAssistant (haURL f) (haToken f) (haEntity f) with
      | inl berr => inl (BackendInit berr)
      | inr b => inr (<[systemID f := homeassistant b]> ∅)
      end
  else inl (UnknownBackend (beKind f)).

(** The configuration that [main] hands to [server.New]. *)
Definition config (f : Flags) : Fatal + Config W :=
  match systems f with
  | inl fatal => inl fatal
  | inr m => inr {| Listen := listen f; Username := user f;
                    Password := pass f; Systems := m |}
  end.

End Main.

End main.

(** ** The earlier revision of the server: [internal/server/server.go]

    That revision has the same [handleSystem] (without the [Boot] block of
    the document) and the same [applyReset]; it registers no health
    endpoint, and its [authMiddleware] has no exempt path. *)

Module server_v0.

Definition authMiddleware {W : Type} (cfg : Config W) (next : @Handler W)
  : @Handler W :=
  fun w r =>
    if String.eqb (Username cfg) "" && String.eqb (Password cfg) ""
    then next w r
    else
      match BasicAuth r with
      | Some (usr, pwd) =>
          if negb (String.eqb usr (Username cfg))
             || negb (String.eqb pwd (Password cfg))
          then ret (http.Error
                      (HeaderSet "WWW-Authenticate" "Basic realm=redfish" w)
                      "unauthorized" StatusUnauthorized)
          else next w r
      | None =>
          ret (http.Error
                 (HeaderSet "WWW-Authenticate" "Basic realm=redfish" w)
                 "unauthorized" StatusUnauthorized)
      end.

End server_v0.

(** ** Reading requests and replies *)

Definition systemsPrefix : string := "/redfish/v1/Systems/".
Definition resetSuffix : string := "/Actions/ComputerSystem.Reset".

(** The part of the path that [handleSystem] works on. *)
Definition systemPath (r : Request) : string :=
  GoStrings.TrimPrefix (Path r) systemsPrefix.

(** [r] is addressed to the reset action of system [id]: its path has the
    reset suffix, and what [handleSystem] keeps of it as the id is [id]. *)
Definition addressesReset (r : Request) (id : string) : bool :=
  negb (String.eqb (systemPath r) "")
  && GoStrings.HasSuffix (systemPath r) resetSuffix
  && String.eqb
       (GoStrings.TrimSuffix (GoStrings.TrimSuffix (systemPath r) resetSuffix) "/")
       id.

(** [r] is addressed to the document of system [id]: its path has no reset
    suffix, and what [handleSystem] keeps of it as the id is [id]. *)
Definition addressesSystem (r : Request) (id : string) : bool :=
  negb (String.eqb (systemPath r) "")
  && negb (GoStrings.HasSuffix (systemPath r) resetSuffix)
  && String.eqb (GoStrings.TrimSuffix (systemPath r) "/") id.

(** The URLs that the documents give for a system and for its reset action. *)
Definition systemURL (id : string) : string := systemsPrefix +:+ id.
Definition resetURL (id : string) : string := systemsPrefix +:+ id +:+ resetSuffix.

Definition getSystem (id : string) : Request :=
  {| Method := MethodGet; Path := systemURL id;
     BasicAuth := None; ResetBody := None |}.

Definition postReset (id resetType : string) : Request :=
  {| Method := MethodPost; Path := resetURL id;
     BasicAuth := None; ResetBody := Some resetType |}.

(** The JSON document of a reply: the value that was encoded last. *)
Definition document (w : ResponseWriter) : option JSON :=
  match rev (Body w) with
  | Encoded v :: _ => Some v
  | _ => None
  end.

Definition stringField (k : string) (v : JSON) : option string :=
  jfield k v ≫= jstring.

(** [PowerState] of a system document. *)
Definition powerStateOf (w : ResponseWriter) : option string :=
  document w ≫= stringField "PowerState".

(** [Boot.BootSourceOverrideTarget] and [Boot.BootSourceOverrideEnabled]. *)
Definition bootTargetOf (w : ResponseWriter) : option string :=
  (document w ≫= jfield "Boot") ≫= stringField "BootSourceOverrideTarget".

Definition bootEnabledOf (w : ResponseWriter) : option string :=
  (document w ≫= jfield "Boot") ≫= stringField "BootSourceOverrideEnabled".

(** The reset types that a system document advertises. *)
Definition advertisedResetTypes (w : ResponseWriter) : option (list string) :=
  (((document w ≫= jfield "Actions") ≫= jfield "#ComputerSystem.Reset")
     ≫= jfield "ResetType@Redfish.AllowableValues") ≫= jstrings.

(** The keywords of the [switch] of [applyReset]. *)
Definition acceptedResetTypes : list string :=
  ["On"; "ForceOff"; "GracefulShutdown"; "Off"; "ForceRestart"; "GracefulRestart"].

(** The text that [http.Error] writes for a message. *)
Definition errorBody (msg : string) : list Chunk :=
  [Raw (msg +:+ String "010"%char EmptyString)].

(** [strings.ToLower(s) == "on"], and its reading as a comparison that
    ignores the case of ASCII letters. *)
Definition equalsOnIgnoringCase (s : string) : Prop :=
  s = "on" \/ s = "On" \/ s = "oN" \/ s = "ON".

(** Every backend of [order], asked in that order from the world [w], has a
    [Ping] and its [Ping] returns an error; [w'] is the world left. *)
Inductive allPingsFail {W : Type}
  : list (string * Backend W) -> W -> W -> Prop :=
| apf_nil w : allPingsFail [] w w
| apf_cons id be ping e w w1 w' rest :
    Ping be = Some ping ->
    ping w = (Some e, w1) ->
    allPingsFail rest w1 w' ->
    allPingsFail ((id, be) :: rest) w w'.

(** The paths that [authMiddleware] lets through without credentials: the
    discovery root, with and without its final slash, and the two health
    endpoints. *)
Definition exemptPaths : list string :=
  ["/redfish/v1/"; "/redfish/v1"; "/livez"; "/readyz"].

(** The credentials presented by [r] are missing or differ from the
    configured pair. *)
Definition badCredentials {W : Type} (cfg : Config W) (r : Request) : Prop :=
  match BasicAuth r with
  | None => True
  | Some (usr, pwd) => usr <> Username cfg \/ pwd <> Password cfg
  end.

(** The reply of [authMiddleware] to a request it turns down. *)
Definition unauthorized (w : ResponseWriter) : ResponseWriter :=
  http.Error (HeaderSet "WWW-Authenticate" "Basic realm=redfish" w)
    "unauthorized" StatusUnauthorized.

(** The events of asking each backend of a list for its health, in order. *)
Definition pingEvents {W : Type} (l : list (string * Backend W)) : list Event :=
  map (fun e => EvPing (fst e)) l.

(** A run of the server from [New]: requests are served one after the
    other, each with its own order of iteration over the registry. *)
Fixpoint serveAll {W : Type} (sel : Request -> Selection) (cfg : Config W)
         (reqs : list (list (string * Backend W) * Request)) (st : Store W)
  : Store W :=
  match reqs with
  | [] => st
  | (order, r) :: rest =>
      serveAll sel cfg rest (snd (ServeHTTP sel cfg order newWriter r st))
  end.

(** ** More readings of replies *)

Definition jnumber (v : JSON) : option Z :=
  match v with JNumber n => Some n | _ => None end.

(** [Id], [Name] and [@odata.id] of a document. *)
Definition idOf (w : ResponseWriter) : option string :=
  document w ≫= stringField "Id".

Definition nameOf (w : ResponseWriter) : option string :=
  document w ≫= stringField "Name".

Definition odataIdOf (w : ResponseWriter) : option string :=
  document w ≫= stringField "@odata.id".

(** The [target] of the reset action of a system document. *)
Definition resetTargetOf (w : ResponseWriter) : option string :=
  ((document w ≫= jfield "Actions") ≫= jfield "#ComputerSystem.Reset")
    ≫= stringField "target".

(** The links of the [Members] of a collection, and its count field. *)
Definition memberLinks (v : JSON) : option (list string) :=
  match v with
  | JArray l => Some (omap (stringField "@odata.id") l)
  | _ => None
  end.

Definition memberLinksOf (w : ResponseWriter) : option (list string) :=
  (document w ≫= jfield "Members") ≫= memberLinks.

Definition memberCountOf (w : ResponseWriter) : option Z :=
  (document w ≫= jfield "Members@odata.count") ≫= jnumber.

(** The backends that the program itself can build. *)
Inductive shipped {W : Type} `{Host W} : Backend W -> Prop :=
| shipped_noop : shipped NewNoop
| shipped_command onCmd offCmd : shipped (command onCmd offCmd)
| shipped_homeassistant h : shipped (homeassistant h).

(** The id that an event is about, if it is about a system. *)
Definition eventId (ev : Event) : option string :=
  match ev with
  | EvPowerOn id | EvPowerOff id | EvCurrentState id
  | EvDisplayName id | EvPing id => Some id
  | EvSleep _ => None
  end.

(** ** The requests of the remote-switch backend *)

(** The request that [callService] sends. *)
Definition serviceRequest (h : HomeAssistant) (domain service : string)
  : ClientRequest :=
  {| creqMethod := MethodPost;
     creqURL := baseURL h +:+ "/api/services/" +:+ domain +:+ "/" +:+ service;
     creqHeader := [("Authorization", "Bearer " +:+ token h);
                    ("Content-Type", "application/json")];
     creqPayload := Some (JObject [("entity_id", JString (entityID h))]) |}.

(** The request that [fetchState] sends. *)
Definition stateRequest (h : HomeAssistant) : ClientRequest :=
  {| creqMethod := MethodGet;
     creqURL := baseURL h +:+ "/api/states/" +:+ entityID h;
     creqHeader := [("Authorization", "Bearer " +:+ token h);
                    ("Accept", "application/json")];
     creqPayload := None |}.

(** The friendly name in the attributes of a state reply, when it is a
    string. *)
Definition friendlyNameOf (body : StateBody) : string :=
  match assoc "friendly_name" (Attributes body) with
  | Some (JString s) => s
  | _ => ""
  end.

(** A run of [k] slashes. *)
Fixpoint slashes (k : nat) : string :=
  match k with
  | O => ""
  | S k' => String "/"%char (slashes k')
  end.

(** ** What a request may do *)

(** The only write to the cache that a request can make. *)
Definition oneWrite {W : Type} (cfg : Config W) (r : Request)
           (reply : ResponseWriter) (st st' : Store W) : Prop :=
  exists id (v : bool),
    Method r = MethodPost
    /\ addressesReset r id = true
    /\ is_Some (Systems cfg !! id)
    /\ StatusCode reply = StatusOK
    /\ last st' = <[id := v]> (last st).

(** The ids of the iteration order are registered. *)
Definition orderRegistered {W : Type} (cfg : Config W)
           (order : list (string * Backend W)) : Prop :=
  forall e, In e order -> is_Some (Systems cfg !! fst e).

(** The event is about a registered system, or about none. *)
Definition aboutRegistered {W : Type} (cfg : Config W) (ev : Event) : Prop :=
  forall id, eventId ev = Some id -> is_Some (Systems cfg !! id).

(** ** Writing the [--systems] flag *)

(** The value of [--systems] for a list of pairs of an id and an entity:
    [id=entity] for each, with commas between them. *)
Fixpoint joinEntries (l : list (string * string)) : string :=
  match l with
  | [] => ""
  | [(id, entity)] => id +:+ "=" +:+ entity
  | (id, entity) :: rest => id +:+ "=" +:+ entity +:+ "," +:+ joinEntries rest
  end.

(** One entry of [--systems]. *)
Definition entryOf (p : string * string) : string :=
  fst p +:+ "=" +:+ snd p.

(** A byte that is ASCII, is not white space and is not in [forbidden];
    a string of such bytes. *)
Definition plainByte (forbidden : string) (c : ascii) : bool :=
  (nat_of_ascii c <? 128)%nat
  && negb (GoStrings.asciiSpace c)
  && negb (GoStrings.inCutset c forbidden).

Fixpoint plain (forbidden : string) (s : string) : bool :=
  match s with
  | EmptyString => true
  | String c r => plainByte forbidden c && plain forbidden r
  end.

(** A pair that [--systems] can carry: an id without comma or equals sign,
    an entity without comma and not empty. *)
Definition plainEntry (p : string * string) : Prop :=
  plain ",=" (fst p) = true /\ plain "," (snd p) = true /\ snd p <> "".

(** The entity that the last pair for [id] gives, if there is a pair for
    [id]. *)
Fixpoint lastEntity (id : string) (l : list (string * string)) : option string :=
  match l with
  | [] => None
  | (i, entity) :: rest =>
      match lastEntity id rest with
      | Some later => Some later
      | None => if String.eqb i id then Some entity else None
      end
  end.

(** The remote-switch backend for an entity, with the base URL and the
    token of the flags. *)
Definition switchFor (url tok entity : string) : HomeAssistant :=
  {| baseURL := GoStrings.TrimRight url "/"; token := tok; entityID := entity |}.

(** The three kinds of backend that [main] knows. *)
Definition knownKinds : list string := ["noop"; "command"; "homeassistant"].


(** ** A small world to run the program in *)

Module Scenario.

(** The world is the state string of the one switch of a home-automation
    service; shell commands always exit with 0. *)
Definition World : Type := string.

Definition scenarioDo (req : ClientRequest) (w : World)
  : (error + ClientResponse) * World :=
  if String.eqb (creqMethod req) MethodGet
  then (inr {| respStatusCode := 200;
               respDecoded := inr {| State := w; Attributes := [] |} |}, w)
  else if GoStrings.HasSuffix (creqURL req) "turn_on"
  then (inr {| respStatusCode := 200;
               respDecoded := inr {| State := "on"; Attributes := [] |} |}, "on")
  else (inr {| respStatusCode := 200;
               respDecoded := inr {| State := "off"; Attributes := [] |} |}, "off").

#[export] Instance scenarioHost : Host World :=
  {| execRun := fun _ _ w => (None, w);
     clientDo := scenarioDo |}.

(** A backend that has a health check, which always fails. *)
Definition unreachable : Backend World :=
  {| PowerOn := fun w => (Some "unreachable", w);
     PowerOff := fun w => (Some "unreachable", w);
     CurrentState := None;
     DisplayName := None;
     Ping := Some (fun w => (Some "unreachable", w)) |}.

(** A backend whose [PowerOff] works and whose [PowerOn] fails. *)
Definition stuckOff : Backend World :=
  {| PowerOn := fun w => (Some "will not start", w);
     PowerOff := fun w => (None, w);
     CurrentState := None;
     DisplayName := None;
     Ping := None |}.

Definition switch : HomeAssistant :=
  {| baseURL := "http://ha.local"; token := "t"; entityID := "switch.kvm_1" |}.

Definition config (user pass : string) (systems : gmap string (Backend World))
  : Config World :=
  {| Listen := ":8080"; Username := user; Password := pass;
     Systems := systems |}.

(** The registry [{"1": noop}] without credentials. *)
Definition noopConfig : Config World :=
  config "" "" {[ "1" := NewNoop ]}.

(** The same registry behind the credentials [admin]/[secret]. *)
Definition securedConfig : Config World :=
  config "admin" "secret" {[ "1" := NewNoop ]}.

(** A registry with the remote-switch backend. *)
Definition switchConfig : Config World :=
  config "" "" {[ "1" := homeassistant switch ]}.

(** A registry whose only backend fails its health check. *)
Definition unreachableConfig : Config World :=
  config "" "" {[ "1" := unreachable ]}.

(** A registry whose backend cannot be switched on again. *)
Definition stuckConfig : Config World :=
  config "" "" {[ "1" := stuckOff ]}.

(** A registry that holds the empty id. *)
Definition emptyIdConfig : Config World :=
  config "" "" {[ "" := NewNoop ]}.

Definition start (cfg : Config World) (w : World) : Store World := New cfg w.

(** A host whose network is down: every HTTP request of a backend fails. *)
Definition offlineHost : Host World :=
  {| execRun := fun _ _ w => (None, w);
     clientDo := fun _ w => (inl "connection refused", w) |}.

(** The registry with the remote-switch backend, on the host without
    network. *)
Definition offlineConfig : Config World :=
  config "" "" {[ "1" := @homeassistant World offlineHost switch ]}.

End Scenario.

(** * Properties *)

(** ** Facts about the string functions *)

Section StringFacts.
Implicit Types (s t p suffix : string).

Lemma length_append s t :
  String.length (s +:+ t) = (String.length s + String.length t)%nat.
Proof. induction s as [|c s IH]; simpl; [reflexivity | now rewrite IH]. Qed.

Lemma substring_skip p s n :
  substring (String.length p) n (p +:+ s) = substring 0 n s.
Proof. induction p as [|c p IH]; simpl; [reflexivity | exact IH]. Qed.

Lemma substring_whole s : substring 0 (String.length s) s = s.
Proof. induction s as [|c s IH]; simpl; [reflexivity | now rewrite IH]. Qed.

Lemma substring_take s t : substring 0 (String.length s) (s +:+ t) = s.
Proof.
  induction s as [|c s IH]; simpl; [now destruct t | now rewrite IH].
Qed.

Lemma HasPrefix_append p s : GoStrings.HasPrefix (p +:+ s) p = true.
Proof.
  unfold GoStrings.HasPrefix. rewrite substring_take, String.eqb_refl.
  rewrite andb_true_r. apply Nat.leb_le. rewrite length_append. lia.
Qed.

Lemma TrimPrefix_append p s : GoStrings.TrimPrefix (p +:+ s) p = s.
Proof.
  unfold GoStrings.TrimPrefix. rewrite HasPrefix_append, substring_skip.
  rewrite length_append.
  replace (String.length p + String.length s - String.length p)%nat
    with (String.length s) by lia.
  apply substring_whole.
Qed.

Lemma HasSuffix_append s suffix : GoStrings.HasSuffix (s +:+ suffix) suffix = true.
Proof.
  unfold GoStrings.HasSuffix. rewrite length_append.
  replace (String.length s + String.length suffix - String.length suffix)%nat
    with (String.length s) by lia.
  rewrite substring_skip, substring_whole, String.eqb_refl, andb_true_r.
  apply Nat.leb_le. lia.
Qed.

Lemma TrimSuffix_append s suffix : GoStrings.TrimSuffix (s +:+ suffix) suffix = s.
Proof.
  unfold GoStrings.TrimSuffix. rewrite HasSuffix_append, length_append.
  replace (String.length s + String.length suffix - String.length suffix)%nat
    with (String.length s) by lia.
  apply substring_take.
Qed.

Lemma TrimSuffix_without s suffix :
  GoStrings.HasSuffix s suffix = false -> GoStrings.TrimSuffix s suffix = s.
Proof. unfold GoStrings.TrimSuffix. now intros ->. Qed.

End StringFacts.

(** ** How [handleSystem] reads its request *)

Ltac unfold_m :=
  unfold bind, ret, call, sleep, getLast, setLast, getBoot in *.

Lemma addressesReset_inv (r : Request) (id : string) :
  addressesReset r id = true ->
  String.eqb (systemPath r) "" = false
  /\ GoStrings.HasSuffix (systemPath r) resetSuffix = true
  /\ GoStrings.TrimSuffix (GoStrings.TrimSuffix (systemPath r) resetSuffix) "/" = id.
Proof.
  unfold addressesReset. intros H.
  apply andb_true_iff in H as [H Hid].
  apply andb_true_iff in H as [Hne Hsuf].
  apply negb_true_iff in Hne. apply String.eqb_eq in Hid. auto.
Qed.

Lemma addressesSystem_inv (r : Request) (id : string) :
  addressesSystem r id = true ->
  String.eqb (systemPath r) "" = false
  /\ GoStrings.HasSuffix (systemPath r) resetSuffix = false
  /\ GoStrings.TrimSuffix (systemPath r) "/" = id.
Proof.
  unfold addressesSystem. intros H.
  apply andb_true_iff in H as [H Hid].
  apply andb_true_iff in H as [Hne Hsuf].
  apply negb_true_iff in Hne. apply negb_true_iff in Hsuf.
  apply String.eqb_eq in Hid. auto.
Qed.

(** The URL that the documents give for a system addresses that system,
    for an id that is not empty and ends neither in a slash nor in the
    reset suffix; the URL they give for its reset action addresses its
    reset action, for an id that does not end in a slash. *)
Lemma systemPath_getSystem (id : string) : systemPath (getSystem id) = id.
Proof. unfold systemPath, getSystem, systemURL. simpl. apply TrimPrefix_append. Qed.

Lemma systemPath_postReset (id resetType : string) :
  systemPath (postReset id resetType) = id +:+ resetSuffix.
Proof.
  unfold systemPath, postReset, resetURL. simpl. apply TrimPrefix_append.
Qed.

Lemma addressesSystem_getSystem (id : string) :
  id <> "" ->
  GoStrings.HasSuffix id resetSuffix = false ->
  GoStrings.HasSuffix id "/" = false ->
  addressesSystem (getSystem id) id = true.
Proof.
  intros Hne Hsuf Hslash. unfold addressesSystem.
  rewrite systemPath_getSystem, Hsuf, (TrimSuffix_without id "/" Hslash).
  rewrite String.eqb_refl. apply String.eqb_neq in Hne. rewrite Hne.
  reflexivity.
Qed.

Lemma addressesReset_postReset (id resetType : string) :
  GoStrings.HasSuffix id "/" = false ->
  addressesReset (postReset id resetType) id = true.
Proof.
  intros Hslash. unfold addressesReset.
  rewrite systemPath_postReset, HasSuffix_append, TrimSuffix_append.
  rewrite (TrimSuffix_without id "/" Hslash), String.eqb_refl.
  destruct id; reflexivity.
Qed.

Section HandleSystem.
Context {W : Type}.
Implicit Types (cfg : Config W) (be : Backend W) (st : Store W).
Implicit Types (w : ResponseWriter) (r : Request) (id : string).

(** The reply to a POST addressed to the reset action of [id]. *)
Lemma handleSystem_reset cfg w r id st :
  Method r = MethodPost ->
  addressesReset r id = true ->
  handleSystem cfg w r st =
    match Systems cfg !! id with
    | None => (http.NotFound w, st)
    | Some be =>
        match ResetBody r with
        | None => (http.Error w "bad request" StatusBadRequest, st)
        | Some resetType =>
            match applyReset id be resetType st with
            | (Some e, st') => (http.Error w e StatusBadRequest, st')
            | (None, st') =>
                (writeJSON w StatusOK (JObject [("status", JString "ok")]), st')
            end
        end
    end.
Proof.
  intros Hm Ha. apply addressesReset_inv in Ha as (Hne & Hsuf & Hid).
  unfold handleSystem. fold systemsPrefix resetSuffix.
  change (GoStrings.TrimPrefix (Path r) systemsPrefix) with (systemPath r).
  rewrite Hne, Hsuf, Hm, Hid. simpl.
  destruct (Systems cfg !! id) as [be|]; [|reflexivity].
  destruct (ResetBody r) as [rt|]; [|reflexivity].
  unfold bind. destruct (applyReset id be rt st) as [[e|] st']; reflexivity.
Qed.

(** The reply to a GET addressed to the document of [id]. *)
Lemma handleSystem_get cfg w r id st :
  Method r = MethodGet ->
  addressesSystem r id = true ->
  handleSystem cfg w r st =
    match Systems cfg !! id with
    | None => (http.NotFound w, st)
    | Some be =>
        let (on, st1) := currentOn id be st in
        let (name, st2) := friendlyName id be st1 in
        let b := default zeroBoot (boot st2 !! id) in
        let b := if String.eqb (BootSourceOverrideTarget b) ""
                 then {| BootSourceOverrideTarget := "None";
                         BootSourceOverrideEnabled := "Disabled";
                         BootSourceOverrideMode := "" |}
                 else b in
        (writeJSON w StatusOK
           (systemDocument id name (if on then "On" else "Off") b), st2)
    end.
Proof.
  intros Hm Ha. apply addressesSystem_inv in Ha as (Hne & Hsuf & Hid).
  unfold handleSystem. fold systemsPrefix resetSuffix.
  change (GoStrings.TrimPrefix (Path r) systemsPrefix) with (systemPath r).
  rewrite Hne, Hsuf, Hm, Hid. simpl.
  destruct (Systems cfg !! id) as [be|]; [|reflexivity].
  unfold bind. destruct (currentOn id be st) as [on st1].
  destruct (friendlyName id be st1) as [name st2]. reflexivity.
Qed.

(** Reading the name leaves both maps as they are. *)
Lemma friendlyName_maps id be st :
  last (snd (friendlyName id be st)) = last st
  /\ boot (snd (friendlyName id be st)) = boot st.
Proof.
  unfold friendlyName. destruct (DisplayName be) as [np|]; [|auto].
  unfold_m. destruct (np (world st)) as [[n [e|]] w']; simpl; auto.
  destruct (negb (n =? "")%string); auto.
Qed.

(** Reading the power state leaves both maps as they are. *)
Lemma currentOn_maps id be st :
  last (snd (currentOn id be st)) = last st
  /\ boot (snd (currentOn id be st)) = boot st.
Proof.
  unfold currentOn. destruct (CurrentState be) as [ps|]; [|auto].
  unfold_m. destruct (ps (world st)) as [[v [e|]] w']; simpl; auto.
Qed.

(** Without the state-query capability the cached value is reported. *)
Lemma currentOn_cached id be st :
  CurrentState be = None ->
  fst (currentOn id be st) = default false (last st !! id).
Proof. intros Hc. unfold currentOn. rewrite Hc. reflexivity. Qed.

(** The fields of the system document. *)
Lemma document_writeJSON w code v :
  document (writeJSON w code v) = Some v.
Proof.
  unfold document, writeJSON, Write. simpl. rewrite rev_unit. reflexivity.
Qed.

Lemma powerStateOf_document w code id name ps b :
  powerStateOf (writeJSON w code (systemDocument id name ps b)) = Some ps.
Proof. unfold powerStateOf. rewrite document_writeJSON. reflexivity. Qed.

Lemma bootOf_document w code id name ps b :
  bootTargetOf (writeJSON w code (systemDocument id name ps b))
    = Some (BootSourceOverrideTarget b)
  /\ bootEnabledOf (writeJSON w code (systemDocument id name ps b))
    = Some (BootSourceOverrideEnabled b).
Proof.
  unfold bootTargetOf, bootEnabledOf. rewrite document_writeJSON. auto.
Qed.

Lemma advertised_document w code id name ps b :
  advertisedResetTypes (writeJSON w code (systemDocument id name ps b))
    = Some ["On"; "ForceOff"; "GracefulShutdown"; "ForceRestart"].
Proof. unfold advertisedResetTypes. rewrite document_writeJSON. reflexivity. Qed.

Lemma status_writeJSON w code v : StatusCode (writeJSON w code v) = code.
Proof. reflexivity. Qed.

Lemma status_Error w msg code : StatusCode (http.Error w msg code) = code.
Proof. reflexivity. Qed.

Lemma body_Error w msg code :
  Body (http.Error w msg code) = (Body w ++ errorBody msg)%list.
Proof. reflexivity. Qed.

End HandleSystem.

(** ** The reset state machine *)

Section ApplyReset.
Context {W : Type}.
Implicit Types (cfg : Config W) (be : Backend W) (st : Store W).
Implicit Types (w : ResponseWriter) (r : Request) (id : string).

(** [On]: one call of [PowerOn], the cache is set when it returns [nil]. *)
Lemma applyReset_On id be st :
  applyReset id be "On" st =
    match PowerOn be (world st) with
    | (Some e, w') =>
        (Some e, {| last := last st; boot := boot st; world := w';
                    trace := trace st ++ [EvPowerOn id] |})
    | (None, w') =>
        (None, {| last := <[id := true]> (last st); boot := boot st;
                  world := w'; trace := trace st ++ [EvPowerOn id] |})
    end.
Proof.
  unfold applyReset. simpl. unfold_m.
  destruct (PowerOn be (world st)) as [[e|] w']; reflexivity.
Qed.

(** The three keywords that switch off share one branch. *)
Lemma applyReset_Off id be resetType st :
  resetType = "ForceOff" \/ resetType = "GracefulShutdown" \/ resetType = "Off" ->
  applyReset id be resetType st =
    match PowerOff be (world st) with
    | (Some e, w') =>
        (Some e, {| last := last st; boot := boot st; world := w';
                    trace := trace st ++ [EvPowerOff id] |})
    | (None, w') =>
        (None, {| last := <[id := false]> (last st); boot := boot st;
                  world := w'; trace := trace st ++ [EvPowerOff id] |})
    end.
Proof.
  intros [-> | [-> | ->]]; unfold applyReset; simpl; unfold_m;
    destruct (PowerOff be (world st)) as [[e|] w']; reflexivity.
Qed.

(** The two restart keywords share one branch: [PowerOff], the sleep,
    [PowerOn], and the cache is set when both return [nil]. *)
Lemma applyReset_Restart id be resetType st :
  resetType = "ForceRestart" \/ resetType = "GracefulRestart" ->
  applyReset id be resetType st =
    match PowerOff be (world st) with
    | (Some e, w1) =>
        (Some e, {| last := last st; boot := boot st; world := w1;
                    trace := trace st ++ [EvPowerOff id] |})
    | (None, w1) =>
        match PowerOn be w1 with
        | (Some e, w2) =>
            (Some e,
              {| last := last st; boot := boot st; world := w2;
                 trace := ((trace st ++ [EvPowerOff id])
                             ++ [EvSleep (2 * Second)]) ++ [EvPowerOn id] |})
        | (None, w2) =>
            (None,
              {| last := <[id := true]> (last st); boot := boot st;
                 world := w2;
                 trace := ((trace st ++ [EvPowerOff id])
                             ++ [EvSleep (2 * Second)]) ++ [EvPowerOn id] |})
        end
    end.
Proof.
  intros [-> | ->]; unfold applyReset; simpl; unfold_m;
    destruct (PowerOff be (world st)) as [[e|] w1]; try reflexivity;
    simpl; destruct (PowerOn be w1) as [[e|] w2]; reflexivity.
Qed.

(** Any other keyword reaches the [default] branch. *)
Lemma applyReset_default id be resetType st :
  ~ In resetType acceptedResetTypes ->
  applyReset id be resetType st = (Some "unsupported ResetType", st).
Proof.
  intros Hn. unfold applyReset.
  repeat match goal with
    | |- context [String.eqb resetType ?k] =>
        destruct (String.eqb_spec resetType k) as [-> | _];
        [exfalso; apply Hn; simpl; tauto |]
    end.
  reflexivity.
Qed.

(** [applyReset] never touches the boot map. *)
Lemma applyReset_boot id be resetType st :
  boot (snd (applyReset id be resetType st)) = boot st.
Proof.
  unfold applyReset.
  repeat match goal with
    | |- context [if ?b then _ else _] => destruct b
    end; unfold_m; simpl;
    repeat match goal with
      | |- context [PowerOn be ?x] => destruct (PowerOn be x) as [[?|] ?]; simpl
      | |- context [PowerOff be ?x] => destruct (PowerOff be x) as [[?|] ?]; simpl
      end; reflexivity.
Qed.

End ApplyReset.

(** The silent backend never fails: a reset with an accepted keyword,
    addressed to a system that it serves, replies 200. *)
Lemma noop_reset_succeeds {W : Type} (cfg : Config W) (id resetType : string)
      (r : Request) (w : ResponseWriter) (st : Store W) :
  Systems cfg !! id = Some NewNoop ->
  Method r = MethodPost ->
  addressesReset r id = true ->
  ResetBody r = Some resetType ->
  In resetType acceptedResetTypes ->
  StatusCode (fst (handleSystem cfg w r st)) = StatusOK.
Proof.
  intros Hbe Hm Ha Hb Hin.
  rewrite (handleSystem_reset cfg w r id st Hm Ha), Hbe, Hb.
  simpl in Hin.
  destruct Hin as [<- | [<- | [<- | [<- | [<- | [<- | []]]]]]]; reflexivity.
Qed.

(** C1: with a backend that has no live state query, a successful reset
    [On] makes the next read of that system report [PowerState] ["On"];
    a successful [Off], [ForceOff] or [GracefulShutdown] makes it report
    ["Off"].  The reset is any POST that [handleSystem] takes as addressed
    to the reset action of [id], the read any GET that it takes as
    addressed to the document of [id]. *)
Theorem reset_then_read_reports_state :
  forall (W : Type) (cfg : Config W) (id resetType : string) (be : Backend W)
         (r1 r2 : Request) (w1 w2 : ResponseWriter) (st : Store W),
    Systems cfg !! id = Some be ->
    CurrentState be = None ->
    Method r1 = MethodPost ->
    addressesReset r1 id = true ->
    ResetBody r1 = Some resetType ->
    StatusCode (fst (handleSystem cfg w1 r1 st)) = StatusOK ->
    Method r2 = MethodGet ->
    addressesSystem r2 id = true ->
    let st1 := snd (handleSystem cfg w1 r1 st) in
    let reply := fst (handleSystem cfg w2 r2 st1) in
    (resetType = "On" ->
       StatusCode reply = StatusOK /\ powerStateOf reply = Some "On")
    /\ (resetType = "Off" \/ resetType = "ForceOff"
        \/ resetType = "GracefulShutdown" ->
       StatusCode reply = StatusOK /\ powerStateOf reply = Some "Off").
Proof.
  intros W cfg id rt be r1 r2 w1 w2 st Hbe Hcap Hm1 Ha1 Hb1 Hok Hm2 Ha2.
  rewrite (handleSystem_reset cfg w1 r1 id st Hm1 Ha1), Hbe, Hb1 in Hok |- *.
  assert (Hget : forall st1 : Store W,
             let reply := fst (handleSystem cfg w2 r2 st1) in
             StatusCode reply = StatusOK
             /\ powerStateOf reply
                = Some (if default false (last st1 !! id) then "On" else "Off")).
  { intros st1. simpl.
    rewrite (handleSystem_get cfg w2 r2 id st1 Hm2 Ha2), Hbe.
    pose proof (currentOn_cached id be st1 Hcap) as Hon.
    destruct (currentOn id be st1) as [on st2]. simpl in Hon. subst on.
    destruct (friendlyName id be st2) as [name st3]. simpl.
    rewrite powerStateOf_document. auto. }
  simpl. split.
  - intros ->. rewrite applyReset_On in Hok |- *.
    destruct (PowerOn be (world st)) as [[e|] w']; simpl in Hok |- *;
      [discriminate|].
    destruct (Hget {| last := <[id:=true]> (last st); boot := boot st;
                      world := w'; trace := trace st ++ [EvPowerOn id] |})
      as [Hs Hp].
    split; [exact Hs|]. rewrite Hp. simpl. rewrite lookup_insert_eq. reflexivity.
  - intros Hoff.
    assert (Hoff' : rt = "ForceOff" \/ rt = "GracefulShutdown" \/ rt = "Off")
      by tauto.
    rewrite (applyReset_Off id be rt st Hoff') in Hok |- *.
    destruct (PowerOff be (world st)) as [[e|] w']; simpl in Hok |- *;
      [discriminate|].
    destruct (Hget {| last := <[id:=false]> (last st); boot := boot st;
                      world := w'; trace := trace st ++ [EvPowerOff id] |})
      as [Hs Hp].
    split; [exact Hs|]. rewrite Hp. simpl. rewrite lookup_insert_eq. reflexivity.
Qed.

Lemma reset_then_read_reports_state_witness :
  let st0 := Scenario.start Scenario.noopConfig "off" in
  let st1 := snd (handleSystem Scenario.noopConfig newWriter
                    (postReset "1" "On") st0) in
  let st2 := snd (handleSystem Scenario.noopConfig newWriter
                    (postReset "1" "ForceOff") st1) in
  powerStateOf (fst (handleSystem Scenario.noopConfig newWriter
                       (getSystem "1") st1)) = Some "On"
  /\ powerStateOf (fst (handleSystem Scenario.noopConfig newWriter
                          (getSystem "1") st2)) = Some "Off".
Proof.
  intros st0 st1 st2. split.
  - refine (proj2 (proj1 (reset_then_read_reports_state
      Scenario.World Scenario.noopConfig "1" "On" NewNoop
      (postReset "1" "On") (getSystem "1") newWriter newWriter st0
      _ _ _ _ _ _ _ _) _)); reflexivity.
  - refine (proj2 (proj2 (reset_then_read_reports_state
      Scenario.World Scenario.noopConfig "1" "ForceOff" NewNoop
      (postReset "1" "ForceOff") (getSystem "1") newWriter newWriter st1
      _ _ _ _ _ _ _ _) _)); try reflexivity.
    right; left; reflexivity.
Defined.

(** C2: a restart ([ForceRestart] or [GracefulRestart]) calls [PowerOff],
    sleeps, then calls [PowerOn].  When both calls return [nil] the reply
    is 200 and the cached state of the system is [true]; when either call
    returns an error the reply is 400 with the error's message and the
    cache is exactly what it was; and a cache that differs from what it was
    means that the whole sequence ran and succeeded. *)
Theorem restart_updates_cache_only_on_success :
  forall (W : Type) (cfg : Config W) (id resetType : string) (be : Backend W)
         (r : Request) (w : ResponseWriter) (st : Store W),
    Systems cfg !! id = Some be ->
    Method r = MethodPost ->
    addressesReset r id = true ->
    ResetBody r = Some resetType ->
    resetType = "ForceRestart" \/ resetType = "GracefulRestart" ->
    let reply := fst (handleSystem cfg w r st) in
    let st' := snd (handleSystem cfg w r st) in
    let off := PowerOff be (world st) in
    let on := PowerOn be (snd off) in
    (fst off = None -> fst on = None ->
       StatusCode reply = StatusOK
       /\ last st' = <[id := true]> (last st)
       /\ default false (last st' !! id) = true)
    /\ (forall e, fst off = Some e ->
          reply = http.Error w e StatusBadRequest
          /\ last st' = last st
          /\ trace st' = (trace st ++ [EvPowerOff id])%list)
    /\ (forall e, fst off = None -> fst on = Some e ->
          reply = http.Error w e StatusBadRequest
          /\ last st' = last st
          /\ trace st' = (trace st ++ [EvPowerOff id; EvSleep (2 * Second);
                                       EvPowerOn id])%list)
    /\ (last st' <> last st ->
          fst off = None /\ fst on = None /\ StatusCode reply = StatusOK).
Proof.
  intros W cfg id rt be r w st Hbe Hm Ha Hb Hrt. simpl.
  rewrite (handleSystem_reset cfg w r id st Hm Ha), Hbe, Hb.
  rewrite (applyReset_Restart id be rt st Hrt).
  destruct (PowerOff be (world st)) as [[e1|] w1]; simpl;
    [| destruct (PowerOn be w1) as [[e2|] w2]; simpl];
    repeat split; intros; simplify_eq; simpl;
      rewrite <- ?app_assoc, ?lookup_insert_eq; try reflexivity;
      congruence.
Qed.

Lemma restart_updates_cache_only_on_success_witness :
  let st0 := Scenario.start Scenario.stuckConfig "off" in
  let st1 := Scenario.start Scenario.noopConfig "off" in
  (StatusCode (fst (handleSystem Scenario.stuckConfig newWriter
                      (postReset "1" "ForceRestart") st0)) = StatusBadRequest
   /\ last (snd (handleSystem Scenario.stuckConfig newWriter
                   (postReset "1" "ForceRestart") st0)) = last st0)
  /\ default false
       (last (snd (handleSystem Scenario.noopConfig newWriter
                     (postReset "1" "GracefulRestart") st1)) !! "1") = true.
Proof.
  intros st0 st1. split.
  - pose proof (restart_updates_cache_only_on_success
      Scenario.World Scenario.stuckConfig "1" "ForceRestart" Scenario.stuckOff
      (postReset "1" "ForceRestart") newWriter st0
      eq_refl eq_refl eq_refl eq_refl (or_introl eq_refl)) as H.
    destruct H as (_ & _ & H & _).
    destruct (H "will not start" eq_refl eq_refl) as (Hr & Hl & _).
    split; [rewrite Hr; reflexivity | exact Hl].
  - pose proof (restart_updates_cache_only_on_success
      Scenario.World Scenario.noopConfig "1" "GracefulRestart" NewNoop
      (postReset "1" "GracefulRestart") newWriter st1
      eq_refl eq_refl eq_refl eq_refl (or_intror eq_refl)) as H.
    destruct H as (H & _).
    destruct (H eq_refl eq_refl) as (_ & _ & Hl). exact Hl.
Defined.

(** C3: a reset type outside the six keywords of [applyReset] reaches no
    backend: [applyReset] returns the error ["unsupported ResetType"] and
    leaves the whole store as it was, and the handler, for a registered id,
    replies 400 with that message, records no backend call and leaves the
    cache unchanged. *)
Theorem unsupported_reset_type_rejected :
  forall (W : Type) (cfg : Config W) (id resetType : string) (be : Backend W)
         (r : Request) (w : ResponseWriter) (st : Store W),
    ~ In resetType acceptedResetTypes ->
    applyReset id be resetType st = (Some "unsupported ResetType", st)
    /\ (Systems cfg !! id = Some be ->
        Method r = MethodPost ->
        addressesReset r id = true ->
        ResetBody r = Some resetType ->
        let reply := fst (handleSystem cfg w r st) in
        let st' := snd (handleSystem cfg w r st) in
        reply = http.Error w "unsupported ResetType" StatusBadRequest
        /\ StatusCode reply = StatusBadRequest
        /\ Body reply = (Body w ++ errorBody "unsupported ResetType")%list
        /\ trace st' = trace st
        /\ world st' = world st
        /\ last st' = last st
        /\ st' = st).
Proof.
  intros W cfg id rt be r w st Hn.
  pose proof (applyReset_default id be rt st Hn) as Hd.
  split; [exact Hd|].
  intros Hbe Hm Ha Hb. simpl.
  rewrite (handleSystem_reset cfg w r id st Hm Ha), Hbe, Hb, Hd. simpl.
  repeat split; reflexivity.
Qed.

Lemma unsupported_reset_type_rejected_witness :
  let st0 := Scenario.start Scenario.noopConfig "off" in
  StatusCode (fst (handleSystem Scenario.noopConfig newWriter
                     (postReset "1" "PowerCycle") st0)) = StatusBadRequest
  /\ trace (snd (handleSystem Scenario.noopConfig newWriter
                   (postReset "1" "PowerCycle") st0)) = [].
Proof.
  intros st0.
  assert (Hn : ~ In "PowerCycle" acceptedResetTypes).
  { simpl. intros [H | [H | [H | [H | [H | [H | []]]]]]]; discriminate H. }
  destruct (unsupported_reset_type_rejected
              Scenario.World Scenario.noopConfig "1" "PowerCycle" NewNoop
              (postReset "1" "PowerCycle") newWriter st0 Hn) as [_ H].
  destruct (H eq_refl eq_refl eq_refl eq_refl) as (_ & Hs & _ & Ht & _).
  split; [exact Hs | exact Ht].
Defined.

(** ** The live state query *)

Lemma lowerByte_o (c : ascii) :
  GoStrings.lowerByte c = "o"%char <-> c = "o"%char \/ c = "O"%char.
Proof.
  split.
  - destruct c as [[] [] [] [] [] [] [] []]; vm_compute; intros H;
      try discriminate H; auto.
  - intros [-> | ->]; reflexivity.
Qed.

Lemma lowerByte_n (c : ascii) :
  GoStrings.lowerByte c = "n"%char <-> c = "n"%char \/ c = "N"%char.
Proof.
  split.
  - destruct c as [[] [] [] [] [] [] [] []]; vm_compute; intros H;
      try discriminate H; auto.
  - intros [-> | ->]; reflexivity.
Qed.

(** [strings.ToLower(state) == "on"] holds exactly for the four spellings
    of ["on"]. *)
Lemma ToLower_on (s : string) :
  String.eqb (GoStrings.ToLower s) "on" = true <-> equalsOnIgnoringCase s.
Proof.
  rewrite String.eqb_eq. unfold equalsOnIgnoringCase. split.
  - destruct s as [|c1 [|c2 [|c3 s]]]; simpl; intros H; try discriminate H.
    injection H as H1 H2.
    apply lowerByte_o in H1. apply lowerByte_n in H2.
    destruct H1 as [-> | ->], H2 as [-> | ->]; auto.
  - intros [-> | [-> | [-> | ->]]]; reflexivity.
Qed.

(** C4: when the backend has the state query and the query returns without
    error, the reply reports ["On"] exactly when the query returned [true],
    whatever the cache holds; the query of the remote-switch backend returns
    [true] exactly when the fetched state string is ["on"] up to the case of
    its letters, so that such a state string is reported as ["On"]. *)
Theorem live_query_decides_power_state :
  forall (W : Type) (HW : Host W),
    (forall (cfg : Config W) (id : string) (be : Backend W)
            (ps : W -> (bool * option error) * W)
            (r : Request) (w : ResponseWriter) (st : Store W)
            (v : bool) (wld' : W),
        Systems cfg !! id = Some be ->
        CurrentState be = Some ps ->
        ps (world st) = ((v, None), wld') ->
        Method r = MethodGet ->
        addressesSystem r id = true ->
        let reply := fst (handleSystem cfg w r st) in
        StatusCode reply = StatusOK
        /\ powerStateOf reply = Some (if v then "On" else "Off")
        /\ (powerStateOf reply = Some "On" <-> v = true))
    /\ (forall (h : HomeAssistant) (wld wld' : W) (state name : string),
          fetchState h wld = ((state, name, None), wld') ->
          exists v : bool,
            HomeAssistant_CurrentState h wld = ((v, None), wld')
            /\ (v = true <-> equalsOnIgnoringCase state))
    /\ (forall (cfg : Config W) (id : string) (h : HomeAssistant)
               (r : Request) (w : ResponseWriter) (st : Store W)
               (state name : string) (wld' : W),
          Systems cfg !! id = Some (homeassistant h) ->
          fetchState h (world st) = ((state, name, None), wld') ->
          equalsOnIgnoringCase state ->
          Method r = MethodGet ->
          addressesSystem r id = true ->
          powerStateOf (fst (handleSystem cfg w r st)) = Some "On").
Proof.
  intros W HW.
  assert (Hgen : forall (cfg : Config W) (id : string) (be : Backend W)
            (ps : W -> (bool * option error) * W)
            (r : Request) (w : ResponseWriter) (st : Store W)
            (v : bool) (wld' : W),
        Systems cfg !! id = Some be ->
        CurrentState be = Some ps ->
        ps (world st) = ((v, None), wld') ->
        Method r = MethodGet ->
        addressesSystem r id = true ->
        StatusCode (fst (handleSystem cfg w r st)) = StatusOK
        /\ powerStateOf (fst (handleSystem cfg w r st))
           = Some (if v then "On" else "Off")).
  { intros cfg id be ps r w st v wld' Hbe Hcap Hps Hm Ha.
    rewrite (handleSystem_get cfg w r id st Hm Ha), Hbe.
    unfold currentOn. rewrite Hcap. unfold_m. rewrite Hps.
    match goal with
    | |- context [friendlyName id be ?s] =>
        destruct (friendlyName id be s) as [name st2]
    end.
    simpl. rewrite powerStateOf_document. auto. }
  assert (Hha : forall (h : HomeAssistant) (wld wld' : W) (state name : string),
          fetchState h wld = ((state, name, None), wld') ->
          HomeAssistant_CurrentState h wld
          = ((String.eqb (GoStrings.ToLower state) "on", None), wld')).
  { intros h wld wld' state name Hf.
    unfold HomeAssistant_CurrentState. rewrite Hf. reflexivity. }
  split; [|split].
  - intros cfg id be ps r w st v wld' Hbe Hcap Hps Hm Ha. simpl.
    destruct (Hgen cfg id be ps r w st v wld' Hbe Hcap Hps Hm Ha) as [Hs Hp].
    repeat split; auto.
    + rewrite Hp. destruct v; [reflexivity | discriminate].
    + intros ->. exact Hp.
  - intros h wld wld' state name Hf.
    exists (String.eqb (GoStrings.ToLower state) "on").
    split; [exact (Hha h wld wld' state name Hf) | apply ToLower_on].
  - intros cfg id h r w st state name wld' Hbe Hf Hon Hm Ha.
    apply ToLower_on in Hon.
    pose proof (Hha h (world st) wld' state name Hf) as Hcs.
    rewrite Hon in Hcs.
    exact (proj2 (Hgen cfg id (homeassistant h) (HomeAssistant_CurrentState h)
                    r w st true wld' Hbe eq_refl Hcs Hm Ha)).
Qed.

Lemma live_query_decides_power_state_witness :
  let st0 := Scenario.start Scenario.switchConfig "ON" in
  default false (last st0 !! "1") = false
  /\ powerStateOf (fst (handleSystem Scenario.switchConfig newWriter
                          (getSystem "1") st0)) = Some "On".
Proof.
  intros st0. split; [reflexivity|].
  refine (proj2 (proj2 (live_query_decides_power_state
                          Scenario.World Scenario.scenarioHost))
            Scenario.switchConfig "1" Scenario.switch (getSystem "1")
            newWriter st0 "ON" "" "ON" _ _ _ _ _).
  - reflexivity.
  - reflexivity.
  - right; right; right; reflexivity.
  - reflexivity.
  - reflexivity.
Defined.

(** ** Readiness *)

Section Readyz.
Context {W : Type}.
Implicit Types (cfg : Config W) (be : Backend W) (st : Store W).
Implicit Types (order : list (string * Backend W)).

(** The loop only moves the world and the trace. *)
Lemma readyzLoop_maps order st :
  last (snd (readyzLoop order st)) = last st
  /\ boot (snd (readyzLoop order st)) = boot st.
Proof.
  revert st. induction order as [|[id be] rest IH]; intros st; [auto|].
  simpl. destruct (Ping be) as [ping|]; [|auto].
  unfold_m. destruct (ping (world st)) as [[e|] w1]; [|auto].
  match goal with
  | |- context [readyzLoop rest ?s] => destruct (IH s) as [Hl Hb]
  end.
  rewrite Hl, Hb. auto.
Qed.

(** The loop answers [false] exactly when every health check is there
    and fails; all of them have then been called, in order. *)
Lemma readyzLoop_false order st :
  fst (readyzLoop order st) = false ->
  allPingsFail order (world st) (world (snd (readyzLoop order st)))
  /\ trace (snd (readyzLoop order st)) = (trace st ++ pingEvents order)%list.
Proof.
  revert st. induction order as [|[id be] rest IH]; intros st.
  - simpl. intros _. split; [constructor | symmetry; apply app_nil_r].
  - simpl. destruct (Ping be) as [ping|] eqn:Hp; [|discriminate].
    unfold_m. destruct (ping (world st)) as [[e|] w1] eqn:Hr; [|discriminate].
    intros Hf. apply IH in Hf as [Ha Ht]. simpl in Ha, Ht. split.
    + econstructor; eauto.
    + rewrite Ht, <- app_assoc. reflexivity.
Qed.

Lemma allPingsFail_loop order st wld' :
  allPingsFail order (world st) wld' ->
  fst (readyzLoop order st) = false
  /\ world (snd (readyzLoop order st)) = wld'.
Proof.
  revert st. induction order as [|[id be] rest IH]; intros st Ha.
  - inversion Ha; subst. auto.
  - inversion Ha as [|id' be' ping e w0 w1 w2 rest' Hp Hr Hrest]; subst.
    simpl. rewrite Hp. unfold_m. rewrite Hr. apply IH. exact Hrest.
Qed.

(** The loop answers [true] at the first backend without a health check
    or with a successful one, and asks no backend after it. *)
Lemma readyzLoop_first_healthy pre id be post st wld1 :
  allPingsFail pre (world st) wld1 ->
  (Ping be = None
   \/ exists ping wld2, Ping be = Some ping /\ ping wld1 = (None, wld2)) ->
  let res := readyzLoop (pre ++ (id, be) :: post) st in
  fst res = true
  /\ trace (snd res)
     = (trace st ++ pingEvents pre
          ++ match Ping be with Some _ => [EvPing id] | None => [] end)%list.
Proof.
  revert st. induction pre as [|[id0 be0] pre IH]; intros st Ha Hh.
  - inversion Ha; subst. simpl.
    destruct Hh as [Hn | (ping & wld2 & Hp & Hr)].
    + rewrite Hn. simpl. split; [reflexivity | symmetry; apply app_nil_r].
    + rewrite Hp. unfold_m. rewrite Hr. auto.
  - inversion Ha as [|id' be' ping e w0 w1 w2 rest' Hp Hr Hrest]; subst.
    simpl. rewrite Hp. unfold_m. rewrite Hr.
    match goal with
    | |- context [readyzLoop _ ?s] =>
        destruct (IH s Hrest Hh) as [Hf Ht]
    end.
    split; [exact Hf|]. rewrite Ht. simpl. rewrite <- app_assoc. reflexivity.
Qed.

Lemma allPingsFail_has_ping order wld wld' id be :
  allPingsFail order wld wld' ->
  In (id, be) order ->
  exists ping e w1 w2, Ping be = Some ping /\ ping w1 = (Some e, w2).
Proof.
  induction 1 as [|id' be' ping e w0 w1 w2 rest Hp Hr Hrest IH]; intros Hin.
  - destruct Hin.
  - destruct Hin as [Heq | Hin]; [|exact (IH Hin)].
    injection Heq as -> ->. exists ping, e, w0, w1. split; assumption.
Qed.

End Readyz.

(** C5: the readiness endpoint replies 200 when the registry is empty; it
    replies 200 as soon as the iteration meets a backend without health
    check or with a health check that succeeds, asking no backend after
    that one; it replies 503 only when every registered backend has a
    health check and every one of them, asked in turn, fails, and it does
    reply 503 then.  So a registry that holds a backend without health
    check, or one whose health check cannot fail, never gives 503; the
    health check of the shell-command backend is one that cannot fail. *)
Theorem readyz_aggregates_health :
  forall (W : Type) (HW : Host W) (cfg : Config W)
         (order : list (string * Backend W))
         (w : ResponseWriter) (r : Request) (st : Store W),
    let reply := fst (handleReadyz cfg order w r st) in
    let st' := snd (handleReadyz cfg order w r st) in
    (Systems cfg = ∅ -> StatusCode reply = StatusOK /\ st' = st)
    /\ (forall pre id be post wld1,
          order = (pre ++ (id, be) :: post)%list ->
          allPingsFail pre (world st) wld1 ->
          (Ping be = None
           \/ exists ping wld2, Ping be = Some ping /\ ping wld1 = (None, wld2)) ->
          StatusCode reply = StatusOK
          /\ (Systems cfg <> ∅ ->
              trace st'
              = (trace st ++ pingEvents pre
                   ++ match Ping be with
                      | Some _ => [EvPing id]
                      | None => []
                      end)%list))
    /\ (Permutation order (map_to_list (Systems cfg)) ->
        StatusCode reply = StatusServiceUnavailable ->
        Systems cfg <> ∅
        /\ (forall id be, Systems cfg !! id = Some be -> is_Some (Ping be))
        /\ allPingsFail order (world st) (world st')
        /\ trace st' = (trace st ++ pingEvents order)%list)
    /\ (forall wld', Systems cfg <> ∅ ->
          allPingsFail order (world st) wld' ->
          StatusCode reply = StatusServiceUnavailable)
    /\ (StatusCode reply = StatusOK \/ StatusCode reply = StatusServiceUnavailable)
    /\ (forall onCmd offCmd wld,
          Ping (command onCmd offCmd) = Some (@command_Ping W)
          /\ @command_Ping W wld = (None, wld))
    /\ (forall id be,
          Permutation order (map_to_list (Systems cfg)) ->
          Systems cfg !! id = Some be ->
          (Ping be = None
           \/ exists ping, Ping be = Some ping
                           /\ forall wld, fst (ping wld) = None) ->
          StatusCode reply = StatusOK)
    /\ (forall id onCmd offCmd,
          Permutation order (map_to_list (Systems cfg)) ->
          Systems cfg !! id = Some (command onCmd offCmd) ->
          StatusCode reply = StatusOK).
Proof.
  intros W HW cfg order w r st. simpl.
  assert (Hsize : Systems cfg <> ∅ -> (size (Systems cfg) =? 0)%nat = false).
  { intros Hne. apply Nat.eqb_neq. intros Hz. apply Hne.
    apply map_size_empty_iff. exact Hz. }
  assert (H503 : Permutation order (map_to_list (Systems cfg)) ->
        StatusCode (fst (handleReadyz cfg order w r st))
          = StatusServiceUnavailable ->
        Systems cfg <> ∅
        /\ (forall id be, Systems cfg !! id = Some be -> is_Some (Ping be))
        /\ allPingsFail order (world st)
             (world (snd (handleReadyz cfg order w r st)))
        /\ trace (snd (handleReadyz cfg order w r st))
           = (trace st ++ pingEvents order)%list).
  { intros Hperm. unfold handleReadyz.
    destruct (size (Systems cfg) =? 0)%nat eqn:Hsz; [discriminate|].
    unfold bind. destruct (readyzLoop order st) as [[|] st1] eqn:Hloop;
      simpl; [discriminate|]. intros _.
    pose proof (readyzLoop_false order st) as Hf.
    rewrite Hloop in Hf. simpl in Hf. destruct (Hf eq_refl) as [Ha Ht].
    split; [|split; [|split]]; auto.
    - intros He. rewrite He, map_size_empty in Hsz. discriminate.
    - intros id be Hbe.
      apply elem_of_map_to_list in Hbe.
      apply list_elem_of_In in Hbe.
      apply (Permutation_in _ (Permutation_sym Hperm)) in Hbe.
      destruct (allPingsFail_has_ping _ _ _ _ _ Ha Hbe) as (ping & _ & _ & _ & Hp & _).
      rewrite Hp. eauto. }
  assert (Hcases : StatusCode (fst (handleReadyz cfg order w r st)) = StatusOK
                   \/ StatusCode (fst (handleReadyz cfg order w r st))
                      = StatusServiceUnavailable).
  { unfold handleReadyz. destruct (size (Systems cfg) =? 0)%nat; [auto|].
    unfold bind. destruct (readyzLoop order st) as [[|] st1]; auto. }
  assert (Hhealthy : forall id be,
             Permutation order (map_to_list (Systems cfg)) ->
             Systems cfg !! id = Some be ->
             (Ping be = None
              \/ exists ping, Ping be = Some ping
                              /\ forall wld, fst (ping wld) = None) ->
             StatusCode (fst (handleReadyz cfg order w r st)) = StatusOK).
  { intros id be Hperm Hbe Hh.
    destruct Hcases as [Hok | Hbad]; [exact Hok|]. exfalso.
    destruct (H503 Hperm Hbad) as (_ & _ & Ha & _).
    apply elem_of_map_to_list in Hbe.
    apply list_elem_of_In in Hbe.
    apply (Permutation_in _ (Permutation_sym Hperm)) in Hbe.
    destruct (allPingsFail_has_ping _ _ _ _ _ Ha Hbe)
      as (ping & e & w1 & w2 & Hp & Hr).
    destruct Hh as [Hn | (ping' & Hp' & Hall)]; [congruence|].
    rewrite Hp in Hp'. injection Hp' as <-.
    specialize (Hall w1). rewrite Hr in Hall. discriminate Hall. }
  split; [|split; [|split; [|split; [|split; [|split; [|split]]]]]].
  - intros He. unfold handleReadyz. rewrite He, map_size_empty. auto.
  - intros pre id be post wld1 -> Ha Hh.
    destruct (readyzLoop_first_healthy pre id be post st wld1 Ha Hh) as [Hf Ht].
    unfold handleReadyz.
    destruct (size (Systems cfg) =? 0)%nat eqn:Hsz.
    + split; [reflexivity|]. intros Hne. discriminate (Hsize Hne).
    + unfold bind.
      destruct (readyzLoop (pre ++ (id, be) :: post) st) as [ok st1].
      simpl in Hf, Ht. subst ok. simpl. auto.
  - exact H503.
  - intros wld' Hne Ha. unfold handleReadyz. rewrite (Hsize Hne).
    destruct (allPingsFail_loop order st wld' Ha) as [Hf _].
    unfold bind. destruct (readyzLoop order st) as [ok st1].
    simpl in Hf. subst ok. reflexivity.
  - exact Hcases.
  - intros onCmd offCmd wld. split; reflexivity.
  - exact Hhealthy.
  - intros id onCmd offCmd Hperm Hbe.
    apply (Hhealthy id (command onCmd offCmd) Hperm Hbe).
    right. exists (@command_Ping W). split; [reflexivity|]. intros wld.
    reflexivity.
Qed.

Lemma readyz_aggregates_health_witness :
  let st0 := Scenario.start Scenario.unreachableConfig "off" in
  let req := {| Method := MethodGet; Path := "/readyz";
                BasicAuth := None; ResetBody := None |} in
  (StatusCode (fst (handleReadyz Scenario.unreachableConfig
                      [("1", Scenario.unreachable)] newWriter req st0))
   = StatusServiceUnavailable
   /\ forall id be, Systems Scenario.unreachableConfig !! id = Some be ->
                    is_Some (Ping be))
  /\ StatusCode (fst (handleReadyz Scenario.noopConfig
                        [("1", NewNoop)] newWriter req st0)) = StatusOK.
Proof.
  intros st0 req. split.
  - destruct (readyz_aggregates_health Scenario.World Scenario.scenarioHost
                Scenario.unreachableConfig [("1", Scenario.unreachable)]
                newWriter req st0) as (_ & _ & H3 & H4 & _).
    assert (Hne : Systems Scenario.unreachableConfig <> ∅).
    { intros He. apply (f_equal (fun m => m !! "1")) in He.
      vm_compute in He. discriminate He. }
    assert (Hs : StatusCode (fst (handleReadyz Scenario.unreachableConfig
                      [("1", Scenario.unreachable)] newWriter req st0))
                 = StatusServiceUnavailable).
    { apply (H4 "off" Hne).
      eapply apf_cons; [reflexivity | reflexivity | apply apf_nil]. }
    assert (Hperm : Permutation [("1", Scenario.unreachable)]
                      (map_to_list (Systems Scenario.unreachableConfig))).
    { simpl. rewrite map_to_list_singleton. apply Permutation_refl. }
    split; [exact Hs|]. exact (proj1 (proj2 (H3 Hperm Hs))).
  - destruct (readyz_aggregates_health Scenario.World Scenario.scenarioHost
                Scenario.noopConfig [("1", NewNoop)]
                newWriter req st0) as (_ & H2 & _).
    exact (proj1 (H2 [] "1" NewNoop [] "off" eq_refl (apf_nil "off")
                     (or_introl eq_refl))).
Defined.

(** ** The authentication middleware *)

Lemma exempt_test (s : string) :
  String.eqb s "/redfish/v1/" || String.eqb s "/redfish/v1"
  || String.eqb s "/livez" || String.eqb s "/readyz" = true
  <-> In s exemptPaths.
Proof.
  unfold exemptPaths. simpl.
  rewrite !orb_true_iff, !String.eqb_eq. intuition congruence.
Qed.

Lemma no_credentials_test {W : Type} (cfg : Config W) :
  String.eqb (Username cfg) "" && String.eqb (Password cfg) "" = true
  <-> Username cfg = "" /\ Password cfg = "".
Proof. rewrite andb_true_iff, !String.eqb_eq. reflexivity. Qed.

Lemma credentials_test {W : Type} (cfg : Config W) (usr pwd : string) :
  negb (String.eqb usr (Username cfg)) || negb (String.eqb pwd (Password cfg))
  = true
  <-> usr <> Username cfg \/ pwd <> Password cfg.
Proof.
  rewrite orb_true_iff, !negb_true_iff, !String.eqb_neq. reflexivity.
Qed.

(** The earlier revision turns down the same requests in the same way; it
    has no exempt path. *)
Lemma v0_authMiddleware_unauthorized {W : Type} (cfg : Config W)
      (next : @Handler W) (w : ResponseWriter) (r : Request) (st : Store W) :
  ~ (Username cfg = "" /\ Password cfg = "") ->
  badCredentials cfg r ->
  server_v0.authMiddleware cfg next w r st = (unauthorized w, st).
Proof.
  intros Hcfg Hbad. unfold server_v0.authMiddleware.
  destruct (String.eqb (Username cfg) "" && String.eqb (Password cfg) "")
    eqn:Hc; [apply no_credentials_test in Hc; contradiction|].
  unfold badCredentials in Hbad.
  destruct (BasicAuth r) as [[usr pwd]|]; [|reflexivity].
  apply credentials_test in Hbad. rewrite Hbad. reflexivity.
Qed.

(** C6: with credentials configured, a request to a path that is not
    exempt, without Basic credentials or with a pair that differs from the
    configured one, gets 401 with a [WWW-Authenticate] header, whatever the
    wrapped handler is, and the store is untouched; a request to an exempt
    path, and any request when no credentials are configured, is handed to
    the wrapped handler. *)
Theorem auth_gate :
  forall (W : Type) (cfg : Config W) (next : @Handler W)
         (w : ResponseWriter) (r : Request) (st : Store W),
    (~ (Username cfg = "" /\ Password cfg = "") ->
     ~ In (Path r) exemptPaths ->
     badCredentials cfg r ->
     authMiddleware cfg next w r st = (unauthorized w, st)
     /\ StatusCode (unauthorized w) = StatusUnauthorized
     /\ Header (unauthorized w) !! "WWW-Authenticate" = Some "Basic realm=redfish"
     /\ forall next' : @Handler W,
          authMiddleware cfg next' w r st = authMiddleware cfg next w r st)
    /\ (In (Path r) exemptPaths ->
        authMiddleware cfg next w r st = next w r st)
    /\ (Username cfg = "" /\ Password cfg = "" ->
        authMiddleware cfg next w r st = next w r st).
Proof.
  intros W cfg next w r st.
  assert (H401 : ~ (Username cfg = "" /\ Password cfg = "") ->
                 ~ In (Path r) exemptPaths ->
                 badCredentials cfg r ->
                 forall next' : @Handler W,
                   authMiddleware cfg next' w r st = (unauthorized w, st)).
  { intros Hcfg Hpath Hbad next'. unfold authMiddleware.
    destruct (String.eqb (Path r) "/redfish/v1/"
              || String.eqb (Path r) "/redfish/v1"
              || String.eqb (Path r) "/livez"
              || String.eqb (Path r) "/readyz") eqn:He;
      [apply exempt_test in He; contradiction|].
    destruct (String.eqb (Username cfg) "" && String.eqb (Password cfg) "")
      eqn:Hc; [apply no_credentials_test in Hc; contradiction|].
    unfold badCredentials in Hbad.
    destruct (BasicAuth r) as [[usr pwd]|]; [|reflexivity].
    apply credentials_test in Hbad. rewrite Hbad. reflexivity. }
  split; [|split].
  - intros Hcfg Hpath Hbad. split; [|split; [|split]].
    + apply H401; assumption.
    + reflexivity.
    + unfold unauthorized, http.Error, Write, WriteHeader, HeaderSet. simpl.
      rewrite lookup_insert_ne by discriminate.
      rewrite lookup_insert_ne by discriminate.
      apply lookup_insert_eq.
    + intros next'. rewrite !H401; auto.
  - intros Hpath. apply exempt_test in Hpath.
    unfold authMiddleware. rewrite Hpath. reflexivity.
  - intros Hcfg. apply no_credentials_test in Hcfg.
    unfold authMiddleware. rewrite Hcfg.
    destruct (String.eqb (Path r) "/redfish/v1/"
              || String.eqb (Path r) "/redfish/v1"
              || String.eqb (Path r) "/livez"
              || String.eqb (Path r) "/readyz"); reflexivity.
Qed.

Lemma auth_gate_witness :
  let st0 := Scenario.start Scenario.securedConfig "off" in
  let wrong := {| Method := MethodGet; Path := systemURL "1";
                  BasicAuth := Some ("admin", "guess"); ResetBody := None |} in
  let probe := {| Method := MethodGet; Path := "/livez";
                  BasicAuth := None; ResetBody := None |} in
  StatusCode (fst (authMiddleware Scenario.securedConfig
                     (handleSystem Scenario.securedConfig) newWriter wrong st0))
  = StatusUnauthorized
  /\ authMiddleware Scenario.securedConfig handleLivez newWriter probe st0
     = handleLivez newWriter probe st0.
Proof.
  intros st0 wrong probe.
  split.
  - destruct (auth_gate Scenario.World Scenario.securedConfig
                (handleSystem Scenario.securedConfig) newWriter wrong st0)
      as (H & _ & _).
    assert (Hcfg : ~ (Username Scenario.securedConfig = ""
                      /\ Password Scenario.securedConfig = "")).
    { intros [Hu _]. discriminate Hu. }
    assert (Hpath : ~ In (Path wrong) exemptPaths).
    { simpl. intros [Hp | [Hp | [Hp | [Hp | []]]]]; discriminate Hp. }
    assert (Hbad : badCredentials Scenario.securedConfig wrong).
    { right. discriminate. }
    destruct (H Hcfg Hpath Hbad) as (Heq & Hs & _).
    rewrite Heq. exact Hs.
  - destruct (auth_gate Scenario.World Scenario.securedConfig
                handleLivez newWriter probe st0) as (_ & H & _).
    apply H. simpl. tauto.
Defined.

(** ** Unknown and empty ids *)

(** C7, as the code has it: a GET of a system or a POST of a reset action
    whose id is not in the registry gets 404, and so does any request whose
    path is empty once the Systems prefix is stripped, whatever the registry
    holds.  An id that is empty only after the reset suffix or a final
    slash is stripped is looked up like any other id: the reply is 404
    exactly when the empty id is not registered. *)
Theorem unknown_id_not_found :
  forall (W : Type) (cfg : Config W) (w : ResponseWriter) (r : Request)
         (id : string) (st : Store W),
    let reply := fst (handleSystem cfg w r st) in
    (Systems cfg !! id = None ->
     (Method r = MethodGet /\ addressesSystem r id = true)
     \/ (Method r = MethodPost /\ addressesReset r id = true) ->
     handleSystem cfg w r st = (http.NotFound w, st)
     /\ StatusCode reply = StatusNotFound)
    /\ (systemPath r = "" ->
        handleSystem cfg w r st = (http.NotFound w, st)
        /\ StatusCode reply = StatusNotFound)
    /\ ((Method r = MethodGet /\ addressesSystem r "" = true)
        \/ (Method r = MethodPost /\ addressesReset r "" = true) ->
        (StatusCode reply = StatusNotFound <-> Systems cfg !! "" = None)).
Proof.
  intros W cfg w r id st. simpl.
  assert (Hunknown : forall id',
             Systems cfg !! id' = None ->
             (Method r = MethodGet /\ addressesSystem r id' = true)
             \/ (Method r = MethodPost /\ addressesReset r id' = true) ->
             handleSystem cfg w r st = (http.NotFound w, st)).
  { intros id' Hn [[Hm Ha] | [Hm Ha]].
    - rewrite (handleSystem_get cfg w r id' st Hm Ha), Hn. reflexivity.
    - rewrite (handleSystem_reset cfg w r id' st Hm Ha), Hn. reflexivity. }
  split; [|split].
  - intros Hn Hr. rewrite (Hunknown id Hn Hr). auto.
  - intros Hp. unfold handleSystem. fold systemsPrefix.
    change (GoStrings.TrimPrefix (Path r) systemsPrefix) with (systemPath r).
    rewrite Hp. simpl. auto.
  - intros Hr. split.
    + intros Hs. destruct (Systems cfg !! "") as [be|] eqn:Hbe; [|reflexivity].
      exfalso. destruct Hr as [[Hm Ha] | [Hm Ha]].
      * rewrite (handleSystem_get cfg w r "" st Hm Ha), Hbe in Hs.
        destruct (currentOn "" be st) as [on st1].
        destruct (friendlyName "" be st1) as [name st2].
        discriminate Hs.
      * rewrite (handleSystem_reset cfg w r "" st Hm Ha), Hbe in Hs.
        destruct (ResetBody r) as [rt|]; [|discriminate Hs].
        destruct (applyReset "" be rt st) as [[e|] st1]; discriminate Hs.
    + intros Hn. rewrite (Hunknown "" Hn Hr). reflexivity.
Qed.

Lemma unknown_id_not_found_witness :
  let st0 := Scenario.start Scenario.noopConfig "off" in
  StatusCode (fst (handleSystem Scenario.noopConfig newWriter
                     (getSystem "2") st0)) = StatusNotFound
  /\ StatusCode (fst (handleSystem Scenario.noopConfig newWriter
                        (postReset "2" "On") st0)) = StatusNotFound
  /\ StatusCode (fst (handleSystem Scenario.emptyIdConfig newWriter
                        (getSystem "") st0)) = StatusNotFound.
Proof.
  intros st0. split; [|split].
  - exact (proj2 (proj1 (unknown_id_not_found Scenario.World
             Scenario.noopConfig newWriter (getSystem "2") "2" st0)
             eq_refl (or_introl (conj eq_refl eq_refl)))).
  - exact (proj2 (proj1 (unknown_id_not_found Scenario.World
             Scenario.noopConfig newWriter (postReset "2" "On") "2" st0)
             eq_refl (or_intror (conj eq_refl eq_refl)))).
  - exact (proj2 (proj1 (proj2 (unknown_id_not_found Scenario.World
             Scenario.emptyIdConfig newWriter (getSystem "") "" st0))
             eq_refl)).
Defined.

(** With the empty id registered, a request whose id is empty once the
    reset suffix or the final slash is stripped is served: the reply is
    200, not 404. *)
Lemma empty_id_is_served :
  let st0 := Scenario.start Scenario.emptyIdConfig "off" in
  let post := postReset "" "On" in
  let get := {| Method := MethodGet; Path := "/redfish/v1/Systems//";
                BasicAuth := None; ResetBody := None |} in
  Path post = "/redfish/v1/Systems//Actions/ComputerSystem.Reset"
  /\ addressesReset post "" = true
  /\ StatusCode (fst (handleSystem Scenario.emptyIdConfig newWriter post st0))
     = StatusOK
  /\ StatusCode (fst (handleSystem Scenario.emptyIdConfig newWriter post st0))
     <> StatusNotFound
  /\ addressesSystem get "" = true
  /\ StatusCode (fst (handleSystem Scenario.emptyIdConfig newWriter get st0))
     = StatusOK.
Proof.
  intros st0 post get. repeat split; try reflexivity.
  vm_compute. discriminate.
Qed.

(** ** Reads leave the maps alone *)

Section Frame.
Context {W : Type}.
Implicit Types (cfg : Config W) (be : Backend W) (st : Store W).
Implicit Types (w : ResponseWriter) (r : Request) (id : string).

(** No request to [handleSystem] changes the boot map. *)
Lemma handleSystem_boot cfg w r st :
  boot (snd (handleSystem cfg w r st)) = boot st.
Proof.
  unfold handleSystem.
  destruct (String.eqb _ ""); [reflexivity|].
  destruct (GoStrings.HasSuffix _ _).
  - destruct (negb _); [reflexivity|].
    destruct (Systems cfg !! _) as [be|]; [|reflexivity].
    destruct (ResetBody r) as [rt|]; [|reflexivity].
    unfold bind.
    match goal with
    | |- context [applyReset ?i be rt st] =>
        pose proof (applyReset_boot i be rt st) as Hb;
        destruct (applyReset i be rt st) as [[e|] st1]
    end; exact Hb.
  - destruct (negb _); [reflexivity|].
    destruct (Systems cfg !! _) as [be|]; [|reflexivity].
    unfold bind.
    match goal with
    | |- context [currentOn ?i be st] =>
        pose proof (currentOn_maps i be st) as [_ Hb1];
        destruct (currentOn i be st) as [on st1];
        pose proof (friendlyName_maps i be st1) as [_ Hb2];
        destruct (friendlyName i be st1) as [name st2]
    end.
    simpl in *. congruence.
Qed.

(** A GET to [handleSystem] changes neither map. *)
Lemma handleSystem_get_frame cfg w r st :
  Method r = MethodGet ->
  last (snd (handleSystem cfg w r st)) = last st.
Proof.
  intros Hm. unfold handleSystem. rewrite Hm.
  destruct (String.eqb _ ""); [reflexivity|].
  destruct (GoStrings.HasSuffix _ _); [reflexivity|].
  simpl.
  destruct (Systems cfg !! _) as [be|]; [|reflexivity].
  unfold bind.
  match goal with
  | |- context [currentOn ?i be st] =>
      pose proof (currentOn_maps i be st) as [Hl1 _];
      destruct (currentOn i be st) as [on st1];
      pose proof (friendlyName_maps i be st1) as [Hl2 _];
      destruct (friendlyName i be st1) as [name st2]
  end.
  simpl in *. congruence.
Qed.

(** A GET of a registered system without boot entry reports the defaults. *)
Lemma handleSystem_get_defaults cfg w r id be st :
  Systems cfg !! id = Some be ->
  Method r = MethodGet ->
  addressesSystem r id = true ->
  boot st !! id = None ->
  let reply := fst (handleSystem cfg w r st) in
  StatusCode reply = StatusOK
  /\ bootTargetOf reply = Some "None"
  /\ bootEnabledOf reply = Some "Disabled".
Proof.
  intros Hbe Hm Ha Hboot. simpl.
  rewrite (handleSystem_get cfg w r id st Hm Ha), Hbe.
  pose proof (currentOn_maps id be st) as [_ Hb1].
  destruct (currentOn id be st) as [on st1].
  pose proof (friendlyName_maps id be st1) as [_ Hb2].
  destruct (friendlyName id be st1) as [name st2].
  simpl in *. rewrite Hb2, Hb1, Hboot. simpl.
  split; [reflexivity|].
  match goal with
  | |- bootTargetOf (writeJSON ?w0 ?c (systemDocument ?i ?n ?p ?b)) = _ /\ _ =>
      exact (bootOf_document w0 c i n p b)
  end.
Qed.

End Frame.

(** C8: a GET of a system changes neither the cache of last-known states
    nor the boot map.  In particular the answer of a live state query is
    reported without being stored, and the defaults reported for a system
    without boot entry (["None"], ["Disabled"]) are not stored either. *)
Theorem get_system_changes_no_map :
  forall (W : Type) (cfg : Config W) (w : ResponseWriter) (r : Request)
         (st : Store W),
    Method r = MethodGet ->
    let reply := fst (handleSystem cfg w r st) in
    let st' := snd (handleSystem cfg w r st) in
    (last st' = last st /\ boot st' = boot st)
    /\ (forall id be ps v wld',
          Systems cfg !! id = Some be ->
          addressesSystem r id = true ->
          CurrentState be = Some ps ->
          ps (world st) = ((v, None), wld') ->
          powerStateOf reply = Some (if v then "On" else "Off")
          /\ last st' !! id = last st !! id)
    /\ (forall id be,
          Systems cfg !! id = Some be ->
          addressesSystem r id = true ->
          boot st !! id = None ->
          bootTargetOf reply = Some "None"
          /\ bootEnabledOf reply = Some "Disabled"
          /\ boot st' !! id = None).
Proof.
  intros W cfg w r st Hm. simpl.
  pose proof (handleSystem_get_frame cfg w r st Hm) as Hl.
  pose proof (handleSystem_boot cfg w r st) as Hb.
  split; [auto|]. split.
  - intros id be ps v wld' Hbe Ha Hcap Hps. rewrite Hl. split; [|reflexivity].
    rewrite (handleSystem_get cfg w r id st Hm Ha), Hbe.
    unfold currentOn. rewrite Hcap. unfold_m. rewrite Hps.
    match goal with
    | |- context [friendlyName id be ?s] =>
        destruct (friendlyName id be s) as [name st2]
    end.
    simpl. apply powerStateOf_document.
  - intros id be Hbe Ha Hboot. rewrite Hb.
    destruct (handleSystem_get_defaults cfg w r id be st Hbe Hm Ha Hboot)
      as (_ & Ht & He).
    auto.
Qed.

Lemma get_system_changes_no_map_witness :
  let st0 := Scenario.start Scenario.switchConfig "on" in
  let st' := snd (handleSystem Scenario.switchConfig newWriter
                    (getSystem "1") st0) in
  powerStateOf (fst (handleSystem Scenario.switchConfig newWriter
                       (getSystem "1") st0)) = Some "On"
  /\ last st' = ∅ /\ boot st' = ∅.
Proof.
  intros st0 st'.
  destruct (get_system_changes_no_map Scenario.World Scenario.switchConfig
              newWriter (getSystem "1") st0 eq_refl) as ((Hl & Hb) & Hq & _).
  destruct (Hq "1" (homeassistant Scenario.switch)
              (HomeAssistant_CurrentState Scenario.switch) true "on"
              eq_refl eq_refl eq_refl eq_refl) as [Hp _].
  split; [exact Hp|]. split; [exact Hl | exact Hb].
Defined.

(** ** The boot map is never written *)

Section BootInvariant.
Context {W : Type}.
Implicit Types (cfg : Config W) (st : Store W) (sel : Request -> Selection).
Implicit Types (order : list (string * Backend W)).
Implicit Types (w : ResponseWriter) (r : Request).

Lemma handleReadyz_boot cfg order w r st :
  boot (snd (handleReadyz cfg order w r st)) = boot st.
Proof.
  unfold handleReadyz. destruct (size (Systems cfg) =? 0)%nat; [reflexivity|].
  unfold bind. pose proof (readyzLoop_maps order st) as [_ Hb].
  destruct (readyzLoop order st) as [[|] st1]; exact Hb.
Qed.

Lemma mux_boot sel cfg order w r st :
  boot (snd (mux sel cfg order w r st)) = boot st.
Proof.
  unfold mux. destruct (sel r) as [[| | | |]|reply].
  - unfold handleRoot. destruct (negb _); reflexivity.
  - unfold handleSystems. destruct (negb _); reflexivity.
  - apply handleSystem_boot.
  - reflexivity.
  - apply handleReadyz_boot.
  - reflexivity.
Qed.

Lemma ServeHTTP_boot sel cfg order w r st :
  boot (snd (ServeHTTP sel cfg order w r st)) = boot st.
Proof.
  unfold ServeHTTP, loggingMiddleware, authMiddleware.
  destruct (_ || _); [apply mux_boot|].
  destruct (_ && _); [apply mux_boot|].
  destruct (BasicAuth r) as [[usr pwd]|]; [|reflexivity].
  destruct (_ || _); [reflexivity | apply mux_boot].
Qed.

Lemma serveAll_boot sel cfg reqs st :
  boot (serveAll sel cfg reqs st) = boot st.
Proof.
  revert st. induction reqs as [|[order r] reqs IH]; intros st; [reflexivity|].
  simpl. rewrite IH. apply ServeHTTP_boot.
Qed.

End BootInvariant.

(** C9: no request, whatever handler the mux selects for it, changes the
    boot map; after any sequence of requests served from [New] the map is
    still empty, and a GET of a registered system reports the boot target
    ["None"] and the boot flag ["Disabled"]. *)
Theorem boot_configuration_never_changes :
  forall (W : Type) (sel : Request -> Selection) (cfg : Config W)
         (reqs : list (list (string * Backend W) * Request)) (w0 : W),
    (forall st0 : Store W, boot (serveAll sel cfg reqs st0) = boot st0)
    /\ let st := serveAll sel cfg reqs (New cfg w0) in
       boot st = ∅
       /\ forall (id : string) (be : Backend W) (w : ResponseWriter)
                 (r : Request),
            Systems cfg !! id = Some be ->
            Method r = MethodGet ->
            addressesSystem r id = true ->
            let reply := fst (handleSystem cfg w r st) in
            StatusCode reply = StatusOK
            /\ bootTargetOf reply = Some "None"
            /\ bootEnabledOf reply = Some "Disabled".
Proof.
  intros W sel cfg reqs w0.
  split; [intros st0; apply serveAll_boot|].
  simpl.
  assert (Hb : boot (serveAll sel cfg reqs (New cfg w0)) = ∅)
    by (rewrite serveAll_boot; reflexivity).
  split; [exact Hb|].
  intros id be w r Hbe Hm Ha.
  apply (handleSystem_get_defaults cfg w r id be _ Hbe Hm Ha).
  rewrite Hb. apply lookup_empty.
Qed.

Lemma boot_configuration_never_changes_witness :
  let reqs := [([("1", NewNoop)], postReset "1" "On");
               ([("1", NewNoop)], getSystem "1");
               ([("1", NewNoop)], postReset "1" "ForceRestart")] in
  let st := serveAll selectPattern Scenario.noopConfig reqs
              (New Scenario.noopConfig "off") in
  bootTargetOf (fst (handleSystem Scenario.noopConfig newWriter
                       (getSystem "1") st)) = Some "None"
  /\ bootEnabledOf (fst (handleSystem Scenario.noopConfig newWriter
                           (getSystem "1") st)) = Some "Disabled".
Proof.
  intros reqs st.
  destruct (boot_configuration_never_changes Scenario.World selectPattern
              Scenario.noopConfig reqs "off") as (_ & _ & H).
  destruct (H "1" NewNoop newWriter (getSystem "1") eq_refl eq_refl eq_refl)
    as (_ & Ht & He).
  split; [exact Ht | exact He].
Defined.

(** ** Accepted and advertised reset types *)

(** An accepted keyword reaches the backend: the trace grows. *)
Lemma applyReset_accepted_calls {W : Type} (id : string) (be : Backend W)
      (resetType : string) (st : Store W) :
  In resetType acceptedResetTypes ->
  exists ev evs,
    trace (snd (applyReset id be resetType st)) = (trace st ++ ev :: evs)%list.
Proof.
  intros Hin. simpl in Hin.
  destruct Hin as [<- | [<- | [<- | [<- | [<- | [<- | []]]]]]].
  - rewrite applyReset_On.
    destruct (PowerOn be (world st)) as [[e|] w']; simpl; eauto.
  - rewrite (applyReset_Off id be "ForceOff" st) by tauto.
    destruct (PowerOff be (world st)) as [[e|] w']; simpl; eauto.
  - rewrite (applyReset_Off id be "GracefulShutdown" st) by tauto.
    destruct (PowerOff be (world st)) as [[e|] w']; simpl; eauto.
  - rewrite (applyReset_Off id be "Off" st) by tauto.
    destruct (PowerOff be (world st)) as [[e|] w']; simpl; eauto.
  - rewrite (applyReset_Restart id be "ForceRestart" st) by tauto.
    destruct (PowerOff be (world st)) as [[e|] w1]; simpl; eauto.
    destruct (PowerOn be w1) as [[e|] w2]; simpl;
      rewrite <- !app_assoc; simpl; eauto.
  - rewrite (applyReset_Restart id be "GracefulRestart" st) by tauto.
    destruct (PowerOff be (world st)) as [[e|] w1]; simpl; eauto.
    destruct (PowerOn be w1) as [[e|] w2]; simpl;
      rewrite <- !app_assoc; simpl; eauto.
Qed.

(** C10: the reset handler accepts exactly the six keywords of
    [acceptedResetTypes]; the system document advertises four of them; the
    other two, ["Off"] and ["GracefulRestart"], are accepted, do what
    ["ForceOff"] and ["ForceRestart"] do, and are not advertised. *)
Theorem accepted_reset_types_exceed_advertised :
  forall (W : Type) (cfg : Config W) (id : string) (be : Backend W)
         (w : ResponseWriter) (r : Request) (st : Store W),
    (Systems cfg !! id = Some be ->
     Method r = MethodGet ->
     addressesSystem r id = true ->
     advertisedResetTypes (fst (handleSystem cfg w r st))
     = Some ["On"; "ForceOff"; "GracefulShutdown"; "ForceRestart"])
    /\ (forall resetType,
          In resetType acceptedResetTypes
          <-> applyReset id be resetType st <> (Some "unsupported ResetType", st))
    /\ (forall resetType,
          In resetType ["On"; "ForceOff"; "GracefulShutdown"; "ForceRestart"] ->
          In resetType acceptedResetTypes)
    /\ (In "Off" acceptedResetTypes
        /\ ~ In "Off" ["On"; "ForceOff"; "GracefulShutdown"; "ForceRestart"]
        /\ applyReset id be "Off" st = applyReset id be "ForceOff" st)
    /\ (In "GracefulRestart" acceptedResetTypes
        /\ ~ In "GracefulRestart"
               ["On"; "ForceOff"; "GracefulShutdown"; "ForceRestart"]
        /\ applyReset id be "GracefulRestart" st
           = applyReset id be "ForceRestart" st).
Proof.
  intros W cfg id be w r st.
  split; [|split; [|split; [|split]]].
  - intros Hbe Hm Ha.
    rewrite (handleSystem_get cfg w r id st Hm Ha), Hbe.
    destruct (currentOn id be st) as [on st1].
    destruct (friendlyName id be st1) as [name st2].
    apply advertised_document.
  - intros rt. split.
    + intros Hin Heq.
      destruct (applyReset_accepted_calls id be rt st Hin) as (ev & evs & Ht).
      rewrite Heq in Ht. simpl in Ht.
      apply (f_equal (@length Event)) in Ht.
      rewrite length_app in Ht. simpl in Ht. lia.
    + intros Hne.
      destruct (in_dec string_dec rt acceptedResetTypes) as [Hin | Hn];
        [exact Hin|].
      exfalso. apply Hne. apply applyReset_default. exact Hn.
  - intros rt. simpl. tauto.
  - split; [simpl; tauto|]. split.
    + simpl. intros [H | [H | [H | [H | []]]]]; discriminate H.
    + rewrite (applyReset_Off id be "Off" st) by tauto.
      rewrite (applyReset_Off id be "ForceOff" st) by tauto. reflexivity.
  - split; [simpl; tauto|]. split.
    + simpl. intros [H | [H | [H | [H | []]]]]; discriminate H.
    + rewrite (applyReset_Restart id be "GracefulRestart" st) by tauto.
      rewrite (applyReset_Restart id be "ForceRestart" st) by tauto.
      reflexivity.
Qed.

Lemma accepted_reset_types_exceed_advertised_witness :
  let st0 := Scenario.start Scenario.noopConfig "off" in
  advertisedResetTypes (fst (handleSystem Scenario.noopConfig newWriter
                               (getSystem "1") st0))
  = Some ["On"; "ForceOff"; "GracefulShutdown"; "ForceRestart"]
  /\ applyReset "1" (@NewNoop Scenario.World) "Off" st0
     <> (Some "unsupported ResetType", st0).
Proof.
  intros st0.
  destruct (accepted_reset_types_exceed_advertised Scenario.World
              Scenario.noopConfig "1" NewNoop newWriter (getSystem "1") st0)
    as (Hadv & Hacc & _ & (Hoff & _) & _).
  split.
  - exact (Hadv eq_refl eq_refl eq_refl).
  - exact (proj1 (Hacc "Off") Hoff).
Defined.

(** * Further properties of the handlers *)

(** ** The system document *)

Section SystemDocument.
Context {W : Type}.
Implicit Types (cfg : Config W) (be : Backend W) (st : Store W).
Implicit Types (w : ResponseWriter) (r : Request) (id : string).

Lemma fields_document w code id name ps b :
  idOf (writeJSON w code (systemDocument id name ps b)) = Some id
  /\ nameOf (writeJSON w code (systemDocument id name ps b)) = Some name
  /\ odataIdOf (writeJSON w code (systemDocument id name ps b))
     = Some (systemURL id)
  /\ resetTargetOf (writeJSON w code (systemDocument id name ps b))
     = Some (resetURL id).
Proof.
  unfold idOf, nameOf, odataIdOf, resetTargetOf.
  rewrite document_writeJSON. repeat split; reflexivity.
Qed.

Lemma contentType_writeJSON w code v :
  Header (writeJSON w code v) !! "Content-Type" = Some "application/json".
Proof. unfold writeJSON. simpl. apply lookup_insert_eq. Qed.

(** What [applyReset] does to the cache: nothing when it returns an error,
    one write at [id] when it returns [nil]. *)
Lemma applyReset_last id be resetType st :
  match applyReset id be resetType st with
  | (Some _, st') => last st' = last st
  | (None, st') => exists v : bool, last st' = <[id := v]> (last st)
  end.
Proof.
  destruct (in_dec string_dec resetType acceptedResetTypes) as [Hin | Hn].
  - simpl in Hin.
    destruct Hin as [<- | [<- | [<- | [<- | [<- | [<- | []]]]]]].
    + rewrite applyReset_On.
      destruct (PowerOn be (world st)) as [[e|] w']; simpl; eauto.
    + rewrite (applyReset_Off id be "ForceOff" st) by tauto.
      destruct (PowerOff be (world st)) as [[e|] w']; simpl; eauto.
    + rewrite (applyReset_Off id be "GracefulShutdown" st) by tauto.
      destruct (PowerOff be (world st)) as [[e|] w']; simpl; eauto.
    + rewrite (applyReset_Off id be "Off" st) by tauto.
      destruct (PowerOff be (world st)) as [[e|] w']; simpl; eauto.
    + rewrite (applyReset_Restart id be "ForceRestart" st) by tauto.
      destruct (PowerOff be (world st)) as [[e|] w1]; simpl; eauto.
      destruct (PowerOn be w1) as [[e|] w2]; simpl; eauto.
    + rewrite (applyReset_Restart id be "GracefulRestart" st) by tauto.
      destruct (PowerOff be (world st)) as [[e|] w1]; simpl; eauto.
      destruct (PowerOn be w1) as [[e|] w2]; simpl; eauto.
  - rewrite (applyReset_default id be resetType st Hn). reflexivity.
Qed.

(** What [handleSystem] does to the cache: nothing, or, for a POST to the
    reset action of a registered system that is answered with 200, one
    write at the id of that system. *)
Lemma handleSystem_last cfg w r st :
  last (snd (handleSystem cfg w r st)) = last st
  \/ exists id (v : bool),
       Method r = MethodPost
       /\ addressesReset r id = true
       /\ is_Some (Systems cfg !! id)
       /\ StatusCode (fst (handleSystem cfg w r st)) = StatusOK
       /\ last (snd (handleSystem cfg w r st)) = <[id := v]> (last st).
Proof.
  unfold handleSystem. fold systemsPrefix resetSuffix.
  change (GoStrings.TrimPrefix (Path r) systemsPrefix) with (systemPath r).
  destruct (String.eqb (systemPath r) "") eqn:Hne; [left; reflexivity|].
  destruct (GoStrings.HasSuffix (systemPath r) resetSuffix) eqn:Hsuf.
  - destruct (String.eqb_spec (Method r) MethodPost) as [Hm | Hm];
      [|left; reflexivity].
    simpl.
    set (id := GoStrings.TrimSuffix
                 (GoStrings.TrimSuffix (systemPath r) resetSuffix) "/").
    destruct (Systems cfg !! id) as [be|] eqn:Hbe; [|left; reflexivity].
    destruct (ResetBody r) as [rt|]; [|left; reflexivity].
    unfold bind. pose proof (applyReset_last id be rt st) as Hl.
    destruct (applyReset id be rt st) as [[e|] st1]; [left; exact Hl|].
    destruct Hl as [v Hv]. right. exists id, v. simpl.
    repeat split; auto.
    unfold addressesReset. rewrite Hne, Hsuf. simpl. apply String.eqb_refl.
  - destruct (negb _); [left; reflexivity|].
    destruct (Systems cfg !! _) as [be|]; [|left; reflexivity].
    unfold bind. left.
    match goal with
    | |- context [currentOn ?i be st] =>
        pose proof (currentOn_maps i be st) as [Hl1 _];
        destruct (currentOn i be st) as [on st1];
        pose proof (friendlyName_maps i be st1) as [Hl2 _];
        destruct (friendlyName i be st1) as [name st2]
    end.
    simpl in *. congruence.
Qed.

End SystemDocument.

(** X1: a GET of a registered system replies 200 with a JSON document that
    names that system: its [Id] is the id, its [@odata.id] is the URL of
    the system and the target of its reset action is the reset URL of the
    system. *)
Theorem system_document_identifies_system :
  forall (W : Type) (cfg : Config W) (id : string) (be : Backend W)
         (w : ResponseWriter) (r : Request) (st : Store W),
    Systems cfg !! id = Some be ->
    Method r = MethodGet ->
    addressesSystem r id = true ->
    let reply := fst (handleSystem cfg w r st) in
    StatusCode reply = StatusOK
    /\ Header reply !! "Content-Type" = Some "application/json"
    /\ idOf reply = Some id
    /\ odataIdOf reply = Some ("/redfish/v1/Systems/" +:+ id)
    /\ resetTargetOf reply
       = Some ("/redfish/v1/Systems/" +:+ id +:+ "/Actions/ComputerSystem.Reset").
Proof.
  intros W cfg id be w r st Hbe Hm Ha. simpl.
  rewrite (handleSystem_get cfg w r id st Hm Ha), Hbe.
  destruct (currentOn id be st) as [on st1].
  destruct (friendlyName id be st1) as [name st2]. cbn [fst].
  match goal with
  | |- context [systemDocument ?i ?n ?p ?b] =>
      destruct (fields_document w StatusOK i n p b) as (Hi & _ & Ho & Ht);
      pose proof (contentType_writeJSON w StatusOK (systemDocument i n p b))
        as Hc
  end.
  split; [reflexivity|]. split; [exact Hc|].
  split; [exact Hi|]. split; [exact Ho | exact Ht].
Qed.

Lemma system_document_identifies_system_witness :
  let reply := fst (handleSystem Scenario.switchConfig newWriter
                      (getSystem "1") (Scenario.start Scenario.switchConfig "on")) in
  StatusCode reply = StatusOK /\ idOf reply = Some "1".
Proof.
  intros reply.
  destruct (system_document_identifies_system Scenario.World
              Scenario.switchConfig "1" (homeassistant Scenario.switch)
              newWriter (getSystem "1")
              (Scenario.start Scenario.switchConfig "on")
              eq_refl eq_refl eq_refl) as (Hs & _ & Hi & _).
  split; [exact Hs | exact Hi].
Defined.

(** X2: the checks of [handleSystem] before it looks at the registry or
    calls a backend.  On a path with the reset suffix any method but POST,
    and on any other non-empty path any method but GET, gets 405, whether
    the id is registered or not; a POST to the reset action of a registered
    system whose body does not decode gets 400 ["bad request"].  In all
    these cases the store is left as it was: no backend is called. *)
Theorem request_checks_come_first :
  forall (W : Type) (cfg : Config W) (w : ResponseWriter) (r : Request)
         (st : Store W),
    (systemPath r <> "" ->
     GoStrings.HasSuffix (systemPath r) resetSuffix = true ->
     Method r <> MethodPost ->
     handleSystem cfg w r st
     = (http.Error w "method not allowed" StatusMethodNotAllowed, st))
    /\ (systemPath r <> "" ->
        GoStrings.HasSuffix (systemPath r) resetSuffix = false ->
        Method r <> MethodGet ->
        handleSystem cfg w r st
        = (http.Error w "method not allowed" StatusMethodNotAllowed, st))
    /\ (forall id be,
          Systems cfg !! id = Some be ->
          Method r = MethodPost ->
          addressesReset r id = true ->
          ResetBody r = None ->
          handleSystem cfg w r st
          = (http.Error w "bad request" StatusBadRequest, st)).
Proof.
  intros W cfg w r st. split; [|split].
  - intros Hne Hsuf Hm. apply String.eqb_neq in Hne, Hm.
    unfold handleSystem. fold systemsPrefix resetSuffix.
    change (GoStrings.TrimPrefix (Path r) systemsPrefix) with (systemPath r).
    rewrite Hne, Hsuf, Hm. reflexivity.
  - intros Hne Hsuf Hm. apply String.eqb_neq in Hne, Hm.
    unfold handleSystem. fold systemsPrefix resetSuffix.
    change (GoStrings.TrimPrefix (Path r) systemsPrefix) with (systemPath r).
    rewrite Hne, Hsuf, Hm. reflexivity.
  - intros id be Hbe Hm Ha Hb.
    rewrite (handleSystem_reset cfg w r id st Hm Ha), Hbe, Hb. reflexivity.
Qed.

Lemma request_checks_come_first_witness :
  let st0 := Scenario.start Scenario.noopConfig "off" in
  let getReset := {| Method := MethodGet; Path := resetURL "9";
                     BasicAuth := None; ResetBody := None |} in
  let delete := {| Method := "DELETE"; Path := systemURL "1";
                   BasicAuth := None; ResetBody := None |} in
  let malformed := {| Method := MethodPost; Path := resetURL "1";
                      BasicAuth := None; ResetBody := None |} in
  StatusCode (fst (handleSystem Scenario.noopConfig newWriter getReset st0))
  = StatusMethodNotAllowed
  /\ StatusCode (fst (handleSystem Scenario.noopConfig newWriter delete st0))
     = StatusMethodNotAllowed
  /\ handleSystem Scenario.noopConfig newWriter malformed st0
     = (http.Error newWriter "bad request" StatusBadRequest, st0).
Proof.
  intros st0 getReset delete malformed. split; [|split].
  - destruct (request_checks_come_first Scenario.World Scenario.noopConfig
                newWriter getReset st0) as (H & _ & _).
    rewrite H; [reflexivity | | reflexivity |]; discriminate.
  - destruct (request_checks_come_first Scenario.World Scenario.noopConfig
                newWriter delete st0) as (_ & H & _).
    rewrite H; [reflexivity | | reflexivity |]; discriminate.
  - destruct (request_checks_come_first Scenario.World Scenario.noopConfig
                newWriter malformed st0) as (_ & _ & H).
    exact (H "1" NewNoop eq_refl eq_refl eq_refl eq_refl).
Defined.

(** ** Resets with one backend call *)

(** X3: a reset [On] makes exactly one backend call, [PowerOn]; a reset
    [ForceOff], [GracefulShutdown] or [Off] makes exactly one, [PowerOff].
    When the call returns an error the reply is 400 with the message of
    that error and the cache is untouched; when it returns [nil] the reply
    is 200 [{"status":"ok"}] and the cache of the system is [true] after
    [On], [false] after the others. *)
Theorem single_call_reset :
  forall (W : Type) (cfg : Config W) (id resetType : string) (be : Backend W)
         (r : Request) (w : ResponseWriter) (st : Store W),
    Systems cfg !! id = Some be ->
    Method r = MethodPost ->
    addressesReset r id = true ->
    ResetBody r = Some resetType ->
    let reply := fst (handleSystem cfg w r st) in
    let st' := snd (handleSystem cfg w r st) in
    (resetType = "On" ->
     trace st' = (trace st ++ [EvPowerOn id])%list
     /\ world st' = snd (PowerOn be (world st))
     /\ match fst (PowerOn be (world st)) with
        | Some e =>
            reply = http.Error w e StatusBadRequest /\ last st' = last st
        | None =>
            reply = writeJSON w StatusOK (JObject [("status", JString "ok")])
            /\ last st' = <[id := true]> (last st)
        end)
    /\ (resetType = "ForceOff" \/ resetType = "GracefulShutdown"
        \/ resetType = "Off" ->
        trace st' = (trace st ++ [EvPowerOff id])%list
        /\ world st' = snd (PowerOff be (world st))
        /\ match fst (PowerOff be (world st)) with
           | Some e =>
               reply = http.Error w e StatusBadRequest /\ last st' = last st
           | None =>
               reply = writeJSON w StatusOK (JObject [("status", JString "ok")])
               /\ last st' = <[id := false]> (last st)
           end).
Proof.
  intros W cfg id rt be r w st Hbe Hm Ha Hb. simpl.
  rewrite (handleSystem_reset cfg w r id st Hm Ha), Hbe, Hb. split.
  - intros ->. rewrite applyReset_On.
    destruct (PowerOn be (world st)) as [[e|] w']; simpl; auto.
  - intros Hoff. rewrite (applyReset_Off id be rt st Hoff).
    destruct (PowerOff be (world st)) as [[e|] w']; simpl; auto.
Qed.

Lemma single_call_reset_witness :
  let st0 := Scenario.start Scenario.stuckConfig "off" in
  let reply := fst (handleSystem Scenario.stuckConfig newWriter
                      (postReset "1" "On") st0) in
  let st' := snd (handleSystem Scenario.stuckConfig newWriter
                    (postReset "1" "On") st0) in
  reply = http.Error newWriter "will not start" StatusBadRequest
  /\ last st' = last st0
  /\ trace st' = [EvPowerOn "1"].
Proof.
  intros st0 reply st'.
  destruct (single_call_reset Scenario.World Scenario.stuckConfig "1" "On"
              Scenario.stuckOff (postReset "1" "On") newWriter st0
              eq_refl eq_refl eq_refl eq_refl) as [H _].
  destruct (H eq_refl) as (Ht & _ & Hr & Hl).
  split; [exact Hr|]. split; [exact Hl | exact Ht].
Defined.

(** ** What a request can touch *)

Ltac solve_events :=
  repeat (constructor; [first [left; reflexivity | right; reflexivity] |]);
  constructor.

Section Footprint.
Context {W : Type}.
Implicit Types (cfg : Config W) (be : Backend W) (st : Store W).
Implicit Types (w : ResponseWriter) (r : Request) (id : string).

Lemma addressesReset_functional r id id' :
  addressesReset r id = true -> addressesReset r id' = true -> id = id'.
Proof.
  intros H1 H2. apply addressesReset_inv in H1 as (_ & _ & <-).
  apply addressesReset_inv in H2 as (_ & _ & <-). reflexivity.
Qed.

(** The events of [applyReset] are about [id], or the sleep. *)
Lemma applyReset_trace id be resetType st :
  exists evs,
    trace (snd (applyReset id be resetType st)) = (trace st ++ evs)%list
    /\ Forall (fun ev => eventId ev = Some id \/ eventId ev = None) evs.
Proof.
  destruct (in_dec string_dec resetType acceptedResetTypes) as [Hin | Hn].
  - simpl in Hin.
    destruct Hin as [<- | [<- | [<- | [<- | [<- | [<- | []]]]]]].
    + rewrite applyReset_On.
      destruct (PowerOn be (world st)) as [[e|] w']; simpl;
        eexists; (split; [reflexivity|]); solve_events.
    + rewrite (applyReset_Off id be "ForceOff" st) by tauto.
      destruct (PowerOff be (world st)) as [[e|] w']; simpl;
        eexists; (split; [reflexivity|]); solve_events.
    + rewrite (applyReset_Off id be "GracefulShutdown" st) by tauto.
      destruct (PowerOff be (world st)) as [[e|] w']; simpl;
        eexists; (split; [reflexivity|]); solve_events.
    + rewrite (applyReset_Off id be "Off" st) by tauto.
      destruct (PowerOff be (world st)) as [[e|] w']; simpl;
        eexists; (split; [reflexivity|]); solve_events.
    + rewrite (applyReset_Restart id be "ForceRestart" st) by tauto.
      destruct (PowerOff be (world st)) as [[e|] w1]; simpl;
        [eexists; (split; [reflexivity|]); solve_events|].
      destruct (PowerOn be w1) as [[e|] w2]; simpl; rewrite <- !app_assoc;
        eexists; (split; [reflexivity|]); simpl; solve_events.
    + rewrite (applyReset_Restart id be "GracefulRestart" st) by tauto.
      destruct (PowerOff be (world st)) as [[e|] w1]; simpl;
        [eexists; (split; [reflexivity|]); solve_events|].
      destruct (PowerOn be w1) as [[e|] w2]; simpl; rewrite <- !app_assoc;
        eexists; (split; [reflexivity|]); simpl; solve_events.
  - rewrite (applyReset_default id be resetType st Hn).
    exists []. split; [symmetry; apply app_nil_r | constructor].
Qed.

Lemma currentOn_trace id be st :
  exists evs,
    trace (snd (currentOn id be st)) = (trace st ++ evs)%list
    /\ Forall (fun ev => eventId ev = Some id \/ eventId ev = None) evs.
Proof.
  unfold currentOn. destruct (CurrentState be) as [ps|].
  - unfold_m. destruct (ps (world st)) as [[v [e|]] w']; simpl;
      eexists; (split; [reflexivity|]); solve_events.
  - exists []. split; [symmetry; apply app_nil_r | constructor].
Qed.

Lemma friendlyName_trace id be st :
  exists evs,
    trace (snd (friendlyName id be st)) = (trace st ++ evs)%list
    /\ Forall (fun ev => eventId ev = Some id \/ eventId ev = None) evs.
Proof.
  unfold friendlyName. destruct (DisplayName be) as [np|].
  - unfold_m. destruct (np (world st)) as [[n [e|]] w']; simpl;
      [|destruct (negb (n =? "")%string)];
      eexists; (split; [reflexivity|]); solve_events.
  - exists []. split; [symmetry; apply app_nil_r | constructor].
Qed.

(** The events of [handleSystem] are about one registered system. *)
Lemma handleSystem_trace cfg w r st :
  exists evs,
    trace (snd (handleSystem cfg w r st)) = (trace st ++ evs)%list
    /\ (evs = []
        \/ exists id,
             is_Some (Systems cfg !! id)
             /\ (addressesReset r id = true \/ addressesSystem r id = true)
             /\ Forall (fun ev => eventId ev = Some id \/ eventId ev = None)
                  evs).
Proof.
  assert (Hnil : forall st0 : Store W,
             exists evs,
               trace st0 = (trace st0 ++ evs)%list
               /\ (evs = []
                   \/ exists id,
                        is_Some (Systems cfg !! id)
                        /\ (addressesReset r id = true
                            \/ addressesSystem r id = true)
                        /\ Forall (fun ev => eventId ev = Some id
                                             \/ eventId ev = None) evs)).
  { intros st0. exists []. split; [symmetry; apply app_nil_r | left; reflexivity]. }
  unfold handleSystem. fold systemsPrefix resetSuffix.
  change (GoStrings.TrimPrefix (Path r) systemsPrefix) with (systemPath r).
  destruct (String.eqb (systemPath r) "") eqn:Hne; [apply Hnil|].
  destruct (GoStrings.HasSuffix (systemPath r) resetSuffix) eqn:Hsuf.
  - destruct (negb _); [apply Hnil|].
    set (id := GoStrings.TrimSuffix
                 (GoStrings.TrimSuffix (systemPath r) resetSuffix) "/").
    destruct (Systems cfg !! id) as [be|] eqn:Hbe; [|apply Hnil].
    destruct (ResetBody r) as [rt|]; [|apply Hnil].
    unfold bind. destruct (applyReset_trace id be rt st) as (evs & Ht & Hall).
    destruct (applyReset id be rt st) as [[e|] st1]; simpl in *;
      exists evs; (split; [exact Ht|]); right; exists id;
      (split; [rewrite Hbe; eauto|]); (split; [|exact Hall]); left;
      unfold addressesReset; rewrite Hne, Hsuf; simpl; apply String.eqb_refl.
  - destruct (negb _); [apply Hnil|].
    set (id := GoStrings.TrimSuffix (systemPath r) "/").
    destruct (Systems cfg !! id) as [be|] eqn:Hbe; [|apply Hnil].
    unfold bind.
    destruct (currentOn_trace id be st) as (evs1 & Ht1 & Hall1).
    destruct (currentOn id be st) as [on st1].
    destruct (friendlyName_trace id be st1) as (evs2 & Ht2 & Hall2).
    destruct (friendlyName id be st1) as [name st2]. simpl in *.
    exists (evs1 ++ evs2)%list. split.
    + rewrite Ht2, Ht1, app_assoc. reflexivity.
    + right. exists id. split; [rewrite Hbe; eauto|]. split.
      * right. unfold addressesSystem. rewrite Hne, Hsuf. simpl.
        apply String.eqb_refl.
      * apply Forall_app. split; assumption.
Qed.

End Footprint.

(** X4: a request to the reset action of a system touches that system
    only: the cached state of every other id is what it was, the boot map
    is what it was, and every backend call it makes is a call of the
    backend of that system. *)
Theorem reset_touches_only_its_system :
  forall (W : Type) (cfg : Config W) (id : string)
         (r : Request) (w : ResponseWriter) (st : Store W),
    addressesReset r id = true ->
    let st' := snd (handleSystem cfg w r st) in
    (forall id', id' <> id -> last st' !! id' = last st !! id')
    /\ boot st' = boot st
    /\ exists evs,
         trace st' = (trace st ++ evs)%list
         /\ Forall (fun ev => eventId ev = Some id \/ eventId ev = None) evs.
Proof.
  intros W cfg id r w st Ha. simpl. split; [|split].
  - intros id' Hne.
    destruct (handleSystem_last cfg w r st)
      as [Hl | (id2 & v & _ & Ha2 & _ & _ & Hl)].
    + rewrite Hl. reflexivity.
    + rewrite Hl. rewrite (addressesReset_functional r id2 id Ha2 Ha).
      apply lookup_insert_ne. congruence.
  - apply handleSystem_boot.
  - destruct (handleSystem_trace cfg w r st)
      as (evs & Ht & [-> | (id2 & _ & Haddr & Hall)]).
    + exists []. split; [exact Ht | constructor].
    + exists evs. split; [exact Ht|].
      destruct Haddr as [Ha2 | Ha2].
      * rewrite <- (addressesReset_functional r id2 id Ha2 Ha). exact Hall.
      * exfalso. apply addressesReset_inv in Ha as (_ & Hs & _).
        apply addressesSystem_inv in Ha2 as (_ & Hs' & _). congruence.
Qed.

Lemma reset_touches_only_its_system_witness :
  let st0 := snd (handleSystem Scenario.noopConfig newWriter
                    (postReset "1" "On")
                    (Scenario.start Scenario.noopConfig "off")) in
  let st' := snd (handleSystem Scenario.noopConfig newWriter
                    (postReset "2" "Off") st0) in
  last st' !! "1" = Some true.
Proof.
  intros st0 st'.
  destruct (reset_touches_only_its_system Scenario.World Scenario.noopConfig
              "2" (postReset "2" "Off") newWriter st0 eq_refl) as (H & _).
  fold st' in H. rewrite (H "1"); [reflexivity | discriminate].
Defined.

(** X5: a failure of an optional lookup never fails the request.  When the
    state query of the backend returns an error, the reply is still 200 and
    reports the cached state of the system ([Off] when nothing is cached),
    whatever value came with the error; the name reported is the name given
    by the backend when it gives one without error and not empty, and
    ["System "] followed by the id in every other case. *)
Theorem failed_lookups_fall_back :
  forall (W : Type) (cfg : Config W) (id : string) (be : Backend W)
         (w : ResponseWriter) (r : Request) (st : Store W),
    Systems cfg !! id = Some be ->
    Method r = MethodGet ->
    addressesSystem r id = true ->
    let reply := fst (handleSystem cfg w r st) in
    let st1 := snd (currentOn id be st) in
    StatusCode reply = StatusOK
    /\ (forall ps v e wld',
          CurrentState be = Some ps ->
          ps (world st) = ((v, Some e), wld') ->
          powerStateOf reply
          = Some (if default false (last st !! id) then "On" else "Off"))
    /\ nameOf reply
       = Some (match DisplayName be with
               | None => "System " +:+ id
               | Some np =>
                   match fst (np (world st1)) with
                   | (n, None) => if String.eqb n "" then "System " +:+ id else n
                   | (_, Some _) => "System " +:+ id
                   end
               end).
Proof.
  intros W cfg id be w r st Hbe Hm Ha. simpl.
  rewrite (handleSystem_get cfg w r id st Hm Ha), Hbe.
  split; [|split].
  - destruct (currentOn id be st) as [on st1].
    destruct (friendlyName id be st1) as [name st2]. reflexivity.
  - intros ps v e wld' Hcap Hps.
    unfold currentOn. rewrite Hcap. unfold_m. rewrite Hps. simpl.
    match goal with
    | |- context [friendlyName id be ?s] =>
        destruct (friendlyName id be s) as [name st2]
    end.
    simpl. apply powerStateOf_document.
  - destruct (currentOn id be st) as [on st1]. simpl.
    unfold friendlyName. destruct (DisplayName be) as [np|]; unfold_m.
    + destruct (np (world st1)) as [[n [e|]] w']; simpl.
      * apply (fields_document w StatusOK).
      * destruct (String.eqb n ""); simpl; apply (fields_document w StatusOK).
    + simpl. apply (fields_document w StatusOK).
Qed.

Lemma failed_lookups_fall_back_witness :
  let st0 := snd (handleSystem Scenario.offlineConfig newWriter
                    (postReset "1" "On")
                    (Scenario.start Scenario.offlineConfig "off")) in
  StatusCode (fst (handleSystem Scenario.offlineConfig newWriter
                     (getSystem "1") st0)) = StatusOK.
Proof.
  intros st0.
  exact (proj1 (failed_lookups_fall_back Scenario.World Scenario.offlineConfig
                  "1" (@homeassistant Scenario.World Scenario.offlineHost
                         Scenario.switch)
                  newWriter (getSystem "1") st0 eq_refl eq_refl eq_refl)).
Defined.

(** ** The whole handler: middleware and mux *)

(** X6: the discovery root and the two health endpoints are served without
    credentials, whatever credentials are configured and whatever the
    request presents.  The liveness endpoint answers 200 ["ok"] to every
    method; the discovery root answers a GET with the service root
    document, which links to the Systems collection; the readiness endpoint
    answers as [handleReadyz] does.  None of the first two touches the
    store. *)
Theorem open_endpoints_need_no_credentials :
  forall (W : Type) (sel : Request -> Selection) (cfg : Config W)
         (order : list (string * Backend W))
         (w : ResponseWriter) (r : Request) (st : Store W),
    (Path r = "/livez" -> sel r = inl RouteLivez ->
     ServeHTTP sel cfg order w r st
     = (Write (Raw "ok") (WriteHeader StatusOK w), st))
    /\ (Path r = "/redfish/v1/" -> sel r = inl RouteRoot ->
        Method r = MethodGet ->
        let reply := fst (ServeHTTP sel cfg order w r st) in
        StatusCode reply = StatusOK
        /\ odataIdOf reply = Some "/redfish/v1/"
        /\ (document reply ≫= jfield "Systems") ≫= stringField "@odata.id"
           = Some "/redfish/v1/Systems"
        /\ snd (ServeHTTP sel cfg order w r st) = st)
    /\ (Path r = "/readyz" -> sel r = inl RouteReadyz ->
        ServeHTTP sel cfg order w r st = handleReadyz cfg order w r st).
Proof.
  intros W sel cfg order w r st.
  unfold ServeHTTP, loggingMiddleware, authMiddleware, mux.
  split; [|split].
  - intros -> ->. reflexivity.
  - intros -> -> Hm. simpl. unfold handleRoot. rewrite Hm. simpl.
    unfold odataIdOf. rewrite document_writeJSON. auto.
  - intros -> ->. reflexivity.
Qed.

Lemma open_endpoints_need_no_credentials_witness :
  let st0 := Scenario.start Scenario.securedConfig "off" in
  let probe := {| Method := "HEAD"; Path := "/livez";
                  BasicAuth := None; ResetBody := None |} in
  let root := {| Method := MethodGet; Path := "/redfish/v1/";
                 BasicAuth := Some ("admin", "guess"); ResetBody := None |} in
  StatusCode (fst (ServeHTTP selectPattern Scenario.securedConfig []
                     newWriter probe st0)) = StatusOK
  /\ StatusCode (fst (ServeHTTP selectPattern Scenario.securedConfig []
                        newWriter root st0)) = StatusOK.
Proof.
  intros st0 probe root. split.
  - destruct (open_endpoints_need_no_credentials Scenario.World selectPattern
                Scenario.securedConfig [] newWriter probe st0) as (H & _).
    rewrite (H eq_refl eq_refl). reflexivity.
  - destruct (open_endpoints_need_no_credentials Scenario.World selectPattern
                Scenario.securedConfig [] newWriter root st0) as (_ & H & _).
    exact (proj1 (H eq_refl eq_refl eq_refl)).
Defined.

(** X7: a request that presents exactly the configured pair passes the
    middleware on every path: the whole handler answers as the mux does. *)
Theorem matching_credentials_pass :
  forall (W : Type) (sel : Request -> Selection) (cfg : Config W)
         (order : list (string * Backend W))
         (w : ResponseWriter) (r : Request) (st : Store W),
    BasicAuth r = Some (Username cfg, Password cfg) ->
    ServeHTTP sel cfg order w r st = mux sel cfg order w r st.
Proof.
  intros W sel cfg order w r st Hauth.
  unfold ServeHTTP, loggingMiddleware, authMiddleware.
  destruct (_ || _); [reflexivity|].
  destruct (_ && _); [reflexivity|].
  rewrite Hauth, !String.eqb_refl. reflexivity.
Qed.

Lemma matching_credentials_pass_witness :
  let st0 := Scenario.start Scenario.securedConfig "off" in
  let r := {| Method := MethodGet; Path := systemURL "1";
              BasicAuth := Some ("admin", "secret"); ResetBody := None |} in
  StatusCode (fst (ServeHTTP selectPattern Scenario.securedConfig []
                     newWriter r st0)) = StatusOK.
Proof.
  intros st0 r.
  rewrite (matching_credentials_pass Scenario.World selectPattern
             Scenario.securedConfig [] newWriter r st0 eq_refl).
  reflexivity.
Defined.

(** X8: the middleware of the earlier revision has no exempt path.  With
    credentials configured, a request without the configured pair gets 401
    with the challenge header on every path, the discovery root included,
    and the wrapped handler is not called; without credentials configured,
    or with the configured pair, the request is handed on. *)
Theorem v0_auth_has_no_exempt_path :
  forall (W : Type) (cfg : Config W) (next : @Handler W)
         (w : ResponseWriter) (r : Request) (st : Store W),
    (~ (Username cfg = "" /\ Password cfg = "") ->
     badCredentials cfg r ->
     server_v0.authMiddleware cfg next w r st = (unauthorized w, st)
     /\ StatusCode (unauthorized w) = StatusUnauthorized
     /\ Header (unauthorized w) !! "WWW-Authenticate"
        = Some "Basic realm=redfish")
    /\ (Username cfg = "" /\ Password cfg = ""
        \/ BasicAuth r = Some (Username cfg, Password cfg) ->
        server_v0.authMiddleware cfg next w r st = next w r st).
Proof.
  intros W cfg next w r st. split.
  - intros Hcfg Hbad. split; [|split].
    + apply v0_authMiddleware_unauthorized; assumption.
    + reflexivity.
    + unfold unauthorized, http.Error, Write, WriteHeader, HeaderSet. simpl.
      rewrite lookup_insert_ne by discriminate.
      rewrite lookup_insert_ne by discriminate.
      apply lookup_insert_eq.
  - intros Hpass. unfold server_v0.authMiddleware.
    destruct (String.eqb (Username cfg) "" && String.eqb (Password cfg) "")
      eqn:Hc; [reflexivity|].
    destruct Hpass as [Hnone | Hauth].
    + apply no_credentials_test in Hnone. congruence.
    + rewrite Hauth, !String.eqb_refl. reflexivity.
Qed.

Lemma v0_auth_has_no_exempt_path_witness :
  let st0 := Scenario.start Scenario.securedConfig "off" in
  let root := {| Method := MethodGet; Path := "/redfish/v1/";
                 BasicAuth := None; ResetBody := None |} in
  StatusCode (fst (server_v0.authMiddleware Scenario.securedConfig handleRoot
                     newWriter root st0)) = StatusUnauthorized.
Proof.
  intros st0 root.
  destruct (v0_auth_has_no_exempt_path Scenario.World Scenario.securedConfig
              handleRoot newWriter root st0) as (H & _).
  assert (Hcfg : ~ (Username Scenario.securedConfig = ""
                    /\ Password Scenario.securedConfig = "")).
  { intros [Hu _]. discriminate Hu. }
  destruct (H Hcfg I) as (Heq & Hs & _).
  rewrite Heq. exact Hs.
Defined.

(** ** The Systems collection *)

Lemma memberLinks_map {W : Type} (order : list (string * Backend W)) :
  omap (stringField "@odata.id")
    (map (fun e : string * Backend W =>
            JObject [("@odata.id", JString ("/redfish/v1/Systems/" +:+ fst e))])
         order)
  = map (fun e => systemURL (fst e)) order.
Proof.
  induction order as [|e order IH]; [reflexivity|].
  simpl. f_equal. exact IH.
Qed.

(** X9: a GET of the Systems collection replies 200 with one member per
    registered system: the links of the members are the URLs of the
    registered ids, in the order of the iteration, and the count field is
    the number of registered systems.  Any other method gets 405.  The
    store is never touched. *)
Theorem collection_lists_the_registry :
  forall (W : Type) (cfg : Config W) (order : list (string * Backend W))
         (w : ResponseWriter) (r : Request) (st : Store W),
    Permutation order (map_to_list (Systems cfg)) ->
    let reply := fst (handleSystems cfg order w r st) in
    snd (handleSystems cfg order w r st) = st
    /\ (Method r <> MethodGet -> StatusCode reply = StatusMethodNotAllowed)
    /\ (Method r = MethodGet ->
        StatusCode reply = StatusOK
        /\ memberLinksOf reply = Some (map (fun e => systemURL (fst e)) order)
        /\ memberCountOf reply = Some (Z.of_nat (size (Systems cfg)))
        /\ forall link,
             In link (map (fun e => systemURL (fst e)) order)
             <-> exists id, is_Some (Systems cfg !! id) /\ link = systemURL id).
Proof.
  intros W cfg order w r st Hperm. simpl. unfold handleSystems.
  split; [|split].
  - destruct (negb _); reflexivity.
  - intros Hm. apply String.eqb_neq in Hm. rewrite Hm. reflexivity.
  - intros Hm. rewrite Hm. simpl. split; [reflexivity|]. split; [|split].
    + unfold memberLinksOf. rewrite document_writeJSON.
      change (Some (omap (stringField "@odata.id")
                      (map (fun e : string * Backend W =>
                              JObject [("@odata.id",
                                         JString ("/redfish/v1/Systems/"
                                                  +:+ fst e))])
                           order))
              = Some (map (fun e => systemURL (fst e)) order)).
      rewrite memberLinks_map. reflexivity.
    + unfold memberCountOf. rewrite document_writeJSON. simpl.
      rewrite length_map, (Permutation_length Hperm), length_map_to_list.
      reflexivity.
    + intros link. rewrite in_map_iff. split.
      * intros ([id be] & <- & Hin). exists id. split; [|reflexivity].
        apply (Permutation_in _ Hperm) in Hin.
        apply list_elem_of_In, elem_of_map_to_list in Hin. eauto.
      * intros (id & [be Hbe] & ->). exists (id, be). split; [reflexivity|].
        apply (Permutation_in _ (Permutation_sym Hperm)).
        apply list_elem_of_In, elem_of_map_to_list. exact Hbe.
Qed.

Lemma collection_lists_the_registry_witness :
  let st0 := Scenario.start Scenario.noopConfig "off" in
  let r := {| Method := MethodGet; Path := "/redfish/v1/Systems";
              BasicAuth := None; ResetBody := None |} in
  let reply := fst (handleSystems Scenario.noopConfig [("1", NewNoop)]
                      newWriter r st0) in
  memberLinksOf reply = Some ["/redfish/v1/Systems/1"]
  /\ memberCountOf reply = Some 1.
Proof.
  intros st0 r reply.
  assert (Hperm : Permutation [("1", @NewNoop Scenario.World)]
                    (map_to_list (Systems Scenario.noopConfig))).
  { simpl. rewrite map_to_list_singleton. apply Permutation_refl. }
  destruct (collection_lists_the_registry Scenario.World Scenario.noopConfig
              [("1", NewNoop)] newWriter r st0 Hperm) as (_ & _ & H).
  destruct (H eq_refl) as (_ & Hl & Hc & _).
  split; [exact Hl|]. fold reply in Hc. rewrite Hc.
  simpl. rewrite map_size_singleton. reflexivity.
Defined.

(** ** The remote-switch backend *)

Section RemoteSwitch.
Context {W : Type} {HW : Host W}.
Implicit Types (h : HomeAssistant) (w : W).

Lemma callService_request h domain service w :
  callService h domain service w =
    match clientDo (serviceRequest h domain service) w with
    | (inl err, w') => (Some err, w')
    | (inr resp, w') =>
        if (respStatusCode resp <? 200) || (300 <=? respStatusCode resp)
        then (Some ("homeassistant service " +:+ domain +:+ "." +:+ service
                    +:+ ": http " +:+ pretty (respStatusCode resp)), w')
        else (None, w')
    end.
Proof. reflexivity. Qed.

Lemma fetchState_request h w :
  fetchState h w =
    match clientDo (stateRequest h) w with
    | (inl err, w') => (("", "", Some err), w')
    | (inr resp, w') =>
        if negb (respStatusCode resp =? 200)
        then (("", "", Some ("homeassistant state: http "
                             +:+ pretty (respStatusCode resp))), w')
        else
          match respDecoded resp with
          | inl err => (("", "", Some err), w')
          | inr body => ((State body, friendlyNameOf body, None), w')
          end
    end.
Proof. reflexivity. Qed.

End RemoteSwitch.

(** X10: a power call of the remote-switch backend sends one POST to
    [<base>/api/services/switch/turn_on] (or [turn_off]) with the bearer
    token and the entity id, and returns [nil] exactly when a reply arrives
    whose status is between 200 and 299; a reply with any other status is
    an error that names the status. *)
Theorem switch_call_succeeds_on_2xx :
  forall (W : Type) (HW : Host W) (h : HomeAssistant) (w : W),
    let on := serviceRequest h "switch" "turn_on" in
    let off := serviceRequest h "switch" "turn_off" in
    (creqURL on = baseURL h +:+ "/api/services/switch/turn_on"
     /\ creqURL off = baseURL h +:+ "/api/services/switch/turn_off"
     /\ creqMethod on = MethodPost /\ creqMethod off = MethodPost)
    /\ snd (HomeAssistant_PowerOn h w) = snd (clientDo on w)
    /\ snd (HomeAssistant_PowerOff h w) = snd (clientDo off w)
    /\ (fst (HomeAssistant_PowerOn h w) = None
        <-> exists resp, fst (clientDo on w) = inr resp
                         /\ 200 <= respStatusCode resp <= 299)
    /\ (fst (HomeAssistant_PowerOff h w) = None
        <-> exists resp, fst (clientDo off w) = inr resp
                         /\ 200 <= respStatusCode resp <= 299)
    /\ (forall resp,
          fst (clientDo on w) = inr resp ->
          ~ 200 <= respStatusCode resp <= 299 ->
          fst (HomeAssistant_PowerOn h w)
          = Some ("homeassistant service switch.turn_on: http "
                  +:+ pretty (respStatusCode resp))).
Proof.
  intros W HW h w on off.
  assert (Hgen : forall service,
             snd (callService h "switch" service w)
             = snd (clientDo (serviceRequest h "switch" service) w)
             /\ (fst (callService h "switch" service w) = None
                 <-> exists resp,
                       fst (clientDo (serviceRequest h "switch" service) w)
                       = inr resp
                       /\ 200 <= respStatusCode resp <= 299)
             /\ (forall resp,
                   fst (clientDo (serviceRequest h "switch" service) w)
                   = inr resp ->
                   ~ 200 <= respStatusCode resp <= 299 ->
                   fst (callService h "switch" service w)
                   = Some ("homeassistant service " +:+ "switch" +:+ "."
                           +:+ service +:+ ": http "
                           +:+ pretty (respStatusCode resp)))).
  { intros service. rewrite callService_request.
    destruct (clientDo (serviceRequest h "switch" service) w)
      as [[e | resp] w']; simpl.
    - split; [reflexivity|]. split.
      + split; [discriminate | intros (resp & Hr & _); discriminate Hr].
      + intros resp Hr. discriminate Hr.
    - destruct ((respStatusCode resp <? 200) || (300 <=? respStatusCode resp))
        eqn:Hs; simpl.
      + apply orb_true_iff in Hs. rewrite Z.ltb_lt, Z.leb_le in Hs.
        split; [reflexivity|]. split.
        * split; [discriminate|]. intros (resp' & [= <-] & Hr). lia.
        * intros resp' [= <-] _. reflexivity.
      + apply orb_false_iff in Hs. rewrite Z.ltb_ge, Z.leb_gt in Hs.
        split; [reflexivity|]. split.
        * split; [|reflexivity]. intros _. exists resp. split; [reflexivity|lia].
        * intros resp' [= <-] Hn. exfalso. apply Hn. lia. }
  destruct (Hgen "turn_on") as (Hw1 & Hi1 & He1).
  destruct (Hgen "turn_off") as (Hw2 & Hi2 & _).
  split; [repeat split|]. split; [exact Hw1|]. split; [exact Hw2|].
  split; [exact Hi1|]. split; [exact Hi2 | exact He1].
Qed.

(** X11: the state query and the name query of the remote-switch backend
    send the same GET to [<base>/api/states/<entity>] and fail alike: an
    error is returned exactly when no reply arrives, or the status of the
    reply is not 200, or its body does not decode.  With an error the
    state is [false] and the name is empty; without, the state is whether
    the state string lowers to ["on"], and the name is the attribute
    [friendly_name] if it is a string, and empty if not. *)
Theorem state_fetch_accepts_only_200 :
  forall (W : Type) (HW : Host W) (h : HomeAssistant) (w : W),
    let cs := HomeAssistant_CurrentState h w in
    let dn := HomeAssistant_DisplayName h w in
    creqURL (stateRequest h) = baseURL h +:+ "/api/states/" +:+ entityID h
    /\ snd cs = snd (clientDo (stateRequest h) w)
    /\ snd dn = snd (clientDo (stateRequest h) w)
    /\ snd (fst cs) = snd (fst dn)
    /\ (snd (fst cs) = None
        <-> exists resp body,
              fst (clientDo (stateRequest h) w) = inr resp
              /\ respStatusCode resp = 200
              /\ respDecoded resp = inr body)
    /\ (snd (fst cs) <> None -> fst (fst cs) = false /\ fst (fst dn) = "")
    /\ (forall resp body,
          fst (clientDo (stateRequest h) w) = inr resp ->
          respStatusCode resp = 200 ->
          respDecoded resp = inr body ->
          fst (fst cs) = String.eqb (GoStrings.ToLower (State body)) "on"
          /\ fst (fst dn) = friendlyNameOf body).
Proof.
  intros W HW h w. simpl.
  unfold HomeAssistant_CurrentState, HomeAssistant_DisplayName.
  rewrite fetchState_request.
  split; [reflexivity|].
  destruct (clientDo (stateRequest h) w) as [[e | resp] w']; simpl;
    [| destruct (respStatusCode resp =? 200) eqn:Hs; simpl;
       [apply Z.eqb_eq in Hs;
        destruct (respDecoded resp) as [e | body] eqn:Hd; simpl
       | apply Z.eqb_neq in Hs]];
    repeat split; intros;
    repeat match goal with
      | H : exists _, _ |- _ => destruct H
      | H : _ /\ _ |- _ => destruct H
      end;
    simplify_eq; simpl in *; try congruence; eauto.
Qed.

Lemma switch_call_succeeds_on_2xx_witness :
  fst (@HomeAssistant_PowerOn Scenario.World Scenario.scenarioHost
         Scenario.switch "off") = None
  /\ fst (@HomeAssistant_PowerOn Scenario.World Scenario.offlineHost
            Scenario.switch "off") <> None.
Proof.
  split.
  - destruct (switch_call_succeeds_on_2xx Scenario.World Scenario.scenarioHost
                Scenario.switch "off") as (_ & _ & _ & H & _).
    apply H. eexists. split; [reflexivity | simpl; lia].
  - destruct (switch_call_succeeds_on_2xx Scenario.World Scenario.offlineHost
                Scenario.switch "off") as (_ & _ & _ & H & _).
    intros Hn. apply H in Hn as (resp & Hr & _). discriminate Hr.
Defined.

Lemma state_fetch_accepts_only_200_witness :
  fst (fst (@HomeAssistant_CurrentState Scenario.World Scenario.scenarioHost
              Scenario.switch "On")) = true
  /\ fst (fst (@HomeAssistant_CurrentState Scenario.World Scenario.offlineHost
                 Scenario.switch "On")) = false.
Proof.
  split.
  - destruct (state_fetch_accepts_only_200 Scenario.World Scenario.scenarioHost
                Scenario.switch "On") as (_ & _ & _ & _ & _ & _ & H).
    exact (proj1 (H _ _ eq_refl eq_refl eq_refl)).
  - destruct (state_fetch_accepts_only_200 Scenario.World Scenario.offlineHost
                Scenario.switch "On") as (_ & _ & _ & _ & _ & H & _).
    apply H. discriminate.
Defined.

(** X12: a remote-switch system whose state cannot be fetched is still
    served.  The GET replies 200, reports the cached state of the system
    and the name ["System "] followed by the id, after exactly two calls of
    the backend (the state query, then the name query), and leaves the
    cache as it was. *)
Theorem unreachable_switch_is_served_from_cache :
  forall (W : Type) (HW : Host W) (cfg : Config W) (id : string)
         (h : HomeAssistant) (w : ResponseWriter) (r : Request) (st : Store W),
    Systems cfg !! id = Some (homeassistant h) ->
    Method r = MethodGet ->
    addressesSystem r id = true ->
    (forall wld, snd (fst (fetchState h wld)) <> None) ->
    let reply := fst (handleSystem cfg w r st) in
    let st' := snd (handleSystem cfg w r st) in
    StatusCode reply = StatusOK
    /\ powerStateOf reply
       = Some (if default false (last st !! id) then "On" else "Off")
    /\ nameOf reply = Some ("System " +:+ id)
    /\ trace st' = (trace st ++ [EvCurrentState id; EvDisplayName id])%list
    /\ last st' = last st.
Proof.
  intros W HW cfg id h w r st Hbe Hm Ha Hdown. simpl.
  rewrite (handleSystem_get cfg w r id st Hm Ha), Hbe.
  unfold currentOn, friendlyName. simpl. unfold_m. simpl.
  unfold HomeAssistant_CurrentState, HomeAssistant_DisplayName.
  pose proof (Hdown (world st)) as H1.
  destruct (fetchState h (world st)) as [[[s1 n1] [e1|]] w1];
    [|contradiction]. simpl.
  pose proof (Hdown w1) as H2.
  destruct (fetchState h w1) as [[[s2 n2] [e2|]] w2]; [|contradiction]. simpl.
  split; [reflexivity|]. split; [apply powerStateOf_document|].
  split; [apply (fields_document w StatusOK)|].
  split; [rewrite <- app_assoc; reflexivity | reflexivity].
Qed.

Lemma unreachable_switch_is_served_from_cache_witness :
  let st0 := Scenario.start Scenario.offlineConfig "off" in
  let reply := fst (handleSystem Scenario.offlineConfig newWriter
                      (getSystem "1") st0) in
  powerStateOf reply = Some "Off" /\ nameOf reply = Some "System 1".
Proof.
  intros st0 reply.
  destruct (unreachable_switch_is_served_from_cache Scenario.World
              Scenario.offlineHost Scenario.offlineConfig "1" Scenario.switch
              newWriter (getSystem "1") st0 eq_refl eq_refl eq_refl)
    as (_ & Hp & Hn & _).
  - intros wld. discriminate.
  - split; [exact Hp | exact Hn].
Defined.

(** ** The constructors of the backends *)

Section TrimRight.
Implicit Types (s t : string).

Lemma HasSuffix_slash_cons c t :
  t <> "" ->
  GoStrings.HasSuffix (String c t) "/" = GoStrings.HasSuffix t "/".
Proof.
  intros Hne. destruct t as [|d t]; [contradiction|].
  unfold GoStrings.HasSuffix. simpl String.length.
  replace (S (S (String.length t)) - 1)%nat with (S (String.length t)) by lia.
  replace (S (String.length t) - 1)%nat with (String.length t) by lia.
  reflexivity.
Qed.

Lemma TrimRight_no_trailing_slash s :
  GoStrings.HasSuffix (GoStrings.TrimRight s "/") "/" = false.
Proof.
  induction s as [|c s IH]; [reflexivity|].
  simpl. destruct (GoStrings.TrimRight s "/") as [|d t] eqn:Ht.
  - destruct (Ascii.eqb_spec c "/"%char) as [-> | Hc]; simpl; [reflexivity|].
    unfold GoStrings.HasSuffix. simpl.
    destruct (Ascii.eqb_spec c "/"%char); [contradiction | reflexivity].
  - rewrite HasSuffix_slash_cons by discriminate. exact IH.
Qed.

Lemma TrimRight_slashes s :
  exists k, s = GoStrings.TrimRight s "/" +:+ slashes k.
Proof.
  induction s as [|c s [k IH]]; [exists 0%nat; reflexivity|].
  simpl. destruct (GoStrings.TrimRight s "/") as [|d t] eqn:Ht.
  - destruct (Ascii.eqb_spec c "/"%char) as [-> | Hc]; simpl.
    + exists (S k).
      change (String "/"%char s = String "/"%char ("" +:+ slashes k)).
      f_equal. exact IH.
    + exists k. change (String c s = String c ("" +:+ slashes k)).
      f_equal. exact IH.
  - exists k. change (String c s = String c (String d t +:+ slashes k)).
    f_equal. exact IH.
Qed.

End TrimRight.

(** X13: the constructors check their parameters.  [NewCommand] fails
    exactly when one of the two commands is empty.  [NewHomeAssistant]
    fails exactly when the base URL, the token or the entity id is empty;
    otherwise it keeps the token and the entity id, and keeps the base URL
    without its final slashes, so that the base URL of the backend never
    ends in a slash. *)
Theorem constructors_validate :
  forall (W : Type) (HW : Host W) (onCmd offCmd base tok entity : string),
    ((exists e, @NewCommand W HW onCmd offCmd = inl e)
     <-> onCmd = "" \/ offCmd = "")
    /\ (forall be, @NewCommand W HW onCmd offCmd = inr be ->
                   be = command onCmd offCmd)
    /\ ((exists e, NewHomeAssistant base tok entity = inl e)
        <-> base = "" \/ tok = "" \/ entity = "")
    /\ (forall h, NewHomeAssistant base tok entity = inr h ->
          token h = tok
          /\ entityID h = entity
          /\ GoStrings.HasSuffix (baseURL h) "/" = false
          /\ exists k, base = baseURL h +:+ slashes k).
Proof.
  intros W HW onCmd offCmd base tok entity.
  unfold NewCommand, NewHomeAssistant.
  split; [|split; [|split]].
  - destruct (String.eqb_spec onCmd ""), (String.eqb_spec offCmd "");
      simpl; split; eauto; try tauto; intros [e He]; discriminate He.
  - destruct (String.eqb onCmd "" || String.eqb offCmd "");
      intros be Hbe; [discriminate Hbe|]. injection Hbe as <-. reflexivity.
  - destruct (String.eqb_spec base ""), (String.eqb_spec tok ""),
      (String.eqb_spec entity "");
      simpl; split; eauto; try tauto; intros [e He]; discriminate He.
  - destruct (String.eqb base "" || String.eqb tok "" || String.eqb entity "");
      intros h Hh; [discriminate Hh|]. injection Hh as <-. simpl.
    split; [reflexivity|]. split; [reflexivity|].
    split; [apply TrimRight_no_trailing_slash | apply TrimRight_slashes].
Qed.

Lemma constructors_validate_witness :
  (exists e, @NewCommand Scenario.World Scenario.scenarioHost "poweron" ""
             = inl e)
  /\ (forall h, NewHomeAssistant "http://ha.local//" "t" "switch.kvm_1" = inr h ->
                baseURL h = "http://ha.local").
Proof.
  destruct (constructors_validate Scenario.World Scenario.scenarioHost
              "poweron" "" "http://ha.local//" "t" "switch.kvm_1")
    as (Hc & _ & _ & Hh).
  split.
  - apply Hc. right. reflexivity.
  - intros h Hnew. destruct (Hh h Hnew) as (_ & _ & _ & _).
    injection Hnew as <-. reflexivity.
Defined.

(** ** More on readiness *)

Section ReadyzMore.
Context {W : Type} {HW : Host W}.
Implicit Types (cfg : Config W) (st : Store W).
Implicit Types (order : list (string * Backend W)).

(** The loop asks the backends of a prefix of the order, one after the
    other. *)
Lemma readyzLoop_prefix order st :
  exists n,
    trace (snd (readyzLoop order st))
    = (trace st ++ pingEvents (take n order))%list.
Proof.
  revert st. induction order as [|[id be] rest IH]; intros st.
  - exists 0%nat. symmetry. apply app_nil_r.
  - simpl. destruct (Ping be) as [ping|].
    + unfold_m. destruct (ping (world st)) as [[e|] w1].
      * match goal with
        | |- context [readyzLoop rest ?s] => destruct (IH s) as [n Hn]
        end.
        exists (S n). rewrite Hn. simpl. rewrite <- app_assoc. reflexivity.
      * exists 1%nat. reflexivity.
    + exists 0%nat. symmetry. apply app_nil_r.
Qed.

(** With a backend of the program at its head, the loop answers [true] at
    once and leaves the world as it is. *)
Lemma readyzLoop_shipped id be rest st :
  shipped be ->
  fst (readyzLoop ((id, be) :: rest) st) = true
  /\ world (snd (readyzLoop ((id, be) :: rest) st)) = world st.
Proof.
  intros [| onCmd offCmd | h]; simpl; auto.
Qed.

(** With backends of the program only, the endpoint replies 200 and
    leaves the world as it is. *)
Lemma handleReadyz_shipped cfg order (w : ResponseWriter) (r : Request) st :
  Permutation order (map_to_list (Systems cfg)) ->
  (forall id be, Systems cfg !! id = Some be -> shipped be) ->
  StatusCode (fst (handleReadyz cfg order w r st)) = StatusOK
  /\ world (snd (handleReadyz cfg order w r st)) = world st.
Proof.
  intros Hperm Hship. unfold handleReadyz.
  destruct (size (Systems cfg) =? 0)%nat eqn:Hsz; [auto|].
  destruct order as [|[id be] rest].
  - apply Permutation_length in Hperm. rewrite length_map_to_list in Hperm.
    simpl in Hperm. rewrite <- Hperm in Hsz. discriminate Hsz.
  - assert (Hs : shipped be).
    { apply (Hship id). apply elem_of_map_to_list, list_elem_of_In.
      apply (Permutation_in _ Hperm). left. reflexivity. }
    unfold bind.
    destruct (readyzLoop_shipped id be rest st Hs) as [Hf Hw].
    destruct (readyzLoop ((id, be) :: rest) st) as [ok st1].
    simpl in Hf, Hw. subst ok. auto.
Qed.

End ReadyzMore.

(** X14: with the backends that the program can build (silent,
    shell-command, remote-switch) the readiness endpoint always replies
    200, and it does so without running a command or sending a request:
    the world is left as it was, and so are the cache and the boot map. *)
Theorem shipped_backends_are_always_ready :
  forall (W : Type) (HW : Host W) (cfg : Config W)
         (order : list (string * Backend W))
         (w : ResponseWriter) (r : Request) (st : Store W),
    Permutation order (map_to_list (Systems cfg)) ->
    (forall id be, Systems cfg !! id = Some be -> shipped be) ->
    let reply := fst (handleReadyz cfg order w r st) in
    let st' := snd (handleReadyz cfg order w r st) in
    StatusCode reply = StatusOK
    /\ world st' = world st
    /\ last st' = last st
    /\ boot st' = boot st.
Proof.
  intros W HW cfg order w r st Hperm Hship. simpl.
  destruct (handleReadyz_shipped cfg order w r st Hperm Hship) as [Hs Hw].
  split; [exact Hs|]. split; [exact Hw|]. split.
  - unfold handleReadyz.
    destruct (size (Systems cfg) =? 0)%nat; [reflexivity|].
    unfold bind. pose proof (readyzLoop_maps order st) as [Hl _].
    destruct (readyzLoop order st) as [[|] st1]; exact Hl.
  - apply handleReadyz_boot.
Qed.

Lemma shipped_backends_are_always_ready_witness :
  let st0 := Scenario.start Scenario.offlineConfig "off" in
  let r := {| Method := MethodGet; Path := "/readyz";
              BasicAuth := None; ResetBody := None |} in
  StatusCode (fst (handleReadyz Scenario.offlineConfig
                     [("1", @homeassistant Scenario.World Scenario.offlineHost
                              Scenario.switch)]
                     newWriter r st0)) = StatusOK.
Proof.
  intros st0 r.
  refine (proj1 (shipped_backends_are_always_ready Scenario.World
                   Scenario.offlineHost Scenario.offlineConfig _
                   newWriter r st0 _ _)).
  - simpl. rewrite map_to_list_singleton. apply Permutation_refl.
  - intros id be Hbe. simpl in Hbe.
    apply lookup_singleton_Some in Hbe as [_ <-]. constructor.
Defined.

(** X15: the readiness endpoint asks the backends in the order of the
    iteration, one health check per backend, and stops at some point of
    that order: the calls it makes are the health checks of a prefix of the
    order.  It never changes the cache or the boot map. *)
Theorem readyz_asks_a_prefix :
  forall (W : Type) (cfg : Config W) (order : list (string * Backend W))
         (w : ResponseWriter) (r : Request) (st : Store W),
    let st' := snd (handleReadyz cfg order w r st) in
    (exists n, trace st' = (trace st ++ pingEvents (take n order))%list)
    /\ last st' = last st
    /\ boot st' = boot st.
Proof.
  intros W cfg order w r st. simpl. split; [|split].
  - unfold handleReadyz.
    destruct (size (Systems cfg) =? 0)%nat.
    + exists 0%nat. simpl. symmetry. apply app_nil_r.
    + unfold bind. destruct (readyzLoop_prefix order st) as [n Hn].
      exists n. destruct (readyzLoop order st) as [[|] st1]; exact Hn.
  - unfold handleReadyz.
    destruct (size (Systems cfg) =? 0)%nat; [reflexivity|].
    unfold bind. pose proof (readyzLoop_maps order st) as [Hl _].
    destruct (readyzLoop order st) as [[|] st1]; exact Hl.
  - apply handleReadyz_boot.
Qed.

(** ** Invariants of the running server *)

Section ServerInvariants.
Context {W : Type}.
Implicit Types (cfg : Config W) (st : Store W) (sel : Request -> Selection).
Implicit Types (order : list (string * Backend W)).
Implicit Types (w : ResponseWriter) (r : Request).

Lemma mux_last sel cfg order w r st :
  last (snd (mux sel cfg order w r st)) = last st
  \/ oneWrite cfg r (fst (mux sel cfg order w r st)) st
       (snd (mux sel cfg order w r st)).
Proof.
  unfold mux. destruct (sel r) as [[| | | |]|reply].
  - left. unfold handleRoot. destruct (negb _); reflexivity.
  - left. unfold handleSystems. destruct (negb _); reflexivity.
  - apply handleSystem_last.
  - left. reflexivity.
  - left. unfold handleReadyz.
    destruct (size (Systems cfg) =? 0)%nat; [reflexivity|].
    unfold bind. pose proof (readyzLoop_maps order st) as [Hl _].
    destruct (readyzLoop order st) as [[|] st1]; exact Hl.
  - left. reflexivity.
Qed.

Lemma ServeHTTP_last sel cfg order w r st :
  last (snd (ServeHTTP sel cfg order w r st)) = last st
  \/ oneWrite cfg r (fst (ServeHTTP sel cfg order w r st)) st
       (snd (ServeHTTP sel cfg order w r st)).
Proof.
  unfold ServeHTTP, loggingMiddleware, authMiddleware.
  destruct (_ || _); [apply mux_last|].
  destruct (_ && _); [apply mux_last|].
  destruct (BasicAuth r) as [[usr pwd]|]; [|left; reflexivity].
  destruct (_ || _); [left; reflexivity | apply mux_last].
Qed.

Lemma in_take {A : Type} (x : A) (n : nat) (l : list A) :
  In x (take n l) -> In x l.
Proof.
  revert n. induction l as [|y l IH]; intros [|n]; simpl; try tauto.
  intros [-> | Hin]; [left; reflexivity | right; exact (IH n Hin)].
Qed.

Lemma pingEvents_registered cfg order n :
  orderRegistered cfg order ->
  Forall (aboutRegistered cfg) (pingEvents (take n order)).
Proof.
  intros Hreg. unfold pingEvents. apply Forall_forall. intros ev Hin.
  apply list_elem_of_In, in_map_iff in Hin as (e & <- & He).
  intros id [= <-]. apply Hreg. eapply in_take. exact He.
Qed.

Lemma mux_trace sel cfg order w r st :
  orderRegistered cfg order ->
  exists evs,
    trace (snd (mux sel cfg order w r st)) = (trace st ++ evs)%list
    /\ Forall (aboutRegistered cfg) evs.
Proof.
  intros Hreg.
  assert (Hnil : exists evs,
             trace st = (trace st ++ evs)%list
             /\ Forall (aboutRegistered cfg) evs).
  { exists []. split; [symmetry; apply app_nil_r | constructor]. }
  unfold mux. destruct (sel r) as [[| | | |]|reply].
  - unfold handleRoot. destruct (negb _); exact Hnil.
  - unfold handleSystems. destruct (negb _); exact Hnil.
  - destruct (handleSystem_trace cfg w r st)
      as (evs & Ht & [-> | (id & Hid & _ & Hall)]).
    + exists []. split; [exact Ht | constructor].
    + exists evs. split; [exact Ht|].
      eapply Forall_impl; [exact Hall|].
      intros ev [Hev | Hev] id' Hid'; congruence.
  - exact Hnil.
  - unfold handleReadyz.
    destruct (size (Systems cfg) =? 0)%nat; [exact Hnil|].
    unfold bind. destruct (readyzLoop_prefix order st) as [n Hn].
    exists (pingEvents (take n order)). split.
    + destruct (readyzLoop order st) as [[|] st1]; exact Hn.
    + apply pingEvents_registered. exact Hreg.
  - exact Hnil.
Qed.

Lemma ServeHTTP_trace sel cfg order w r st :
  orderRegistered cfg order ->
  exists evs,
    trace (snd (ServeHTTP sel cfg order w r st)) = (trace st ++ evs)%list
    /\ Forall (aboutRegistered cfg) evs.
Proof.
  intros Hreg.
  assert (Hnil : exists evs,
             trace st = (trace st ++ evs)%list
             /\ Forall (aboutRegistered cfg) evs).
  { exists []. split; [symmetry; apply app_nil_r | constructor]. }
  unfold ServeHTTP, loggingMiddleware, authMiddleware.
  destruct (_ || _); [apply mux_trace; exact Hreg|].
  destruct (_ && _); [apply mux_trace; exact Hreg|].
  destruct (BasicAuth r) as [[usr pwd]|]; [|exact Hnil].
  destruct (_ || _); [exact Hnil | apply mux_trace; exact Hreg].
Qed.

Lemma serveAll_cache_keys sel cfg reqs st :
  (forall id, is_Some (last st !! id) -> is_Some (Systems cfg !! id)) ->
  forall id, is_Some (last (serveAll sel cfg reqs st) !! id) ->
             is_Some (Systems cfg !! id).
Proof.
  revert st. induction reqs as [|[order r] reqs IH]; intros st Hst; [exact Hst|].
  simpl. apply IH. intros id Hid.
  destruct (ServeHTTP_last sel cfg order newWriter r st)
    as [Hl | (id' & v & _ & _ & Hreg & _ & Hl)]; rewrite Hl in Hid.
  - apply Hst. exact Hid.
  - destruct (decide (id' = id)) as [<- | Hne]; [exact Hreg|].
    rewrite lookup_insert_ne in Hid by exact Hne. apply Hst. exact Hid.
Qed.

Lemma serveAll_trace sel cfg reqs st :
  Forall (fun p => orderRegistered cfg (fst p)) reqs ->
  Forall (aboutRegistered cfg) (trace st) ->
  Forall (aboutRegistered cfg) (trace (serveAll sel cfg reqs st)).
Proof.
  revert st. induction reqs as [|[order r] reqs IH]; intros st Hreqs Hst;
    [exact Hst|].
  simpl. apply Forall_cons in Hreqs as [Ho Hreqs]. apply IH; [exact Hreqs|].
  destruct (ServeHTTP_trace sel cfg order newWriter r st Ho) as (evs & Ht & Hall).
  rewrite Ht. apply Forall_app. split; assumption.
Qed.

End ServerInvariants.

(** X16: whatever the mux selects, a request changes the cache only if it
    is a POST to the reset action of a registered system that is answered
    with 200, and it then changes the entry of that system only.  A request
    turned down by the middleware, a GET, a request to any other endpoint
    and a reset that fails all leave the cache as it was. *)
Theorem cache_changes_only_on_successful_reset :
  forall (W : Type) (sel : Request -> Selection) (cfg : Config W)
         (order : list (string * Backend W))
         (w : ResponseWriter) (r : Request) (st : Store W),
    let reply := fst (ServeHTTP sel cfg order w r st) in
    let st' := snd (ServeHTTP sel cfg order w r st) in
    last st' <> last st ->
    Method r = MethodPost
    /\ StatusCode reply = StatusOK
    /\ exists id (v : bool),
         addressesReset r id = true
         /\ is_Some (Systems cfg !! id)
         /\ last st' = <[id := v]> (last st).
Proof.
  intros W sel cfg order w r st. simpl. intros Hne.
  destruct (ServeHTTP_last sel cfg order w r st)
    as [Hl | (id & v & Hm & Ha & Hreg & Hs & Hl)]; [contradiction|].
  split; [exact Hm|]. split; [exact Hs|]. exists id, v. auto.
Qed.

Lemma cache_changes_only_on_successful_reset_witness :
  let st0 := Scenario.start Scenario.noopConfig "off" in
  StatusCode (fst (ServeHTTP selectPattern Scenario.noopConfig []
                     newWriter (postReset "1" "On") st0)) = StatusOK.
Proof.
  intros st0.
  refine (proj1 (proj2 (cache_changes_only_on_successful_reset Scenario.World
                          selectPattern Scenario.noopConfig
                          (@nil (string * Backend Scenario.World)) newWriter
                          (postReset "1" "On") st0 _))).
  intros Heq. apply (f_equal (fun m => m !! "1")) in Heq.
  vm_compute in Heq. discriminate Heq.
Defined.

(** X17: the cache only ever holds registered ids.  After any sequence of
    requests served from [New], whatever the mux selects for them, every
    key of the cache of last-known states is an id of the registry. *)
Theorem cache_holds_registered_ids_only :
  forall (W : Type) (sel : Request -> Selection) (cfg : Config W)
         (reqs : list (list (string * Backend W) * Request)) (w0 : W)
         (id : string),
    is_Some (last (serveAll sel cfg reqs (New cfg w0)) !! id) ->
    is_Some (Systems cfg !! id).
Proof.
  intros W sel cfg reqs w0. apply serveAll_cache_keys.
  intros id [v Hv]. simpl in Hv. rewrite lookup_empty in Hv. discriminate Hv.
Qed.

Lemma cache_holds_registered_ids_only_witness :
  let reqs : list (list (string * Backend Scenario.World) * Request) :=
    [([], postReset "1" "On"); ([], postReset "2" "On")] in
  let st := serveAll selectPattern Scenario.noopConfig reqs
              (New Scenario.noopConfig "off") in
  last st !! "1" = Some true
  /\ last st !! "2" = None
  /\ is_Some (Systems Scenario.noopConfig !! "1").
Proof.
  intros reqs st. split; [reflexivity|]. split; [reflexivity|].
  apply (cache_holds_registered_ids_only Scenario.World selectPattern
           Scenario.noopConfig reqs "off" "1").
  vm_compute. eauto.
Defined.

(** X18: the server calls the backends of registered systems only.  After
    any sequence of requests served from [New], each with an iteration
    order made of registry entries, every backend call on record is a call
    for an id of the registry. *)
Theorem backend_calls_are_for_registered_ids :
  forall (W : Type) (sel : Request -> Selection) (cfg : Config W)
         (reqs : list (list (string * Backend W) * Request)) (w0 : W),
    Forall (fun p => forall e, In e (fst p) -> is_Some (Systems cfg !! fst e))
      reqs ->
    forall ev id,
      In ev (trace (serveAll sel cfg reqs (New cfg w0))) ->
      eventId ev = Some id ->
      is_Some (Systems cfg !! id).
Proof.
  intros W sel cfg reqs w0 Hreqs ev id Hin Hid.
  assert (Hall : Forall (aboutRegistered cfg)
                   (trace (serveAll sel cfg reqs (New cfg w0)))).
  { apply serveAll_trace; [exact Hreqs | constructor]. }
  rewrite Forall_forall in Hall.
  apply (Hall ev); [apply list_elem_of_In; exact Hin | exact Hid].
Qed.

Lemma backend_calls_are_for_registered_ids_witness :
  let reqs := [([("1", @NewNoop Scenario.World)], postReset "1" "ForceRestart");
               ([("1", @NewNoop Scenario.World)], postReset "2" "On")] in
  trace (serveAll selectPattern Scenario.noopConfig reqs
           (New Scenario.noopConfig "off"))
  = [EvPowerOff "1"; EvSleep (2 * Second); EvPowerOn "1"]
  /\ is_Some (Systems Scenario.noopConfig !! "1").
Proof.
  intros reqs. split; [reflexivity|].
  apply (backend_calls_are_for_registered_ids Scenario.World selectPattern
           Scenario.noopConfig reqs "off") with (ev := EvPowerOn "1").
  - repeat constructor; intros e [<- | []]; vm_compute; eauto.
  - vm_compute. tauto.
  - reflexivity.
Defined.

(** ** Following the links of the documents *)





(** * Properties of [main] *)

Section MainRegistry.
Context {W : Type} {HW : Host W}.
Implicit Types (m acc : gmap string (Backend W)) (entries : list string).

(** The loop only ever adds remote-switch backends, and never removes an
    entry. *)
Lemma parseEntries_shipped url tok entries acc m :
  main.parseEntries url tok entries acc = inr m ->
  (forall id be, acc !! id = Some be -> shipped be) ->
  forall id be, m !! id = Some be -> shipped be.
Proof.
  revert acc. induction entries as [|e rest IH]; intros acc Hp Hacc.
  - injection Hp as <-. exact Hacc.
  - simpl in Hp.
    destruct (String.eqb (GoStrings.TrimSpace e) ""); [exact (IH acc Hp Hacc)|].
    destruct (GoStrings.SplitN2 (GoStrings.TrimSpace e) "=")
      as [|p0 [|p1 [|p2 ps]]]; try discriminate Hp.
    destruct (NewHomeAssistant url tok (GoStrings.TrimSpace p1)) as [berr|b];
      [discriminate Hp|].
    apply (IH _ Hp). intros id be Hl.
    destruct (decide (GoStrings.TrimSpace p0 = id)) as [<- | Hne].
    + rewrite lookup_insert_eq in Hl. injection Hl as <-. constructor.
    + rewrite lookup_insert_ne in Hl by exact Hne. exact (Hacc id be Hl).
Qed.



End MainRegistry.

(** X20: the registry that [main] hands to the server is never empty and
    holds only backends of the three shipped kinds; with the kinds [noop]
    and [command], and with [homeassistant] without [--systems], it holds
    exactly one system, whose id is the value of [--system-id]. *)
Theorem main_registry_is_not_empty :
  forall (W : Type) (HW : Host W) (f : main.Flags)
         (m : gmap string (Backend W)),
    main.systems f = inr m ->
    m <> ∅
    /\ In (main.beKind f) knownKinds
    /\ (forall id be, m !! id = Some be -> shipped be)
    /\ (main.beKind f <> "homeassistant" \/ main.haSystems f = "" ->
        forall id, is_Some (m !! id) <-> id = main.systemID f).
Proof.
  intros W HW f m. unfold main.systems.
  assert (Hone : forall be : Backend W,
             shipped be ->
             <[main.systemID f := be]> (∅ : gmap string (Backend W)) <> ∅
             /\ (forall id be',
                   <[main.systemID f := be]> (∅ : gmap string (Backend W)) !! id
                   = Some be' ->
                   shipped be')
             /\ (forall id, is_Some (<[main.systemID f := be]>
                                       (∅ : gmap string (Backend W)) !! id)
                            <-> id = main.systemID f)).
  { intros be Hs. split; [apply insert_non_empty|]. split.
    - intros id be' Hl. apply lookup_insert_Some in Hl as [[_ <-] | [_ Hl]];
        [exact Hs | rewrite lookup_empty in Hl; discriminate Hl].
    - intros id. rewrite lookup_insert_is_Some. split.
      + intros [-> | [_ [x Hx]]]; [reflexivity|].
        rewrite lookup_empty in Hx. discriminate Hx.
      + intros ->. left. reflexivity. }
  destruct (String.eqb_spec (main.beKind f) "noop") as [Hk | Hk1].
  - intros [= <-]. destruct (Hone NewNoop shipped_noop) as (H1 & H2 & H3).
    rewrite Hk. simpl. repeat split; auto; apply H3.
  - destruct (String.eqb_spec (main.beKind f) "command") as [Hk | Hk2].
    + unfold NewCommand.
      destruct (String.eqb (main.onCmd f) "" || String.eqb (main.offCmd f) "");
        [discriminate|].
      intros [= <-].
      destruct (Hone (command (main.onCmd f) (main.offCmd f))
                  (shipped_command _ _)) as (H1 & H2 & H3).
      rewrite Hk. simpl. repeat split; auto; apply H3.
    + destruct (String.eqb_spec (main.beKind f) "homeassistant") as [Hk | Hk3];
        [|discriminate].
      destruct (String.eqb_spec (main.haSystems f) "") as [Hsys | Hsys]; simpl.
      * unfold NewHomeAssistant.
        destruct (_ || _); [discriminate|]. intros [= <-].
        match goal with
        | |- context [homeassistant ?h] =>
            destruct (Hone (homeassistant h) (shipped_homeassistant h))
              as (H1 & H2 & H3)
        end.
        rewrite Hk. simpl. repeat split; auto; apply H3.
      * destruct (main.parseEntries (main.haURL f) (main.haToken f)
                    (GoStrings.Split (main.haSystems f) ",") ∅)
          as [fatal | m'] eqn:Hp; [discriminate|].
        destruct (size m' =? 0)%nat eqn:Hsz; [discriminate|].
        intros [= <-]. rewrite Hk. simpl. split; [|split; [tauto|split]].
        -- intros ->. rewrite map_size_empty in Hsz. discriminate Hsz.
        -- apply (parseEntries_shipped _ _ _ _ _ Hp).
           intros id be Hl. rewrite lookup_empty in Hl. discriminate Hl.
        -- intros [Hc | Hc]; contradiction.
Qed.

Lemma main_registry_is_not_empty_witness :
  let f := {| main.listen := ":8080"; main.user := ""; main.pass := "";
              main.systemID := "1"; main.beKind := "homeassistant";
              main.onCmd := ""; main.offCmd := "";
              main.haURL := "http://ha.local/"; main.haToken := "t";
              main.haEntity := ""; main.haSystems := "a=switch.a, =switch.b" |} in
  exists m : gmap string (Backend Scenario.World),
    @main.systems Scenario.World Scenario.scenarioHost f = inr m
    /\ m <> ∅ /\ is_Some (m !! "").
Proof.
  intros f.
  destruct (@main.systems Scenario.World Scenario.scenarioHost f)
    as [fatal | m] eqn:Hm; [vm_compute in Hm; discriminate Hm|].
  exists m. split; [reflexivity|].
  split.
  - exact (proj1 (main_registry_is_not_empty Scenario.World
                    Scenario.scenarioHost f m Hm)).
  - vm_compute in Hm. injection Hm as <-. vm_compute. eauto.
Defined.

(** ** The fatal errors of [main] *)

Section MainFatal.
Context {W : Type} {HW : Host W}.



End MainFatal.



(** ** Reading back the [--systems] flag *)

Section SystemsFlag.
Implicit Types (s t acc fb : string) (c : ascii).

Lemma append_cons c s t : String c s +:+ t = String c (s +:+ t).
Proof. reflexivity. Qed.

Lemma append_empty_l t : "" +:+ t = t.
Proof. reflexivity. Qed.

Lemma append_empty_r s : s +:+ "" = s.
Proof.
  induction s as [|c s IH]; [reflexivity|]. rewrite append_cons, IH. reflexivity.
Qed.

Lemma append_assoc s t u : (s +:+ t) +:+ u = s +:+ (t +:+ u).
Proof.
  induction s as [|c s IH]; [reflexivity|]. rewrite !append_cons, IH. reflexivity.
Qed.

Lemma revAppend_revAppend s acc t :
  GoStrings.revAppend (GoStrings.revAppend s acc) t
  = GoStrings.revAppend acc (s +:+ t).
Proof.
  revert acc t. induction s as [|c s IH]; intros acc t; [reflexivity|].
  simpl. rewrite IH, append_cons. reflexivity.
Qed.

Lemma reverse_involutive s : GoStrings.reverse (GoStrings.reverse s) = s.
Proof.
  unfold GoStrings.reverse. rewrite revAppend_revAppend. simpl.
  rewrite append_empty_r. reflexivity.
Qed.

Lemma plain_revAppend fb s acc :
  plain fb (GoStrings.revAppend s acc) = plain fb s && plain fb acc.
Proof.
  revert acc. induction s as [|c s IH]; intros acc; [reflexivity|].
  simpl. rewrite IH. simpl.
  destruct (plainByte fb c), (plain fb s), (plain fb acc); reflexivity.
Qed.

Lemma plain_reverse fb s : plain fb (GoStrings.reverse s) = plain fb s.
Proof.
  unfold GoStrings.reverse. rewrite plain_revAppend. simpl.
  apply andb_true_r.
Qed.

Lemma plain_append fb s t : plain fb (s +:+ t) = plain fb s && plain fb t.
Proof.
  induction s as [|c s IH]; [reflexivity|].
  rewrite append_cons. simpl. rewrite IH. apply andb_assoc.
Qed.

Lemma plainByte_inv fb c :
  plainByte fb c = true ->
  (nat_of_ascii c < 128)%nat
  /\ GoStrings.asciiSpace c = false
  /\ GoStrings.inCutset c fb = false.
Proof.
  unfold plainByte. intros H.
  apply andb_true_iff in H as [H Hc]. apply andb_true_iff in H as [Ha Hs].
  apply Nat.ltb_lt in Ha. apply negb_true_iff in Hs, Hc. auto.
Qed.

Lemma space_needs_high_byte a b c :
  (nat_of_ascii a < 128)%nat ->
  GoStrings.space2 a b = false /\ GoStrings.space3 a b c = false
  /\ GoStrings.space2 b a = false /\ GoStrings.space3 c b a = false.
Proof.
  intros Ha. unfold GoStrings.space2, GoStrings.space3.
  assert (H1 : (nat_of_ascii a =? 194)%nat = false) by (apply Nat.eqb_neq; lia).
  assert (H2 : (nat_of_ascii a =? 225)%nat = false) by (apply Nat.eqb_neq; lia).
  assert (H3 : (nat_of_ascii a =? 226)%nat = false) by (apply Nat.eqb_neq; lia).
  assert (H4 : (nat_of_ascii a =? 227)%nat = false) by (apply Nat.eqb_neq; lia).
  assert (H5 : (nat_of_ascii a =? 133)%nat = false) by (apply Nat.eqb_neq; lia).
  assert (H6 : (nat_of_ascii a =? 160)%nat = false) by (apply Nat.eqb_neq; lia).
  assert (H7 : (nat_of_ascii a =? 128)%nat = false) by (apply Nat.eqb_neq; lia).
  assert (H8 : (128 <=? nat_of_ascii a)%nat = false) by (apply Nat.leb_gt; lia).
  assert (H9 : (nat_of_ascii a =? 168)%nat = false) by (apply Nat.eqb_neq; lia).
  assert (H10 : (nat_of_ascii a =? 169)%nat = false) by (apply Nat.eqb_neq; lia).
  assert (H11 : (nat_of_ascii a =? 175)%nat = false) by (apply Nat.eqb_neq; lia).
  assert (H12 : (nat_of_ascii a =? 159)%nat = false) by (apply Nat.eqb_neq; lia).
  cbv zeta. rewrite H1, H2, H3, H4, H5, H6, H7, H8, H9, H10, H11, H12.
  repeat split;
    repeat (rewrite ?andb_false_r, ?andb_false_l, ?orb_false_r, ?orb_false_l);
    reflexivity.
Qed.

Lemma trimLeftSpace_plain fb s :
  plain fb s = true -> GoStrings.trimLeftSpace s = s.
Proof.
  destruct s as [|a r]; [reflexivity|]. simpl. intros H.
  apply andb_true_iff in H as [Ha _].
  apply plainByte_inv in Ha as (Ha & Hs & _). rewrite Hs.
  destruct r as [|b r2]; [reflexivity|].
  destruct (space_needs_high_byte a b b Ha) as (H2 & _). rewrite H2.
  destruct r2 as [|c r3]; [reflexivity|].
  destruct (space_needs_high_byte a b c Ha) as (_ & H3 & _). rewrite H3.
  reflexivity.
Qed.

Lemma trimLeftSpaceRev_plain fb s :
  plain fb s = true -> GoStrings.trimLeftSpaceRev s = s.
Proof.
  destruct s as [|a r]; [reflexivity|]. simpl. intros H.
  apply andb_true_iff in H as [Ha _].
  apply plainByte_inv in Ha as (Ha & Hs & _). rewrite Hs.
  destruct r as [|b r2]; [reflexivity|].
  destruct (space_needs_high_byte a b b Ha) as (_ & _ & H2 & _). rewrite H2.
  destruct r2 as [|c r3]; [reflexivity|].
  destruct (space_needs_high_byte a b c Ha) as (_ & _ & _ & H3). rewrite H3.
  reflexivity.
Qed.

(** A string of plain bytes has no white space to trim. *)
Lemma TrimSpace_plain fb s : plain fb s = true -> GoStrings.TrimSpace s = s.
Proof.
  intros H. unfold GoStrings.TrimSpace.
  rewrite (trimLeftSpace_plain fb s H).
  rewrite (trimLeftSpaceRev_plain fb (GoStrings.reverse s))
    by (rewrite plain_reverse; exact H).
  apply reverse_involutive.
Qed.

Lemma Split_not_nil s c : GoStrings.Split s c <> [].
Proof.
  induction s as [|d s IH]; simpl; [discriminate|].
  destruct (GoStrings.Split s c) as [|cur more]; [contradiction|].
  destruct (Ascii.eqb d c); discriminate.
Qed.

Lemma plainByte_not_sep fb c sep :
  plainByte fb c = true ->
  GoStrings.inCutset sep fb = true ->
  Ascii.eqb c sep = false.
Proof.
  intros Hc Hsep. apply plainByte_inv in Hc as (_ & _ & Hc).
  destruct (Ascii.eqb_spec c sep) as [-> | Hne]; [congruence | reflexivity].
Qed.

(** A string without separator stays in the first piece. *)
Lemma Split_plain_append fb s t sep :
  plain fb s = true ->
  GoStrings.inCutset sep fb = true ->
  GoStrings.Split (s +:+ t) sep =
    match GoStrings.Split t sep with
    | cur :: more => (s +:+ cur) :: more
    | [] => []
    end.
Proof.
  intros Hs Hsep. induction s as [|c s IH].
  - rewrite append_empty_l.
    destruct (GoStrings.Split t sep); reflexivity.
  - simpl in Hs. apply andb_true_iff in Hs as [Hc Hs].
    rewrite append_cons. simpl.
    rewrite (IH Hs). rewrite (plainByte_not_sep fb c sep Hc Hsep).
    destruct (GoStrings.Split t sep); reflexivity.
Qed.

Lemma Split_sep_first t sep :
  GoStrings.Split (String sep t) sep = "" :: GoStrings.Split t sep.
Proof.
  simpl. pose proof (Split_not_nil t sep) as Hn.
  destruct (GoStrings.Split t sep) as [|cur more]; [contradiction|].
  rewrite Ascii.eqb_refl. reflexivity.
Qed.

Lemma cut_plain fb s t sep :
  plain fb s = true ->
  GoStrings.inCutset sep fb = true ->
  GoStrings.cut (s +:+ String sep t) sep = Some (s, t).
Proof.
  intros Hs Hsep. induction s as [|c s IH].
  - rewrite append_empty_l. simpl. rewrite Ascii.eqb_refl. reflexivity.
  - simpl in Hs. apply andb_true_iff in Hs as [Hc Hs].
    rewrite append_cons. simpl.
    rewrite (plainByte_not_sep fb c sep Hc Hsep), (IH Hs). reflexivity.
Qed.

Lemma plain_weaken s : plain ",=" s = true -> plain "," s = true.
Proof.
  induction s as [|c s IH]; [reflexivity|]. simpl. intros H.
  apply andb_true_iff in H as [Hc Hs]. rewrite (IH Hs), andb_true_r.
  apply plainByte_inv in Hc as (Ha & Hsp & Hcut).
  unfold plainByte. apply Nat.ltb_lt in Ha. rewrite Ha, Hsp. simpl.
  simpl in Hcut. apply orb_false_iff in Hcut as [Hcomma _].
  rewrite Hcomma. reflexivity.
Qed.

End SystemsFlag.

Section SystemsRoundTrip.
Context {W : Type} {HW : Host W}.

Lemma plain_entryOf (p : string * string) :
  plainEntry p -> plain "," (entryOf p) = true.
Proof.
  intros (Hid & Hent & _). unfold entryOf.
  rewrite !plain_append, (plain_weaken _ Hid), Hent. reflexivity.
Qed.

Lemma entryOf_not_empty (p : string * string) :
  String.eqb (entryOf p) "" = false.
Proof. destruct p as [[|c id] entity]; reflexivity. Qed.

Lemma joinEntries_cons (p q : string * string) (rest : list (string * string)) :
  joinEntries (p :: q :: rest)
  = entryOf p +:+ String ","%char (joinEntries (q :: rest)).
Proof.
  destruct p as [id entity]. unfold entryOf.
  change (joinEntries ((id, entity) :: q :: rest))
    with (id +:+ "=" +:+ entity +:+ "," +:+ joinEntries (q :: rest)).
  simpl fst. simpl snd. rewrite !append_assoc. reflexivity.
Qed.

Lemma Split_joinEntries (l : list (string * string)) :
  l <> [] ->
  Forall plainEntry l ->
  GoStrings.Split (joinEntries l) ","%char = map entryOf l.
Proof.
  induction l as [|p rest IH]; [contradiction|]. intros _ Hall.
  apply Forall_cons in Hall as [Hp Hrest].
  pose proof (plain_entryOf p Hp) as Hplain.
  destruct rest as [|q rest].
  - replace (joinEntries [p]) with (entryOf p) by (destruct p; reflexivity).
    rewrite <- (append_empty_r (entryOf p)) at 1.
    rewrite (Split_plain_append "," (entryOf p) "" "," Hplain eq_refl).
    simpl. rewrite append_empty_r. reflexivity.
  - rewrite joinEntries_cons.
    rewrite (Split_plain_append "," (entryOf p) _ "," Hplain eq_refl).
    rewrite Split_sep_first, append_empty_r.
    rewrite IH by (discriminate || exact Hrest). reflexivity.
Qed.

Lemma joinEntries_not_empty (l : list (string * string)) :
  l <> [] -> String.eqb (joinEntries l) "" = false.
Proof.
  destruct l as [|p [|q rest]]; [contradiction| |]; intros _.
  - replace (joinEntries [p]) with (entryOf p) by (destruct p; reflexivity).
    apply entryOf_not_empty.
  - rewrite joinEntries_cons. destruct p as [[|c id] entity]; reflexivity.
Qed.

Lemma NewHomeAssistant_ok (url tok entity : string) :
  url <> "" -> tok <> "" -> entity <> "" ->
  NewHomeAssistant url tok entity = inr (switchFor url tok entity).
Proof.
  intros Hu Ht He. unfold NewHomeAssistant.
  apply String.eqb_neq in Hu, Ht, He. rewrite Hu, Ht, He. reflexivity.
Qed.

(** The loop over well-formed entries adds one backend per entry, in
    order. *)
Lemma parseEntries_entries (url tok : string) (l : list (string * string))
      (acc : gmap string (Backend W)) :
  url <> "" -> tok <> "" ->
  Forall plainEntry l ->
  main.parseEntries url tok (map entryOf l) acc
  = inr (foldl (fun a p => <[fst p := homeassistant (switchFor url tok (snd p))]> a)
               acc l).
Proof.
  intros Hu Ht. revert acc. induction l as [|p rest IH]; intros acc Hall;
    [reflexivity|].
  apply Forall_cons in Hall as [Hp Hrest].
  pose proof (plain_entryOf p Hp) as Hplain.
  destruct Hp as (Hid & Hent & Hne).
  cbn [map main.parseEntries].
  rewrite (TrimSpace_plain "," (entryOf p) Hplain), entryOf_not_empty.
  unfold GoStrings.SplitN2.
  assert (Hcut : GoStrings.cut (entryOf p) "="%char = Some (fst p, snd p)).
  { unfold entryOf. change ("=" +:+ snd p) with (String "="%char (snd p)).
    apply (cut_plain ",=" (fst p) (snd p) "="%char Hid). reflexivity. }
  rewrite Hcut.
  rewrite (TrimSpace_plain ",=" (fst p) Hid), (TrimSpace_plain "," (snd p) Hent).
  rewrite (NewHomeAssistant_ok url tok (snd p) Hu Ht Hne).
  rewrite (IH _ Hrest). reflexivity.
Qed.

Lemma foldl_lookup (url tok : string) (l : list (string * string))
      (acc : gmap string (Backend W)) (id : string) :
  foldl (fun a p => <[fst p := homeassistant (switchFor url tok (snd p))]> a)
        acc l !! id
  = match lastEntity id l with
    | Some entity => Some (homeassistant (switchFor url tok entity))
    | None => acc !! id
    end.
Proof.
  revert acc. induction l as [|[i entity] rest IH]; intros acc; [reflexivity|].
  simpl. rewrite IH. destruct (lastEntity id rest) as [later|]; [reflexivity|].
  destruct (String.eqb_spec i id) as [-> | Hne].
  - apply lookup_insert_eq.
  - apply lookup_insert_ne. exact Hne.
Qed.

Lemma lastEntity_last (l : list (string * string)) :
  l <> [] -> exists id, is_Some (lastEntity id l).
Proof.
  destruct l as [|[i entity] rest]; [contradiction|]. intros _.
  exists i. simpl. destruct (lastEntity i rest); [eauto|].
  rewrite String.eqb_refl. eauto.
Qed.

End SystemsRoundTrip.

(** X22: the [--systems] flag is read back as it was written.  For a
    non-empty list of pairs of an id and an entity, made of ASCII bytes
    without white space or comma (and no equals sign in the id), with
    entities that are not empty, [main] builds from the entries
    [id=entity] joined by commas the registry that holds, for each id of
    the list, the remote-switch backend of the entity of the last pair for
    that id, and nothing else. *)
Theorem systems_flag_round_trip :
  forall (W : Type) (HW : Host W) (f : main.Flags)
         (l : list (string * string)),
    main.beKind f = "homeassistant" ->
    main.haURL f <> "" ->
    main.haToken f <> "" ->
    l <> [] ->
    Forall plainEntry l ->
    main.haSystems f = joinEntries l ->
    exists m : gmap string (Backend W),
      main.systems f = inr m
      /\ forall id,
           m !! id
           = (fun entity =>
                homeassistant (switchFor (main.haURL f) (main.haToken f) entity))
               <$> lastEntity id l.
Proof.
  intros W HW f l Hk Hu Ht Hne Hall Hsys.
  exists (foldl (fun a p =>
                   <[fst p := homeassistant
                                (switchFor (main.haURL f) (main.haToken f)
                                   (snd p))]> a) ∅ l).
  split.
  - unfold main.systems. rewrite Hk. simpl.
    rewrite Hsys, (joinEntries_not_empty l Hne). simpl.
    rewrite (Split_joinEntries l Hne Hall).
    rewrite (parseEntries_entries _ _ l ∅ Hu Ht Hall).
    match goal with
    | |- (if (size ?m =? 0)%nat then _ else _) = _ =>
        destruct (size m =? 0)%nat eqn:Hsz; [|reflexivity]
    end.
    exfalso. apply Nat.eqb_eq, map_size_empty_iff in Hsz.
    destruct (lastEntity_last l Hne) as (id & entity & Hlast).
    apply (f_equal (fun m => m !! id)) in Hsz.
    rewrite foldl_lookup, Hlast, lookup_empty in Hsz. discriminate Hsz.
  - intros id. rewrite foldl_lookup.
    destruct (lastEntity id l); [reflexivity | apply lookup_empty].
Qed.

Lemma systems_flag_round_trip_witness :
  let f := {| main.listen := ":8080"; main.user := ""; main.pass := "";
              main.systemID := "1"; main.beKind := "homeassistant";
              main.onCmd := ""; main.offCmd := "";
              main.haURL := "http://ha.local/"; main.haToken := "t";
              main.haEntity := "";
              main.haSystems := "1=switch.a,2=switch.b,1=switch.c" |} in
  exists m : gmap string (Backend Scenario.World),
    @main.systems Scenario.World Scenario.scenarioHost f = inr m
    /\ m !! "1"
       = Some (@homeassistant Scenario.World Scenario.scenarioHost
                 (switchFor "http://ha.local/" "t" "switch.c"))
    /\ m !! "3" = None.
Proof.
  intros f.
  destruct (systems_flag_round_trip Scenario.World Scenario.scenarioHost f
              [("1", "switch.a"); ("2", "switch.b"); ("1", "switch.c")])
    as (m & Hm & Hl).
  - reflexivity.
  - discriminate.
  - discriminate.
  - discriminate.
  - repeat constructor; simpl; discriminate.
  - reflexivity.
  - exists m. split; [exact Hm|]. split.
    + rewrite (Hl "1"). reflexivity.
    + rewrite (Hl "3"). reflexivity.
Defined.

(** ** From [main] to the readiness endpoint *)

Lemma main_systems_shipped {W : Type} {HW : Host W} (f : main.Flags)
      (m : gmap string (Backend W)) :
  main.systems f = inr m ->
  forall id be, m !! id = Some be -> shipped be.
Proof.
  unfold main.systems.
  assert (Hone : forall be : Backend W,
             shipped be ->
             forall id be',
               <[main.systemID f := be]> (∅ : gmap string (Backend W)) !! id
               = Some be' ->
               shipped be').
  { intros be Hs id be' Hl.
    apply lookup_insert_Some in Hl as [[_ <-] | [_ Hl]];
      [exact Hs | rewrite lookup_empty in Hl; discriminate Hl]. }
  destruct (String.eqb (main.beKind f) "noop").
  { intros [= <-]. apply Hone. constructor. }
  destruct (String.eqb (main.beKind f) "command").
  { unfold NewCommand. destruct (_ || _); [discriminate|].
    intros [= <-]. apply Hone. constructor. }
  destruct (String.eqb (main.beKind f) "homeassistant"); [|discriminate].
  destruct (negb (String.eqb (main.haSystems f) "")).
  - destruct (main.parseEntries (main.haURL f) (main.haToken f)
                (GoStrings.Split (main.haSystems f) ",") ∅)
      as [fatal | m'] eqn:Hp; [discriminate|].
    destruct (size m' =? 0)%nat; [discriminate|]. intros [= <-].
    apply (parseEntries_shipped _ _ _ _ _ Hp).
    intros id be Hl. rewrite lookup_empty in Hl. discriminate Hl.
  - unfold NewHomeAssistant. destruct (_ || _); [discriminate|].
    intros [= <-]. apply Hone. constructor.
Qed.

(** X23: a server configured by [main] always reports ready.  Whatever
    the flags, when [main] gets as far as building a configuration, the
    readiness endpoint of a server with that configuration replies 200,
    and does so without running a command or sending a request. *)
Theorem server_from_main_is_always_ready :
  forall (W : Type) (HW : Host W) (f : main.Flags) (cfg : Config W)
         (order : list (string * Backend W))
         (w : ResponseWriter) (r : Request) (st : Store W),
    main.config f = inr cfg ->
    Permutation order (map_to_list (Systems cfg)) ->
    Listen cfg = main.listen f
    /\ Username cfg = main.user f
    /\ Password cfg = main.pass f
    /\ StatusCode (fst (handleReadyz cfg order w r st)) = StatusOK
    /\ world (snd (handleReadyz cfg order w r st)) = world st.
Proof.
  intros W HW f cfg order w r st Hcfg Hperm. unfold main.config in Hcfg.
  destruct (main.systems f) as [fatal | m] eqn:Hm; [discriminate Hcfg|].
  injection Hcfg as <-. simpl.
  split; [reflexivity|]. split; [reflexivity|]. split; [reflexivity|].
  apply handleReadyz_shipped; [exact Hperm|].
  exact (main_systems_shipped f m Hm).
Qed.

Lemma server_from_main_is_always_ready_witness :
  let f := {| main.listen := ":8080"; main.user := "admin";
              main.pass := "secret";
              main.systemID := "1"; main.beKind := "homeassistant";
              main.onCmd := ""; main.offCmd := "";
              main.haURL := "http://ha.local/"; main.haToken := "t";
              main.haEntity := "switch.kvm_1"; main.haSystems := "" |} in
  let r := {| Method := MethodGet; Path := "/readyz";
              BasicAuth := None; ResetBody := None |} in
  exists cfg : Config Scenario.World,
    @main.config Scenario.World Scenario.offlineHost f = inr cfg
    /\ StatusCode (fst (handleReadyz cfg (map_to_list (Systems cfg)) newWriter r
                          (New cfg "off"))) = StatusOK.
Proof.
  intros f r.
  destruct (@main.config Scenario.World Scenario.offlineHost f)
    as [fatal | cfg] eqn:Hcfg; [vm_compute in Hcfg; discriminate Hcfg|].
  exists cfg. split; [reflexivity|].
  exact (proj1 (proj2 (proj2 (proj2
    (server_from_main_is_always_ready Scenario.World Scenario.offlineHost
       f cfg (map_to_list (Systems cfg)) newWriter r (New cfg "off")
       Hcfg (Permutation_refl _)))))).
Defined.
